(** * IPL dashboard (sports.py): a shallow embedding and its properties

    The program is one Streamlit script.  It reads two CSV tables with
    pandas, cleans them in place, checks two required columns and then
    renders the view picked in the sidebar.  This development embeds

    - the Python values found in a table cell and the comparisons the
      script applies to them ([Py]);
    - the pandas operations the script calls, on a row-major table
      ([Pandas]);
    - the page, the object store and the control flow of a Streamlit run,
      as a small monad ([Streamlit]);
    - the script itself, statement by statement ([App]);
    - what each view is meant to report, stated row by row, for the
      theorems to compare the script with ([Spec], and [Outcome],
      [Bowling], [HeadToHead], [Chart], [Labels] for single views and
      for the column labels), and a few small tables ([Sample]).

    Modelling conventions.
    - The widgets are inputs: the two uploads and the choices made in
      the radio and the selectboxes are arguments of [script], and a
      widget is not listed among the elements of the page.  The headings
      and the instructions the script writes into the sidebar are.
    - A string holds the UTF-8 bytes of its text.  [str.strip] removes the
      characters Python counts as whitespace, of one to three bytes;
      [str.lower] is modelled on the ASCII letters.  Python lowers the
      letters outside ASCII too; they stay outside ASCII, but for the
      Kelvin sign (U+212A), which becomes 'k'.
    - A numeric cell is an integer and column sums are exact.  This agrees
      with an int64 or a float64 column as long as the magnitudes stay
      below 2^53.  A float64 quotient is represented by the exact rational
      it rounds.
    - [Series.sum] over cells that hold text raises [TypeError] (pandas
      would concatenate text and fail at the next arithmetic step).
    - Column labels are taken to be pairwise distinct; a label denotes its
      first column.
    - numpy's default sort kind for [sort_values] does not promise an order
      among equal values.  The kernel is therefore a parameter
      ([quicksort]) of everything that sorts by value. *)

From Stdlib Require Import List String Ascii ZArith QArith Bool Lia.
From Stdlib Require Import Permutation Sorted DecimalString Qround.
Import ListNotations.

Local Open Scope string_scope.
Local Open Scope list_scope.
Local Open Scope Z_scope.

(** ** Python values *)

Module Py.

(** What a cell of a DataFrame read by [read_csv] can hold. *)
Inductive cell : Type :=
| NaN
| Num (z : Z)
| Str (s : string).

Inductive exn : Type :=
| KeyError (label : string)
| TypeError
| ValueError
| IndexError
| AttributeError.

(** A pure computation that may raise. *)
Inductive res (A : Type) : Type :=
| Val (a : A)
| Exc (e : exn).
Arguments Val {A} a.
Arguments Exc {A} e.

Definition res_bind {A B} (r : res A) (f : A -> res B) : res B :=
  match r with
  | Val a => f a
  | Exc e => Exc e
  end.

Definition is_str (c : cell) : bool :=
  match c with Str _ => true | _ => false end.

Definition notna (c : cell) : bool :=
  match c with NaN => false | _ => true end.

(** Identity of cells as a hash table sees it ([unique], [isin],
    [drop_duplicates]): NaN is one value. *)
Definition cell_eqb (a b : cell) : bool :=
  match a, b with
  | NaN, NaN => true
  | Num x, Num y => x =? y
  | Str s, Str t => String.eqb s t
  | _, _ => false
  end.

(** Python's [==] between two cells: NaN is unequal to everything. *)
Definition py_eq (a b : cell) : bool :=
  match a, b with
  | Num x, Num y => x =? y
  | Str s, Str t => String.eqb s t
  | _, _ => false
  end.

(** [series == selected] where [selected] is what a selectbox returned
    ([None] when it had no options). *)
Definition eq_selected (selected : option cell) (c : cell) : bool :=
  match selected with
  | Some v => py_eq c v
  | None => false
  end.

(** Truth value of what a selectbox returned ([if season:]). *)
Definition truthy (selected : option cell) : bool :=
  match selected with
  | None => false
  | Some NaN => true
  | Some (Num z) => negb (z =? 0)
  | Some (Str s) => negb (String.eqb s "")
  end.

(** [cell > 0] in a comparison of a column with a number. *)
Definition gt_zero (c : cell) : res bool :=
  match c with
  | NaN => Val false
  | Num z => Val (0 <? z)
  | Str _ => Exc TypeError
  end.

(** The order in which pandas lists group keys ([safe_sort]): numbers by
    value, then text by code point, then nulls. *)
Definition cell_leb (a b : cell) : bool :=
  match a, b with
  | Num x, Num y => x <=? y
  | Num _, _ => true
  | Str _, Num _ => false
  | Str s, Str t => String.leb s t
  | Str _, NaN => true
  | NaN, NaN => true
  | NaN, _ => false
  end.

Fixpoint insert_by {A} (leb : A -> A -> bool) (x : A) (l : list A) : list A :=
  match l with
  | [] => [x]
  | y :: l' => if leb x y then x :: l else y :: insert_by leb x l'
  end.

Definition sort_by {A} (leb : A -> A -> bool) (l : list A) : list A :=
  fold_right (insert_by leb) [] l.

(** [sorted(values)]: text sorts by code point, numbers by value, and a
    list that mixes text with anything else raises [TypeError].  (A NaN
    next to numbers does not occur in a cleaned column: a column without
    text is numeric and has been filled.) *)
Definition sorted (l : list cell) : res (list cell) :=
  if forallb is_str l then Val (sort_by cell_leb l)
  else if existsb is_str l then Exc TypeError
  else Val (sort_by cell_leb l).

(** [str.lower], on the ASCII letters.  A character outside ASCII is left
    as it is. *)
Definition lower_ascii (c : ascii) : ascii :=
  let n := nat_of_ascii c in
  if (andb (65 <=? n) (n <=? 90))%nat then ascii_of_nat (n + 32) else c.

Fixpoint lower (s : string) : string :=
  match s with
  | EmptyString => EmptyString
  | String c s' => String (lower_ascii c) (lower s')
  end.

(** A string holds the UTF-8 bytes of its text.  [utf8 cp] is the
    encoding of a code point below 2^16. *)
Definition utf8 (cp : N) : string :=
  if (cp <? 128)%N then String (ascii_of_N cp) EmptyString
  else if (cp <? 2048)%N then
    String (ascii_of_N (192 + cp / 64))
      (String (ascii_of_N (128 + cp mod 64)) EmptyString)
  else
    String (ascii_of_N (224 + cp / 4096))
      (String (ascii_of_N (128 + (cp / 64) mod 64))
         (String (ascii_of_N (128 + cp mod 64)) EmptyString)).

(** The code points for which [str.isspace] holds, the ones [str.strip]
    removes: U+0009 to U+000D, U+001C to U+0020, U+0085, U+00A0, U+1680,
    U+2000 to U+200A, U+2028, U+2029, U+202F, U+205F and U+3000. *)
Definition whitespace_code_points : list N :=
  [9; 10; 11; 12; 13; 28; 29; 30; 31; 32; 133; 160; 5760;
   8192; 8193; 8194; 8195; 8196; 8197; 8198; 8199; 8200; 8201; 8202;
   8232; 8233; 8239; 8287; 12288]%N.

Definition whitespace : list string :=
  Eval vm_compute in map utf8 whitespace_code_points.

(** [w.isspace()] of one character, given by its bytes. *)
Definition is_space (w : string) : bool := existsb (String.eqb w) whitespace.

(** [str.lstrip]: a whitespace character takes one, two or three bytes. *)
Fixpoint lstrip (s : string) : string :=
  match s with
  | EmptyString => EmptyString
  | String a s1 =>
      if is_space (String a EmptyString) then lstrip s1
      else
        match s1 with
        | EmptyString => s
        | String b s2 =>
            if is_space (String a (String b EmptyString)) then lstrip s2
            else
              match s2 with
              | EmptyString => s
              | String c s3 =>
                  if is_space (String a (String b (String c EmptyString)))
                  then lstrip s3
                  else s
              end
        end
  end.

(** Nothing but whitespace. *)
Definition blank (s : string) : bool :=
  match lstrip s with EmptyString => true | _ => false end.

(** [str.rstrip]: cut where the rest is nothing but whitespace. *)
Fixpoint rstrip (s : string) : string :=
  match s with
  | EmptyString => EmptyString
  | String c s' => if blank s then EmptyString else String c (rstrip s')
  end.

Definition strip (s : string) : string := rstrip (lstrip s).

End Py.
Export Py.

(** ** pandas *)

Module Pandas.

(** A table, row-major.  A row shorter than the header reads as NaN past
    its end, as [read_csv] pads it. *)
Record DataFrame : Type := mkDataFrame {
  columns : list string;
  rows : list (list cell)
}.

(** A Series that carries its index: the result of an aggregation. *)
Definition Series : Type := list (cell * Z).

Fixpoint index_of (label : string) (cols : list string) : option nat :=
  match cols with
  | [] => None
  | c :: cols' =>
      if String.eqb label c then Some O
      else option_map S (index_of label cols')
  end.

(** [label in d.columns] *)
Definition has_column (d : DataFrame) (label : string) : bool :=
  match index_of label (columns d) with Some _ => true | None => false end.

Definition at_ (i : nat) (row : list cell) : cell := nth i row NaN.

(** [d[label]] *)
Definition getitem (d : DataFrame) (label : string) : res (list cell) :=
  match index_of label (columns d) with
  | Some i => Val (map (at_ i) (rows d))
  | None => Exc (KeyError label)
  end.

Fixpoint select {A} (l : list A) (mask : list bool) : list A :=
  match l, mask with
  | x :: l', b :: mask' => if b then x :: select l' mask' else select l' mask'
  | _, _ => []
  end.

(** [d[mask]]: a new table holding the rows where the mask is true. *)
Definition where_ (d : DataFrame) (mask : list bool) : DataFrame :=
  mkDataFrame (columns d) (select (rows d) mask).

Fixpoint zip_with {A B C} (f : A -> B -> C) (l : list A) (m : list B) : list C :=
  match l, m with
  | x :: l', y :: m' => f x y :: zip_with f l' m'
  | _, _ => []
  end.

(** [d.shape[0]] *)
Definition shape0 (d : DataFrame) : Z := Z.of_nat (List.length (rows d)).

(** [d.empty] *)
Definition empty (d : DataFrame) : bool :=
  match rows d, columns d with
  | [], _ => true
  | _, [] => true
  | _, _ => false
  end.

(** [mask.sum()] *)
Definition count_true (mask : list bool) : Z :=
  Z.of_nat (List.length (filter (fun b : bool => b) mask)).

Definition row_eqb (r s : list cell) (width : nat) : bool :=
  forallb (fun i => cell_eqb (at_ i r) (at_ i s)) (seq 0 width).

Fixpoint keep_first {A} (eqb : A -> A -> bool) (seen l : list A) : list A :=
  match l with
  | [] => []
  | x :: l' =>
      if existsb (eqb x) seen then keep_first eqb seen l'
      else x :: keep_first eqb (x :: seen) l'
  end.

(** [d.drop_duplicates()]: the first of each run of equal rows stays. *)
Definition drop_duplicates (d : DataFrame) : DataFrame :=
  let width := List.length (columns d) in
  mkDataFrame (columns d)
    (keep_first (fun r s => row_eqb r s width) [] (rows d)).

Definition fill0 (c : cell) : cell :=
  match c with NaN => Num 0 | _ => c end.

(** [d.fillna(0)] *)
Definition fillna0 (d : DataFrame) : DataFrame :=
  let width := List.length (columns d) in
  mkDataFrame (columns d)
    (map (fun r => map (fun i => fill0 (at_ i r)) (seq 0 width)) (rows d)).

(** The dtype of column [i] is numeric when the column is not empty and
    holds no text. *)
Definition numeric_at (d : DataFrame) (i : nat) : bool :=
  match rows d with
  | [] => false
  | _ => forallb (fun r => negb (is_str (at_ i r))) (rows d)
  end.

(** [d.select_dtypes(include=['number']).columns], as positions. *)
Definition select_dtypes_number (d : DataFrame) : list nat :=
  filter (numeric_at d) (seq 0 (List.length (columns d))).

(** [d[num_cols] = d[num_cols].fillna(0)] *)
Definition fillna0_at (d : DataFrame) (num_cols : list nat) : DataFrame :=
  let width := List.length (columns d) in
  mkDataFrame (columns d)
    (map (fun r =>
            map (fun i => if existsb (Nat.eqb i) num_cols
                          then fill0 (at_ i r) else at_ i r)
                (seq 0 width))
         (rows d)).

(** [d[label] = values]: overwrite the column, or append it. *)
Definition setitem (d : DataFrame) (label : string) (values : list cell)
  : DataFrame :=
  match index_of label (columns d) with
  | Some i =>
      mkDataFrame (columns d)
        (zip_with (fun r v => firstn i r ++ v :: skipn (S i) r) (rows d) values)
  | None =>
      let width := List.length (columns d) in
      mkDataFrame (columns d ++ [label])
        (zip_with (fun r v => map (fun i => at_ i r) (seq 0 width) ++ [v])
                  (rows d) values)
  end.

(** [s.unique()]: distinct values in order of first appearance. *)
Definition unique (s : list cell) : list cell := keep_first cell_eqb [] s.

(** [s.isin(values)] *)
Definition isin (s values : list cell) : list bool :=
  map (fun c => existsb (cell_eqb c) values) s.

(** [s.sum()]: nulls are skipped. *)
Fixpoint sum (s : list cell) : res Z :=
  match s with
  | [] => Val 0
  | NaN :: s' => sum s'
  | Num z :: s' => res_bind (sum s') (fun t => Val (z + t))
  | Str _ :: _ => Exc TypeError
  end.

Fixpoint traverse {A B} (f : A -> res B) (l : list A) : res (list B) :=
  match l with
  | [] => Val []
  | x :: l' =>
      res_bind (f x) (fun y =>
      res_bind (traverse f l') (fun ys => Val (y :: ys)))
  end.

(** The group keys of [d.groupby(key)]: nulls dropped, sorted. *)
Definition group_keys (k : list cell) : list cell :=
  sort_by cell_leb (unique (filter notna k)).

(** The cells of [v] on the rows whose key is [g]. *)
Definition group (k v : list cell) (g : cell) : list cell :=
  select v (map (cell_eqb g) k).

(** [d.groupby(key)[val].sum()] *)
Definition groupby_sum (d : DataFrame) (key val : string) : res Series :=
  res_bind (getitem d key) (fun k =>
  res_bind (getitem d val) (fun v =>
  traverse (fun g => res_bind (sum (group k v g)) (fun t => Val (g, t)))
           (group_keys k))).

(** [s.head(n)] *)
Definition head {A} (n : nat) (s : list A) : list A := firstn n s.

(** [s.take(indexer)] *)
Definition take {A} (s : list A) (indexer : list nat) : list A :=
  flat_map (fun i => match nth_error s i with Some x => [x] | None => [] end)
           indexer.

(** [nargsort(items, kind, ascending=False)]: the items are reversed, the
    kernel [kind] (an argsort into ascending order) runs on them, and the
    resulting indexer is reversed again. *)
Definition nargsort_desc (kind : list Z -> list nat) (items : list Z)
  : list nat :=
  let idx := seq 0 (List.length items) in
  let non_nans := rev items in
  let non_nan_idx := rev idx in
  let indexer := map (fun i => nth i non_nan_idx O) (kind non_nans) in
  rev indexer.

(** [s.sort_values(ascending=False)] *)
Definition sort_values_desc (kind : list Z -> list nat) (s : Series) : Series :=
  take s (nargsort_desc kind (map snd s)).

Definition count_of (v : cell) (s : list cell) : Z :=
  Z.of_nat (List.length (filter (cell_eqb v) s)).

(** The distinct non-null values with their counts, first appearance
    first. *)
Definition counts (s : list cell) : Series :=
  map (fun v => (v, count_of v s)) (unique (filter notna s)).

(** [s.value_counts()] *)
Definition value_counts (kind : list Z -> list nat) (s : list cell) : Series :=
  sort_values_desc kind (counts s).

(** [s.max()] of integers; [None] stands for the NaN of an empty Series. *)
Definition max (l : list Z) : option Z :=
  match l with
  | [] => None
  | z :: l' => Some (fold_left Z.max l' z)
  end.

(** [s.mode()]: the most frequent values, sorted when they can be
    compared and left in order of appearance otherwise. *)
Definition mode (s : list cell) : list cell :=
  let c := counts s in
  match max (map snd c) with
  | None => []
  | Some top =>
      let modes := map fst (filter (fun p => snd p =? top) c) in
      match sorted modes with
      | Val l => l
      | Exc _ => modes
      end
  end.

(** [s.mode()[0]] *)
Definition mode0 (s : list cell) : res cell :=
  match mode s with
  | v :: _ => Val v
  | [] => Exc (KeyError "0")
  end.

(** [s.mean()] of one group: nulls are skipped, and the mean of nothing
    is NaN ([None]). *)
Definition mean (s : list cell) : res (option Q) :=
  res_bind (sum s) (fun t =>
  match List.length (filter notna s) with
  | O => Val None
  | n => Val (Some (inject_Z t / inject_Z (Z.of_nat n))%Q)
  end).

(** [d.groupby(key)[val].mean()] *)
Definition groupby_mean (d : DataFrame) (key val : string)
  : res (list (cell * option Q)) :=
  res_bind (getitem d key) (fun k =>
  res_bind (getitem d val) (fun v =>
  traverse (fun g => res_bind (mean (group k v g)) (fun m => Val (g, m)))
           (group_keys k))).

(** [d.groupby(key)[val].apply(lambda x: x.notna().sum())] *)
Definition groupby_count_notna (d : DataFrame) (key val : string) : res Series :=
  res_bind (getitem d key) (fun k =>
  res_bind (getitem d val) (fun v =>
  Val (map (fun g => (g, Z.of_nat (List.length (filter notna (group k v g)))))
           (group_keys k)))).

(** [s.reset_index()] of a [value_counts] result: a two-column table. *)
Definition reset_index (name : string) (s : Series) : DataFrame :=
  mkDataFrame [name; "count"] (map (fun p => [fst p; Num (snd p)]) s).

(** [d.columns = labels] *)
Definition set_columns (d : DataFrame) (labels : list string) : res DataFrame :=
  if Nat.eqb (List.length labels) (List.length (columns d))
  then Val (mkDataFrame labels (rows d))
  else Exc ValueError.

(** [d.info()]: the row count and, per column, the count of non-null
    cells. *)
Definition info (d : DataFrame) : Z * list (string * Z) :=
  (shape0 d,
   map (fun i => (nth i (columns d) "",
                  Z.of_nat (List.length (filter (fun r => notna (at_ i r)) (rows d)))))
       (seq 0 (List.length (columns d)))).

(** *** [to_csv(index=False)] *)

Definition dquote : string := String (ascii_of_nat 34) EmptyString.

Fixpoint needs_quoting (s : string) : bool :=
  match s with
  | EmptyString => false
  | String c s' =>
      let n := nat_of_ascii c in
      orb (orb (Nat.eqb n 44) (Nat.eqb n 34))
          (orb (orb (Nat.eqb n 10) (Nat.eqb n 13)) (needs_quoting s'))
  end.

Fixpoint double_quotes (s : string) : string :=
  match s with
  | EmptyString => EmptyString
  | String c s' =>
      if Nat.eqb (nat_of_ascii c) 34
      then String c (String c (double_quotes s'))
      else String c (double_quotes s')
  end.

Definition csv_field (s : string) : string :=
  if needs_quoting s
  then String.append dquote (String.append (double_quotes s) dquote)
  else s.

Definition csv_cell (c : cell) : string :=
  match c with
  | NaN => ""
  | Num z => NilZero.string_of_int (Z.to_int z)
  | Str s => csv_field s
  end.

Definition newline : string := String (ascii_of_nat 10) EmptyString.

Definition csv_line (fields : list string) : string :=
  String.append (String.concat "," fields) newline.

Definition to_csv (d : DataFrame) : string :=
  String.concat ""
    (csv_line (map csv_field (columns d))
     :: map (fun r => csv_line (map (fun i => csv_cell (at_ i r))
                                    (seq 0 (List.length (columns d)))))
            (rows d)).

End Pandas.
Export Pandas.

(** ** Streamlit: the page, the store and the control flow *)

Module Streamlit.

(** A value interpolated into a rendered line. *)
Inductive value : Type :=
| VInt (z : Z)                  (* [{x}] of an integer *)
| VFixed2 (q : Q)               (* [{x:.2f}] *)
| VCell (c : cell)              (* [{x}] of a table cell *)
| VLabels (l : list string).    (* [{x}] of a list of column labels *)

Inductive chart : Type :=
| BarPlot (s : Series)
| LinePlot (s : list (cell * option Q))
| CountPlot (x : list cell) (hue : option (list cell)).

(** What the script puts on the page, in order. *)
Inductive output : Type :=
| st_title (text : string)
| st_write (text : string) (args : list value)
| st_error (text : string) (args : list value)
| st_warning (text : string)
| st_info (text : string)
| st_header (text : string)
| st_subheader (text : string)
| st_sidebar_header (text : string)
| st_sidebar_markdown (text : string)
| st_markdown (text : string) (args : list value)
| st_text (summary : Z * list (string * Z))
| st_dataframe (d : DataFrame)
| st_pyplot (fig : chart)
| st_bar_chart (s : Series)
| st_download_button (label data file_name : string).

(** The store of the mutable objects (tables), addressed by position. *)
Definition heap : Type := list DataFrame.

Inductive status (A : Type) : Type :=
| Done (a : A)
| Raised (e : exn)
| Stopped.                      (* [st.stop()] *)
Arguments Done {A} a.
Arguments Raised {A} e.
Arguments Stopped {A}.

(** A run of some statements: its status, the store it leaves and what it
    rendered. *)
Definition M (A : Type) : Type := heap -> status A * heap * list output.

Definition ret {A} (a : A) : M A := fun h => (Done a, h, []).

Definition bind {A B} (m : M A) (f : A -> M B) : M B :=
  fun h =>
    match m h with
    | (Done a, h1, o1) =>
        match f a h1 with
        | (s, h2, o2) => (s, h2, o1 ++ o2)
        end
    | (Raised e, h1, o1) => (Raised e, h1, o1)
    | (Stopped, h1, o1) => (Stopped, h1, o1)
    end.

Definition raise {A} (e : exn) : M A := fun h => (Raised e, h, []).

Definition stop {A} : M A := fun h => (Stopped, h, []).

Definition emit (o : output) : M unit := fun h => (Done tt, h, [o]).

(** Evaluate a pure expression that may raise. *)
Definition eval {A} (r : res A) : M A :=
  match r with
  | Val a => ret a
  | Exc e => raise e
  end.

(** Bind a new object to a fresh address. *)
Definition alloc (d : DataFrame) : M nat :=
  fun h => (Done (List.length h), h ++ [d], []).

(** Read the object a name refers to. *)
Definition deref (r : nat) : M DataFrame :=
  fun h => (Done (nth r h (mkDataFrame [] [])), h, []).

Fixpoint update {A} (r : nat) (x : A) (l : list A) : list A :=
  match r, l with
  | _, [] => []
  | O, _ :: l' => x :: l'
  | S r', y :: l' => y :: update r' x l'
  end.

(** Overwrite an object in place. *)
Definition store (r : nat) (d : DataFrame) : M unit :=
  fun h => (Done tt, update r d h, []).

(** Apply an in-place method to the object at [r]. *)
Definition mutate (r : nat) (f : DataFrame -> DataFrame) : M unit :=
  bind (deref r) (fun d => store r (f d)).

(** [st.selectbox(label, options)]: the option the user points at, the
    first one when the choice is out of range, [None] without options. *)
Definition selectbox {A} (options : list A) (choice : nat) : option A :=
  match options with
  | [] => None
  | x :: _ => Some (nth choice options x)
  end.

(** A run whose page is preceded by [page]. *)
Definition prepend {A} (page : list output) (r : status A * heap * list output)
  : status A * heap * list output :=
  match r with
  | (s, h, o) => (s, h, page ++ o)
  end.

End Streamlit.
Export Streamlit.

Declare Scope py_scope.
Delimit Scope py_scope with py.
Notation "x <- m ;; k" := (bind m (fun x => k))
  (at level 61, m at next level, right associativity) : py_scope.
Notation "m ;; k" := (bind m (fun _ => k))
  (at level 61, right associativity) : py_scope.

(** ** The script *)

Module App.

Local Open Scope py_scope.

Inductive section : Type :=
| DashboardOverview
| PlayerStatistics
| TeamAnalysis
| SeasonWiseTrends
| BowlerAnalysis
| MatchOutcomeInsights
| InteractiveVisualizations
| DownloadableReports
| AdvancedAnalytics.

(** What the user did in the sidebar and in the selectboxes of the view. *)
Record ui : Type := mkUi {
  radio : section;
  choice : nat;          (* the first selectbox of the view *)
  choice2 : nat          (* the second one (Interactive Visualizations) *)
}.

Definition required_cols : list string := ["batsman"; "batsman_runs"].

(** [d.columns = d.columns.str.strip().str.lower()] *)
Definition normalize_columns (d : DataFrame) : DataFrame :=
  mkDataFrame (map (fun c => lower (strip c)) (columns d)) (rows d).

Definition nonempty {A} (l : list A) : bool :=
  match l with [] => false | _ => true end.

Definition Qltb (x y : Q) : bool := negb (Qle_bool y x).

(** [series.plot(...)]: pandas refuses to plot an empty Series. *)
Definition plot_bar (s : Series) : res chart :=
  match s with
  | [] => Exc TypeError
  | _ => Val (BarPlot s)
  end.

Definition plot_line (s : list (cell * option Q)) : res chart :=
  match s with
  | [] => Exc TypeError
  | _ => Val (LinePlot s)
  end.

(** [sns.countplot(x=..., hue=..., data=d)]: seaborn raises [ValueError]
    for a name that is not a column. *)
Definition countplot (d : DataFrame) (x : string) (hue : option string)
  : res chart :=
  match getitem d x with
  | Exc _ => Exc ValueError
  | Val xs =>
      match hue with
      | None => Val (CountPlot xs None)
      | Some h =>
          match getitem d h with
          | Exc _ => Exc ValueError
          | Val hs => Val (CountPlot xs (Some hs))
          end
      end
  end.

(** [s.index[0]], [s.iloc[0]] *)
Definition iloc0 (s : Series) : res (cell * Z) :=
  match s with
  | p :: _ => Val p
  | [] => Exc IndexError
  end.

(** [series.str.lower()]: only an object column has the accessor; what is
    not text becomes NaN. *)
Definition str_lower (s : list cell) : res (list cell) :=
  if andb (nonempty s) (negb (existsb is_str s)) then Exc AttributeError
  else Val (map (fun c => match c with Str t => Str (lower t) | _ => NaN end) s).

(** [row[label]] inside [apply(..., axis=1)] *)
Definition row_get (cols : list string) (row : list cell) (label : string)
  : res cell :=
  match index_of label cols with
  | Some i => Val (at_ i row)
  | None => Exc (KeyError label)
  end.

Definition get_opponent (row : string -> res cell) : res cell :=
  res_bind (row "winner") (fun w =>
  res_bind (row "team1") (fun t1 =>
  if py_eq w t1 then row "team2" else row "team1")).

(** [d.apply(get_opponent, axis=1)] *)
Definition apply_get_opponent (d : DataFrame) : res (list cell) :=
  traverse (fun r => get_opponent (row_get (columns d) r)) (rows d).

(** [d[mask].copy()] and the like: the new table is an object of its own. *)
Definition copy (r : nat) : M nat :=
  d <- deref r ;; alloc d.

(** [name.columns = labels] *)
Definition assign_columns (r : nat) (labels : list string) : M unit :=
  d <- deref r ;;
  d' <- eval (set_columns d labels) ;;
  store r d'.

Section Script.

(** numpy's [argsort] of kind 'quicksort', the default of [sort_values]. *)
Variable quicksort : list Z -> list nat.

(** [deliveries.groupby("batsman")["batsman_runs"].sum()
      .sort_values(ascending=False).head(n)] *)
Definition top_scorers (n : nat) (d : DataFrame) : res Series :=
  res_bind (groupby_sum d "batsman" "batsman_runs") (fun by_batsman =>
  Val (head n (sort_values_desc quicksort by_batsman))).

Definition top_runs (d : DataFrame) : res Series := top_scorers 10 d.

Definition dashboard_overview (df deliveries : nat) : M unit :=
  d <- deref deliveries ;;
  top_runs <- eval (top_runs d) ;;
  emit (st_subheader "🏏 Top 10 Run Scorers") ;;
  fig <- eval (plot_bar top_runs) ;;
  emit (st_pyplot fig) ;;
  m <- deref df ;;
  winner <- eval (getitem m "winner") ;;
  let top_teams := head 10 (value_counts quicksort winner) in
  emit (st_subheader "🏆 Top Winning Teams") ;;
  emit (st_pyplot (BarPlot top_teams)) ;;
  emit (st_subheader "🎲 Toss Decision Distribution") ;;
  m <- deref df ;;
  fig <- eval (countplot m "toss_decision" None) ;;
  emit (st_pyplot fig) ;;
  emit (st_subheader "🎯 Effect of Toss Decision on Match Outcome") ;;
  m <- deref df ;;
  fig <- eval (countplot m "toss_decision" (Some "winner")) ;;
  emit (st_pyplot fig) ;;
  d <- deref deliveries ;;
  (if andb (has_column d "over") (has_column d "total_runs") then
     avg_runs_over <- eval (groupby_mean d "over" "total_runs") ;;
     emit (st_subheader "📈 Average Runs Per Over") ;;
     fig <- eval (plot_line avg_runs_over) ;;
     emit (st_pyplot fig)
   else ret tt) ;;
  emit (st_subheader "📌 Key Insights") ;;
  m <- deref df ;;
  emit (st_write "Total Matches in Dataset: {}" [VInt (shape0 m)]) ;;
  winner <- eval (getitem m "winner") ;;
  top_team <- eval (mode0 winner) ;;
  emit (st_write "Most Successful Team: {}" [VCell top_team]) ;;
  first <- eval (iloc0 top_runs) ;;
  emit (st_write "Top Batsman: {} with {} runs"
                 [VCell (fst first); VInt (snd first)]).

Definition player_statistics (deliveries : nat) (u : ui) : M unit :=
  emit (st_header "Player Statistics") ;;
  d <- deref deliveries ;;
  batsman <- eval (getitem d "batsman") ;;
  player_list <- eval (sorted (unique batsman)) ;;
  let selected_player := selectbox player_list (choice u) in
  d <- deref deliveries ;;
  batsman <- eval (getitem d "batsman") ;;
  let player_data := where_ d (map (eq_selected selected_player) batsman) in
  batsman_runs <- eval (getitem player_data "batsman_runs") ;;
  total_runs <- eval (sum batsman_runs) ;;
  let balls_faced := shape0 player_data in
  player_dismissed <- eval (getitem player_data "player_dismissed") ;;
  let outs := count_true (map (eq_selected selected_player) player_dismissed) in
  let average :=
    if 0 <? outs then (inject_Z total_runs / inject_Z outs)%Q
    else inject_Z total_runs in
  let strike_rate :=
    if 0 <? balls_faced
    then ((inject_Z total_runs / inject_Z balls_faced) * inject_Z 100)%Q
    else inject_Z 0 in
  emit (st_markdown "**Total Runs:** {}" [VInt total_runs]) ;;
  emit (st_markdown "**Balls Faced:** {}" [VInt balls_faced]) ;;
  emit (st_markdown "**Average:** {}" [VFixed2 average]) ;;
  emit (st_markdown "**Strike Rate:** {}" [VFixed2 strike_rate]).

Definition team_analysis (df : nat) (u : ui) : M unit :=
  emit (st_header "Team Analysis") ;;
  m <- deref df ;;
  team1 <- eval (getitem m "team1") ;;
  team_list <- eval (sorted (unique team1)) ;;
  let selected_team := selectbox team_list (choice u) in
  m <- deref df ;;
  team1 <- eval (getitem m "team1") ;;
  team2 <- eval (getitem m "team2") ;;
  let matches_played :=
    where_ m (zip_with orb (map (eq_selected selected_team) team1)
                           (map (eq_selected selected_team) team2)) in
  let total_matches := shape0 matches_played in
  winner <- eval (getitem m "winner") ;;
  let total_wins := count_true (map (eq_selected selected_team) winner) in
  let win_pct :=
    if 0 <? total_matches
    then (inject_Z total_wins / inject_Z total_matches * inject_Z 100)%Q
    else inject_Z 0 in
  emit (st_markdown "**Total Matches Played:** {}" [VInt total_matches]) ;;
  emit (st_markdown "**Total Wins:** {}" [VInt total_wins]) ;;
  emit (st_markdown "**Win Percentage:** {}%" [VFixed2 win_pct]) ;;
  emit (st_subheader "Head-to-Head Wins vs Other Teams") ;;
  m <- deref df ;;
  winner <- eval (getitem m "winner") ;;
  let won := where_ m (map (eq_selected selected_team) winner) in
  head_to_head <-
    (if has_column m "loser" then eval (getitem won "loser")
     else eval (getitem won "team2")) ;;
  m <- deref df ;;
  h2h_counts <-
    (if has_column m "loser" then
       h2h_counts <- alloc (reset_index "loser"
                                        (value_counts quicksort head_to_head)) ;;
       assign_columns h2h_counts ["Opponent"; "Wins Against"] ;;
       ret h2h_counts
     else
       winner <- eval (getitem m "winner") ;;
       won <- alloc (where_ m (map (eq_selected selected_team) winner)) ;;
       h2h <- copy won ;;
       t <- deref h2h ;;
       opponent <- eval (apply_get_opponent t) ;;
       mutate h2h (fun t => setitem t "Opponent" opponent) ;;
       t <- deref h2h ;;
       opponent <- eval (getitem t "Opponent") ;;
       h2h_counts <- alloc (reset_index "Opponent"
                                        (value_counts quicksort opponent)) ;;
       assign_columns h2h_counts ["Opponent"; "Wins Against"] ;;
       ret h2h_counts) ;;
  t <- deref h2h_counts ;;
  emit (st_dataframe t).

Definition season_wise_trends (df deliveries : nat) (u : ui) : M unit :=
  emit (st_header "Season-wise Trends") ;;
  m <- deref df ;;
  if has_column m "season" then
    season <- eval (getitem m "season") ;;
    season_list <- eval (sorted (unique season)) ;;
    let selected_season := selectbox season_list (choice u) in
    m <- deref df ;;
    season <- eval (getitem m "season") ;;
    let season_df := where_ m (map (eq_selected selected_season) season) in
    emit (st_markdown "**Total Matches:** {}" [VInt (shape0 season_df)]) ;;
    (if has_column season_df "winner" then
       winner <- eval (getitem season_df "winner") ;;
       top_team <- eval (mode0 winner) ;;
       emit (st_markdown "**Most Successful Team:** {}" [VCell top_team])
     else ret tt) ;;
    d <- deref deliveries ;;
    (if andb (has_column season_df "id") (has_column d "batsman") then
       id <- eval (getitem season_df "id") ;;
       let match_ids := unique id in
       d <- deref deliveries ;;
       match_id <- eval (getitem d "match_id") ;;
       let season_deliveries := where_ d (isin match_id match_ids) in
       top_batsman <- eval (top_scorers 1 season_deliveries) ;;
       match top_batsman with
       | [] => ret tt
       | p :: _ =>
           emit (st_markdown "**Top Run Scorer:** {} ({} runs)"
                             [VCell (fst p); VInt (snd p)])
       end
     else ret tt)
  else
    emit (st_info "Season data not available in matches file.").

Definition bowler_analysis (deliveries : nat) (u : ui) : M unit :=
  emit (st_header "Bowler Analysis") ;;
  d <- deref deliveries ;;
  bowler <- eval (getitem d "bowler") ;;
  bowler_list <- eval (sorted (unique bowler)) ;;
  let selected_bowler := selectbox bowler_list (choice u) in
  d <- deref deliveries ;;
  bowler <- eval (getitem d "bowler") ;;
  let bowler_data := where_ d (map (eq_selected selected_bowler) bowler) in
  player_dismissed <- eval (getitem bowler_data "player_dismissed") ;;
  let wickets := count_true (map notna player_dismissed) in
  let balls := shape0 bowler_data in
  total_runs <- eval (getitem bowler_data "total_runs") ;;
  runs <- eval (sum total_runs) ;;
  let overs := (inject_Z (balls / 6) + inject_Z (balls mod 6) / inject_Z 6)%Q in
  let economy :=
    if Qltb (inject_Z 0) overs then (inject_Z runs / overs)%Q
    else inject_Z 0 in
  emit (st_markdown "**Total Wickets:** {}" [VInt wickets]) ;;
  emit (st_markdown "**Economy Rate:** {}" [VFixed2 economy]) ;;
  if has_column bowler_data "match_id" then
    per_match <- eval (groupby_count_notna bowler_data "match_id"
                                           "player_dismissed") ;;
    let best := max (map snd per_match) in
    emit (st_markdown "**Best Bowling (Wickets in a Match):** {}"
                      [match best with
                       | Some z => VInt z
                       | None => VCell NaN
                       end])
  else ret tt.

(** [d[d[label] > 0].shape[0] if label in d.columns else 0] *)
Definition count_positive (d : DataFrame) (label : string) : res Z :=
  if has_column d label then
    res_bind (getitem d label) (fun c =>
    res_bind (traverse gt_zero c) (fun mask =>
    Val (shape0 (where_ d mask))))
  else Val 0.

(** [d[d['result'].str.lower() == word].shape[0] if 'result' in d.columns
    else 0] *)
Definition count_result (d : DataFrame) (word : string) : res Z :=
  if has_column d "result" then
    res_bind (getitem d "result") (fun c =>
    res_bind (str_lower c) (fun l =>
    Val (shape0 (where_ d (map (fun x => py_eq x (Str word)) l)))))
  else Val 0.

Definition match_outcome_insights (df : nat) : M unit :=
  emit (st_header "Match Outcome Insights") ;;
  m <- deref df ;;
  win_by_runs <- eval (count_positive m "win_by_runs") ;;
  m <- deref df ;;
  win_by_wickets <- eval (count_positive m "win_by_wickets") ;;
  m <- deref df ;;
  ties <- eval (count_result m "tie") ;;
  m <- deref df ;;
  no_result <- eval (count_result m "no result") ;;
  emit (st_markdown "**Matches Won by Runs:** {}" [VInt win_by_runs]) ;;
  emit (st_markdown "**Matches Won by Wickets:** {}" [VInt win_by_wickets]) ;;
  emit (st_markdown "**Tied Matches:** {}" [VInt ties]) ;;
  emit (st_markdown "**No Result Matches:** {}" [VInt no_result]).

Definition interactive_visualizations (df deliveries : nat) (u : ui)
  : M unit :=
  emit (st_header "Interactive Visualizations") ;;
  emit (st_markdown "Select a team and season to view their run distribution:"
                    []) ;;
  m <- deref df ;;
  team1 <- eval (getitem m "team1") ;;
  team_list <- eval (sorted (unique team1)) ;;
  m <- deref df ;;
  season_list <-
    (if has_column m "season" then
       season <- eval (getitem m "season") ;;
       eval (sorted (unique season))
     else ret []) ;;
  let team := selectbox team_list (choice u) in
  let season :=
    if nonempty season_list then selectbox season_list (choice2 u)
    else None in
  team_deliveries <-
    (if truthy season then
       m <- deref df ;;
       season_col <- eval (getitem m "season") ;;
       team1 <- eval (getitem m "team1") ;;
       team2 <- eval (getitem m "team2") ;;
       let played :=
         where_ m (zip_with andb
                     (map (eq_selected season) season_col)
                     (zip_with orb (map (eq_selected team) team1)
                                   (map (eq_selected team) team2))) in
       id <- eval (getitem played "id") ;;
       let match_ids := unique id in
       d <- deref deliveries ;;
       match_id <- eval (getitem d "match_id") ;;
       batting_team <- eval (getitem d "batting_team") ;;
       ret (where_ d (zip_with andb (isin match_id match_ids)
                                    (map (eq_selected team) batting_team)))
     else
       d <- deref deliveries ;;
       batting_team <- eval (getitem d "batting_team") ;;
       ret (where_ d (map (eq_selected team) batting_team))) ;;
  if negb (empty team_deliveries) then
    runs_by_match <- eval (groupby_sum team_deliveries "match_id"
                                       "total_runs") ;;
    emit (st_bar_chart runs_by_match)
  else
    emit (st_info "No data for selected filters.").

Definition downloadable_reports (df deliveries : nat) : M unit :=
  emit (st_header "Downloadable Reports") ;;
  emit (st_markdown "Download the IPL matches or deliveries data as CSV:" []) ;;
  m <- deref df ;;
  emit (st_download_button "Download Matches CSV" (to_csv m)
                           "ipl_matches.csv") ;;
  d <- deref deliveries ;;
  emit (st_download_button "Download Deliveries CSV" (to_csv d)
                           "deliveries.csv").

Definition advanced_analytics : M unit :=
  emit (st_header "Advanced Analytics") ;;
  emit (st_info "Predict match outcomes and advanced stats. [ML models can be added here].").

(** The [if section == ...: ... elif ...] chain. *)
Definition view (df deliveries : nat) (u : ui) : M unit :=
  match radio u with
  | DashboardOverview => dashboard_overview df deliveries
  | PlayerStatistics => player_statistics deliveries u
  | TeamAnalysis => team_analysis df u
  | SeasonWiseTrends => season_wise_trends df deliveries u
  | BowlerAnalysis => bowler_analysis deliveries u
  | MatchOutcomeInsights => match_outcome_insights df
  | InteractiveVisualizations => interactive_visualizations df deliveries u
  | DownloadableReports => downloadable_reports df deliveries
  | AdvancedAnalytics => advanced_analytics
  end.

(** The text of the sidebar's instructions, lines 16 to 20. *)
Definition newline : string := String (ascii_of_nat 10) EmptyString.

Definition instructions : string :=
  String.concat newline
    [EmptyString;
     "**Instructions:**";
     "1. Upload the IPL Matches CSV file (match-level data).";
     "2. Upload the Deliveries CSV file (ball-by-ball data).";
     EmptyString].

(** Lines 25 to 41: load, clean in place, validate. *)
Definition load_and_clean (match_file delivery_file : DataFrame)
  : M (nat * nat) :=
  df <- alloc match_file ;;
  deliveries <- alloc delivery_file ;;
  mutate df normalize_columns ;;
  mutate deliveries normalize_columns ;;
  d <- deref deliveries ;;
  emit (st_write "Deliveries DataFrame columns:" [VLabels (columns d)]) ;;
  mutate df drop_duplicates ;;
  mutate df fillna0 ;;
  mutate deliveries drop_duplicates ;;
  d <- deref deliveries ;;
  let num_cols := select_dtypes_number d in
  mutate deliveries (fun d => fillna0_at d num_cols) ;;
  d <- deref deliveries ;;
  let missing := filter (fun c => negb (has_column d c)) required_cols in
  (if nonempty missing then
     emit (st_error
             "Deliveries file is missing required columns: {}. Available columns: {}"
             [VLabels missing; VLabels (columns d)]) ;;
     stop
   else ret tt) ;;
  ret (df, deliveries).

(** The whole script.  An upload slot that is still empty is [None]. *)
Definition script (match_file delivery_file : option DataFrame) (u : ui)
  : M unit :=
  emit (st_title "📊 IPL Data Analysis Dashboard") ;;
  emit (st_markdown "Upload your IPL match and delivery CSV files in the sidebar to explore statistics and visualizations." []) ;;
  emit (st_sidebar_header "Data Upload") ;;
  emit (st_sidebar_markdown instructions) ;;
  match match_file, delivery_file with
  | Some match_file, Some delivery_file =>
      tables <- load_and_clean match_file delivery_file ;;
      let df := fst tables in
      let deliveries := snd tables in
      m <- deref df ;;
      emit (st_dataframe (mkDataFrame (columns m) (head 5 (rows m)))) ;;
      m <- deref df ;;
      emit (st_text (info m)) ;;
      emit (st_sidebar_header "Navigation") ;;
      view df deliveries u
  | _, _ =>
      emit (st_warning "Please upload both IPL Matches and Deliveries CSV files to continue.")
  end.

End Script.

(** numpy's stable argsort: the indices ordered by value, equal values in
    their original order.  It serves as the concrete kernel in examples. *)
Definition stable_argsort (l : list Z) : list nat :=
  map snd
      (sort_by (fun p q : Z * nat => fst p <=? fst q)
               (combine l (seq 0 (List.length l)))).

End App.
Export App.

(** ** What the views are meant to report, row by row *)

Module Spec.

(** The cell of row [r] under [label]. *)
Definition field (d : DataFrame) (label : string) (r : list cell) : cell :=
  match index_of label (columns d) with
  | Some i => at_ i r
  | None => NaN
  end.

Definition number (c : cell) : Z :=
  match c with Num z => z | _ => 0 end.

(** The rows whose [label] equals the selected value. *)
Definition rows_of (d : DataFrame) (label : string) (selected : option cell)
  : list (list cell) :=
  filter (fun r => eq_selected selected (field d label r)) (rows d).

(** The sum of the numbers under [label] over some rows. *)
Definition total (d : DataFrame) (label : string) (rs : list (list cell)) : Z :=
  fold_right (fun r acc => number (field d label r) + acc) 0 rs.

Definition tally {A} (l : list A) : Z := Z.of_nat (List.length l).

(** No cell under [label] holds text. *)
Definition numeric_column (d : DataFrame) (label : string) : bool :=
  forallb (fun r => negb (is_str (field d label r))) (rows d).

(** Player summary. *)
Definition total_runs (d : DataFrame) (player : option cell) : Z :=
  total d "batsman_runs" (rows_of d "batsman" player).

Definition balls_faced (d : DataFrame) (player : option cell) : Z :=
  tally (rows_of d "batsman" player).

(** Dismissals as the specification words them: the deliveries, anywhere
    in the table, whose dismissed-player field equals the batsman. *)
Definition dismissals (d : DataFrame) (player : option cell) : Z :=
  tally (filter (fun r => eq_selected player (field d "player_dismissed" r))
                (rows d)).

(** Dismissals as line 125 counts them: among the deliveries the batsman
    faced. *)
Definition dismissals_on_strike (d : DataFrame) (player : option cell) : Z :=
  tally (filter (fun r => eq_selected player (field d "player_dismissed" r))
                (rows_of d "batsman" player)).

Definition average (runs outs : Z) : Q :=
  if 0 <? outs then (inject_Z runs / inject_Z outs)%Q else inject_Z runs.

Definition strike_rate (runs balls : Z) : Q :=
  if balls =? 0 then inject_Z 0
  else ((inject_Z runs / inject_Z balls) * inject_Z 100)%Q.

(** Team summary. *)
Definition matches_played (m : DataFrame) (team : option cell) : Z :=
  tally (filter (fun r => orb (eq_selected team (field m "team1" r))
                              (eq_selected team (field m "team2" r)))
                (rows m)).

Definition wins (m : DataFrame) (team : option cell) : Z :=
  tally (rows_of m "winner" team).

Definition win_percentage (won played : Z) : Q :=
  if 0 <? played then (inject_Z won / inject_Z played * inject_Z 100)%Q
  else inject_Z 0.

(** Bowler summary. *)
Definition balls_bowled (d : DataFrame) (bowler : option cell) : Z :=
  tally (rows_of d "bowler" bowler).

Definition runs_conceded (d : DataFrame) (bowler : option cell) : Z :=
  total d "total_runs" (rows_of d "bowler" bowler).

Definition overs (balls : Z) : Q :=
  (inject_Z (balls / 6) + inject_Z (balls mod 6) / inject_Z 6)%Q.

Definition economy (runs balls : Z) : Q :=
  if Qeq_bool (overs balls) (inject_Z 0) then inject_Z 0
  else (inject_Z runs / overs balls)%Q.

(** The figure a [{x:.2f}] field shows, in hundredths. *)
Definition hundredths (q : Q) : Z :=
  Qfloor (q * inject_Z 100 + (1 # 2))%Q.

(** The arguments of the first rendered line with the given text. *)
Fixpoint reported (text : string) (page : list output) : option (list value) :=
  match page with
  | [] => None
  | st_markdown t args :: page' =>
      if String.eqb t text then Some args else reported text page'
  | _ :: page' => reported text page'
  end.

(** The tables as the cleaning statements leave them. *)
Definition clean_matches (match_file : DataFrame) : DataFrame :=
  fillna0 (drop_duplicates (normalize_columns match_file)).

Definition clean_deliveries (delivery_file : DataFrame) : DataFrame :=
  let d := drop_duplicates (normalize_columns delivery_file) in
  fillna0_at d (select_dtypes_number d).

(** The required columns that the cleaned deliveries table lacks. *)
Definition missing_columns (d : DataFrame) : list string :=
  filter (fun c => negb (has_column d c)) required_cols.

(** What the page shows before the validation. *)
Definition page_top (d : DataFrame) : list output :=
  [st_title "📊 IPL Data Analysis Dashboard";
   st_markdown "Upload your IPL match and delivery CSV files in the sidebar to explore statistics and visualizations." [];
   st_sidebar_header "Data Upload";
   st_sidebar_markdown instructions;
   st_write "Deliveries DataFrame columns:" [VLabels (columns d)]].

(** The store still holds the two tables at the addresses the script
    gave them. *)
Definition tables_kept (m d : DataFrame) (h : heap) : Prop :=
  exists rest, h = m :: d :: rest.

(** An address other than those of the two tables. *)
Definition fresh (r : nat) : Prop := (2 <= r)%nat.

Definition anything {A} (a : A) : Prop := True.

(** Running [c] leaves the two tables as they are, however it ends, and
    a value it returns satisfies [post]. *)
Definition keeps {A} (c : M A) (post : A -> Prop) : Prop :=
  forall m d h,
    tables_kept m d h ->
    match c h with
    | (s, h', _) => tables_kept m d h' /\ forall a, s = Done a -> post a
    end.

(** Grouped totals. *)
Definition series_total (s : Series) : Z :=
  fold_right (fun p acc => snd p + acc) 0 s.

(** The deliveries that name a batsman. *)
Definition named_rows (d : DataFrame) : list (list cell) :=
  filter (fun r => notna (field d "batsman" r)) (rows d).

(** What a sort kernel owes on the input [l]: its result lists every
    position of [l] once and reads the values in ascending order. *)
Fixpoint ascending (l : list Z) : bool :=
  match l with
  | x :: (y :: _) as l' => (x <=? y) && ascending l'
  | _ => true
  end.

Definition argsort_ok (kind : list Z -> list nat) (l : list Z) : bool :=
  let p := kind l in
  Nat.eqb (List.length p) (List.length l)
  && forallb (fun i => existsb (Nat.eqb i) p) (seq 0 (List.length l))
  && ascending (map (fun i => nth i l 0) p).

Definition descending (l : list Z) : Prop :=
  StronglySorted (fun a b => b <= a) l.

(** The position at which [x] first appears in a column. *)
Fixpoint first_position (x : cell) (l : list cell) : nat :=
  match l with
  | [] => O
  | y :: l' => if cell_eqb x y then O else S (first_position x l')
  end.

(** *** Readings of the specification that the script does not meet *)

(** "The reported average is total runs divided by the count of
    deliveries whose dismissed-player field equals the selected batsman
    when that count is more than zero, and total runs otherwise." *)
Definition average_over_all_dismissals (d : DataFrame) (u : ui) : Prop :=
  forall m rest s h page player_list q,
    sorted (unique (map (field d "batsman") (rows d))) = Val player_list ->
    player_statistics 1 u (m :: d :: rest) = (s, h, page) ->
    reported "**Average:** {}" page = Some [VFixed2 q] ->
    let player := selectbox player_list (choice u) in
    (q == average (total_runs d player) (dismissals d player))%Q.

(** "The top-10 list is sorted descending by total runs; for ties, order
    matches first-appearance order in the source table." *)
Definition top_list_order (kind : list Z -> list nat) (d : DataFrame) : Prop :=
  forall t b,
    top_runs kind d = Val t ->
    getitem d "batsman" = Val b ->
    descending (map snd t) /\
    forall i j x y,
      (i < j)%nat ->
      nth_error t i = Some x ->
      nth_error t j = Some y ->
      snd x = snd y ->
      (first_position (fst x) b < first_position (fst y) b)%nat.

(** "The per-batsman totals add up to the total of the runs-off-bat
    column." *)
Definition grouped_total_is_column_total (d : DataFrame) : Prop :=
  forall by_batsman t,
    groupby_sum d "batsman" "batsman_runs" = Val by_batsman ->
    res_bind (getitem d "batsman_runs") sum = Val t ->
    series_total by_batsman = t.



End Spec.

(** ** Sample tables *)

Module Sample.

Definition deliveries : DataFrame :=
  mkDataFrame
    ["match_id"; "over"; "ball"; "batting_team"; "batsman"; "bowler";
     "batsman_runs"; "total_runs"; "player_dismissed"]
    [[Num 1; Num 1; Num 1; Str "MI"; Str "A"; Str "x"; Num 4; Num 4; NaN];
     [Num 1; Num 1; Num 2; Str "MI"; Str "A"; Str "x"; Num 1; Num 1; NaN];
     [Num 1; Num 1; Num 3; Str "MI"; Str "B"; Str "x"; Num 0; Num 1; NaN];
     [Num 1; Num 1; Num 4; Str "MI"; Str "B"; Str "x"; Num 0; Num 0; Str "B"];
     [Num 1; Num 1; Num 5; Str "MI"; Str "C"; Str "x"; Num 1; Num 2; NaN];
     [Num 1; Num 1; Num 6; Str "MI"; Str "C"; Str "x"; Num 0; Num 1; NaN];
     [Num 1; Num 2; Num 1; Str "MI"; Str "C"; Str "y"; Num 6; Num 6; NaN];
     [Num 1; Num 3; Num 1; Str "MI"; Str "A"; Str "x"; Num 1; Num 1; Str "A"]].

Definition matches : DataFrame :=
  mkDataFrame
    ["id"; "season"; "team1"; "team2"; "toss_decision"; "winner"; "result";
     "win_by_runs"; "win_by_wickets"]
    [[Num 1; Num 2008; Str "MI"; Str "CSK"; Str "bat"; Str "MI";
      Str "normal"; Num 12; Num 0];
     [Num 2; Num 2008; Str "CSK"; Str "MI"; Str "field"; Str "CSK";
      Str "normal"; Num 0; Num 5];
     [Num 3; Num 2009; Str "RR"; Str "MI"; Str "bat"; Str "MI";
      Str "normal"; Num 0; Num 3]].

Definition store : heap := [matches; deliveries].

(** A deliveries file with the two required columns and nothing else. *)
Definition bare_deliveries : DataFrame :=
  mkDataFrame ["batsman"; "batsman_runs"] [[Str "A"; Num 4]; [Str "B"; Num 1]].


(** Two deliveries files that differ in the order of their rows only;
    both batsmen score the same. *)
Definition tie_b_first : DataFrame :=
  mkDataFrame ["batsman"; "batsman_runs"] [[Str "B"; Num 1]; [Str "A"; Num 1]].

Definition tie_a_first : DataFrame :=
  mkDataFrame ["batsman"; "batsman_runs"] [[Str "A"; Num 1]; [Str "B"; Num 1]].

(** A deliveries file in which one delivery names no batsman. *)
Definition unnamed_batsman : DataFrame :=
  mkDataFrame ["batsman"; "batsman_runs"] [[NaN; Num 4]; [Str "A"; Num 1]].

(** Batsman A is out twice on a ball of his own and run out once at the
    other end, on a ball that B faced. *)
Definition run_out : DataFrame :=
  mkDataFrame ["batsman"; "batsman_runs"; "player_dismissed"]
    [[Str "A"; Num 4; NaN]; [Str "A"; Num 2; Str "A"];
     [Str "B"; Num 0; Str "A"]; [Str "A"; Num 1; Str "A"]].

(** A matches file without season or outcome columns. *)
Definition bare_matches : DataFrame :=
  mkDataFrame ["id"; "team1"; "team2"; "winner"]
              [[Num 1; Str "MI"; Str "CSK"; Str "MI"]].

Definition first_option (s : section) : ui := mkUi s 0 0.

(** A deliveries file in which no delivery records a dismissal. *)
Definition no_dismissals : DataFrame :=
  mkDataFrame ["bowler"; "total_runs"; "player_dismissed"]
              [[Str "x"; Num 4; NaN]; [Str "x"; Num 0; NaN];
               [Str "y"; Num 1; NaN]].

(** A matches file that has a header and no rows. *)
Definition matches_header_only : DataFrame :=
  mkDataFrame ["id"; "season"; "winner"] [].

(** A matches file in which no match records a result. *)
Definition no_results : DataFrame :=
  mkDataFrame ["id"; "result"] [[Num 1; NaN]; [Num 2; NaN]].

(** A matches file whose run margin holds text. *)
Definition text_margin : DataFrame :=
  mkDataFrame ["id"; "win_by_runs"] [[Num 1; Str "n/a"]].


(** Ball-by-ball rows of three matches, with the side batting. *)
Definition innings : DataFrame :=
  mkDataFrame ["match_id"; "batting_team"; "total_runs"]
    [[Num 1; Str "MI"; Num 4]; [Num 1; Str "MI"; Num 2];
     [Num 1; Str "CSK"; Num 3]; [Num 2; Str "MI"; Num 6];
     [Num 3; Str "MI"; Num 5]].

(** A matches file whose first season was missing and filled with 0. *)
Definition season_zero : DataFrame :=
  mkDataFrame ["id"; "season"; "team1"; "team2"]
    [[Num 1; Num 0; Str "MI"; Str "CSK"];
     [Num 3; Num 2009; Str "RR"; Str "MI"]].


(** A header whose labels are capitalised and padded: the first with a
    no-break space before it and a space after it, the second with an
    ideographic space after it. *)
Definition padded_header : DataFrame :=
  mkDataFrame [String.append (utf8 160) "BATSMAN ";
               String.append "Batsman_Runs" (utf8 12288)] [].

End Sample.

(** ** What Match Outcome Insights is meant to count *)

Module Outcome.

Import Spec.

Definition positive (c : cell) : bool :=
  match c with Num z => 0 <? z | _ => false end.

Definition won_by (m : DataFrame) (label : string) : Z :=
  if has_column m label
  then tally (filter (fun r => positive (field m label r)) (rows m))
  else 0.

Definition is_result (word : string) (c : cell) : bool :=
  match c with Str t => String.eqb (lower t) word | _ => false end.

Definition results (m : DataFrame) (word : string) : Z :=
  if has_column m "result"
  then tally (filter (fun r => is_result word (field m "result" r)) (rows m))
  else 0.

Definition text_column (m : DataFrame) (label : string) : bool :=
  orb (negb (nonempty (rows m)))
      (existsb (fun r => is_str (field m label r)) (rows m)).

End Outcome.
Import Outcome.

(** ** What Bowler Analysis is meant to count per match *)

Module Bowling.

Import Spec.

Definition wickets (d : DataFrame) (bowler : option cell) : Z :=
  tally (filter (fun r => notna (field d "player_dismissed" r))
                (rows_of d "bowler" bowler)).

Definition matches_bowled (d : DataFrame) (bowler : option cell) : list cell :=
  group_keys (map (field d "match_id") (rows_of d "bowler" bowler)).

Definition wickets_in (d : DataFrame) (bowler : option cell) (g : cell) : Z :=
  tally (filter (fun r => notna (field d "player_dismissed" r))
                (filter (fun r => cell_eqb g (field d "match_id" r))
                        (rows_of d "bowler" bowler))).

End Bowling.
Import Bowling.

(** ** What the head-to-head table is meant to list *)

Module HeadToHead.

Import Spec.

(** The side of a match that did not win it, as [get_opponent] reads it. *)
Definition other_side (m : DataFrame) (r : list cell) : cell :=
  if py_eq (field m "winner" r) (field m "team1" r)
  then field m "team2" r
  else field m "team1" r.

(** The opponent of each match the team won, in the order of the file. *)
Definition opponents (m : DataFrame) (team : option cell) : list cell :=
  if has_column m "loser"
  then map (field m "loser") (rows_of m "winner" team)
  else map (other_side m) (rows_of m "winner" team).

End HeadToHead.
Import HeadToHead.

(** ** What Interactive Visualizations is meant to chart *)

Module Chart.

Import Spec.

(** A match of the selected season with the team on one side. *)
Definition in_season (m : DataFrame) (season team : option cell)
           (r : list cell) : bool :=
  eq_selected season (field m "season" r)
  && (eq_selected team (field m "team1" r)
      || eq_selected team (field m "team2" r)).

(** A delivery of match [g] with the team batting. *)
Definition batted_in (d : DataFrame) (team : option cell) (g : cell)
           (r : list cell) : bool :=
  cell_eqb g (field d "match_id" r)
  && eq_selected team (field d "batting_team" r).

(** [sorted(df['season'].unique()) if 'season' in df.columns else []] *)
Definition seasons (m : DataFrame) : res (list cell) :=
  if has_column m "season"
  then sorted (unique (map (field m "season") (rows m)))
  else Val [].

(** What the view draws for the deliveries it kept. *)
Definition chart_of (d : DataFrame) (chosen : list (list cell)) : output :=
  match chosen with
  | [] => st_info "No data for selected filters."
  | _ =>
      st_bar_chart
        (map (fun g => (g, total d "total_runs"
                             (filter (fun r => cell_eqb g (field d "match_id" r))
                                     chosen)))
             (group_keys (map (field d "match_id") chosen)))
  end.

End Chart.
Import Chart.

(** ** What a label reads as once stripped and lower-cased *)

Module Labels.

(** A run of whitespace characters. *)
Inductive padding : string -> Prop :=
| padding_nil : padding EmptyString
| padding_cons (w s : string) :
    In w whitespace -> padding s -> padding (String.append w s).

(** The character [a] is the lowercase character [t] or its capital. *)
Definition caseless (a t : ascii) : bool :=
  Ascii.eqb a t
  || (Nat.eqb (nat_of_ascii a + 32) (nat_of_ascii t)
      && Nat.leb 65 (nat_of_ascii a) && Nat.leb (nat_of_ascii a) 90).

(** [body] spells [target], whatever the case of its letters. *)
Fixpoint spells (body target : string) : bool :=
  match body, target with
  | EmptyString, EmptyString => true
  | String a body', String t target' => caseless a t && spells body' target'
  | _, _ => false
  end.

(** The label is [target] in some mix of cases, between two runs of
    whitespace. *)
Definition reads_as (target label : string) : Prop :=
  exists pre body post,
    label = String.append pre (String.append body post) /\
    padding pre /\ padding post /\ spells body target = true.

(** A lowercase ASCII letter or the underscore. *)
Definition plain_char (t : ascii) : bool :=
  (Nat.leb 97 (nat_of_ascii t) && Nat.leb (nat_of_ascii t) 122)
  || Nat.eqb (nat_of_ascii t) 95.

Fixpoint plain (target : string) : bool :=
  match target with
  | EmptyString => true
  | String t target' => plain_char t && plain target'
  end.

(** An ASCII letter or the underscore. *)
Definition word_char (a : ascii) : bool :=
  plain_char a
  || (Nat.leb 65 (nat_of_ascii a) && Nat.leb (nat_of_ascii a) 90).

Fixpoint word (body : string) : bool :=
  match body with
  | EmptyString => true
  | String a body' => word_char a && word body'
  end.

(** The first byte of some whitespace character. *)
Definition leads_space (a : ascii) : bool :=
  existsb (fun w => match w with
                    | String w0 _ => Ascii.eqb a w0
                    | EmptyString => false
                    end) whitespace.

Definition all_ascii : list ascii := map ascii_of_nat (seq 0 256).

End Labels.
Import Labels.

(** * Properties *)

Import Spec.

(** ** Facts about the list and table primitives *)

Lemma select_map_filter {A} (f : A -> bool) (l : list A) :
  select l (map f l) = filter f l.
Proof.
  induction l as [|x l IH]; simpl; [reflexivity|].
  destruct (f x); rewrite IH; reflexivity.
Qed.

Lemma select_map {A B} (g : A -> B) (l : list A) (mask : list bool) :
  select (map g l) mask = map g (select l mask).
Proof.
  revert mask; induction l as [|x l IH]; intros [|b mask]; simpl; try reflexivity.
  destruct b; simpl; rewrite IH; reflexivity.
Qed.

Lemma zip_with_map {A B C D} (f : B -> C -> D) (g : A -> B) (k : A -> C)
      (l : list A) :
  zip_with f (map g l) (map k l) = map (fun x => f (g x) (k x)) l.
Proof.
  induction l as [|x l IH]; simpl; [reflexivity|]. rewrite IH; reflexivity.
Qed.

Lemma count_true_map {A} (f : A -> bool) (l : list A) :
  count_true (map f l) = Spec.tally (filter f l).
Proof.
  unfold count_true, Spec.tally. f_equal.
  induction l as [|x l IH]; simpl; [reflexivity|].
  destruct (f x); simpl; rewrite IH; reflexivity.
Qed.

Lemma has_column_index (d : DataFrame) (label : string) :
  has_column d label = true ->
  exists i, index_of label (columns d) = Some i.
Proof.
  unfold has_column. destruct (index_of label (columns d)) as [i|].
  - intros _. exists i. reflexivity.
  - discriminate.
Qed.

Lemma getitem_field (d : DataFrame) (label : string) :
  has_column d label = true ->
  getitem d label = Val (map (Spec.field d label) (rows d)).
Proof.
  intros H. destruct (has_column_index d label H) as [i Hi].
  unfold getitem, Spec.field. rewrite Hi. reflexivity.
Qed.


Lemma getitem_has_column (d : DataFrame) (label : string) (c : list cell) :
  getitem d label = Val c -> has_column d label = true.
Proof.
  unfold has_column, getitem.
  destruct (index_of label (columns d)); [reflexivity | discriminate].
Qed.

Lemma has_column_where (d : DataFrame) (mask : list bool) (label : string) :
  has_column (where_ d mask) label = has_column d label.
Proof. reflexivity. Qed.

Lemma getitem_where (d : DataFrame) (f : list cell -> bool) (label : string) :
  has_column d label = true ->
  getitem (where_ d (map f (rows d))) label
  = Val (map (Spec.field d label) (filter f (rows d))).
Proof.
  intros H. destruct (has_column_index d label H) as [i Hi].
  unfold getitem, where_, Spec.field; simpl. rewrite Hi.
  rewrite select_map_filter. reflexivity.
Qed.

Lemma shape0_where (d : DataFrame) (f : list cell -> bool) :
  shape0 (where_ d (map f (rows d))) = Spec.tally (filter f (rows d)).
Proof.
  unfold shape0, where_, Spec.tally; simpl.
  rewrite select_map_filter. reflexivity.
Qed.

Lemma sum_numeric (d : DataFrame) (label : string) (rs : list (list cell)) :
  forallb (fun r => negb (is_str (Spec.field d label r))) rs = true ->
  sum (map (Spec.field d label) rs) = Val (Spec.total d label rs).
Proof.
  induction rs as [|r rs IH]; simpl; [reflexivity|].
  intros H. apply andb_prop in H. destruct H as [Hr Hrs].
  specialize (IH Hrs).
  destruct (Spec.field d label r) as [|z|t]; simpl in *.
  - rewrite IH. reflexivity.
  - rewrite IH. reflexivity.
  - discriminate.
Qed.

Lemma forallb_filter {A} (p f : A -> bool) (l : list A) :
  forallb p l = true -> forallb p (filter f l) = true.
Proof.
  induction l as [|x l IH]; simpl; [reflexivity|].
  intros H. apply andb_prop in H. destruct H as [Hx Hl].
  destruct (f x); simpl; [rewrite Hx|]; auto.
Qed.

(** ** Stepping through a run *)

Lemma bind_emit {B} (o : output) (k : unit -> M B) (h : heap) :
  bind (emit o) k h = prepend [o] (k tt h).
Proof.
  unfold bind, emit, prepend. destruct (k tt h) as [[s h'] o']. reflexivity.
Qed.

Lemma bind_ret {A B} (a : A) (k : A -> M B) (h : heap) :
  bind (ret a) k h = k a h.
Proof.
  unfold bind, ret. destruct (k a h) as [[s h'] o']. reflexivity.
Qed.

Lemma bind_deref {B} (r : nat) (k : DataFrame -> M B) (h : heap) :
  bind (deref r) k h = k (nth r h (mkDataFrame [] [])) h.
Proof.
  unfold bind, deref.
  destruct (k (nth r h (mkDataFrame [] [])) h) as [[s h'] o']. reflexivity.
Qed.

Lemma bind_eval_val {A B} (r : res A) (a : A) (k : A -> M B) (h : heap) :
  r = Val a -> bind (eval r) k h = k a h.
Proof. intros ->. simpl. apply bind_ret. Qed.

Lemma bind_eval_exc {A B} (r : res A) (e : exn) (k : A -> M B) (h : heap) :
  r = Exc e -> bind (eval r) k h = (Raised e, h, []).
Proof. intros ->. reflexivity. Qed.

Lemma bind_assoc {A B C} (m : M A) (f : A -> M B) (g : B -> M C) (h : heap) :
  bind (bind m f) g h = bind m (fun a => bind (f a) g) h.
Proof.
  unfold bind. destruct (m h) as [[[a|e|] h1] o1]; try reflexivity.
  destruct (f a h1) as [[[b|e|] h2] o2]; try reflexivity.
  destruct (g b h2) as [[s h3] o3]. rewrite app_assoc. reflexivity.
Qed.

Lemma emit_run (o : output) (h : heap) : emit o h = (Done tt, h, [o]).
Proof. reflexivity. Qed.

Lemma bind_done {A B} (m : M A) (k : A -> M B) (h h' : heap) (a : A)
      (o : list output) :
  m h = (Done a, h', o) -> bind m k h = prepend o (k a h').
Proof. intros H. unfold bind, prepend. rewrite H. reflexivity. Qed.

Lemma prepend_nil {A} (r : status A * heap * list output) : prepend [] r = r.
Proof. destruct r as [[s h] o]. reflexivity. Qed.

Lemma bind_alloc {B} (d : DataFrame) (k : nat -> M B) (h : heap) :
  bind (alloc d) k h = k (List.length h) (h ++ [d]).
Proof. rewrite (bind_done _ _ h (h ++ [d]) (List.length h) []); [apply prepend_nil | reflexivity]. Qed.

Lemma bind_store {B} (r : nat) (d : DataFrame) (k : unit -> M B) (h : heap) :
  bind (store r d) k h = k tt (update r d h).
Proof. rewrite (bind_done _ _ h (update r d h) tt []); [apply prepend_nil | reflexivity]. Qed.

Lemma update_alloc {A} (h : list A) (x d : A) :
  update (List.length h) x (h ++ [d]) = h ++ [x].
Proof. induction h as [|y h IH]; simpl; [reflexivity|]. rewrite IH. reflexivity. Qed.

Lemma nth_alloc {A} (h : list A) (d dflt : A) :
  nth (List.length h) (h ++ [d]) dflt = d.
Proof. induction h as [|y h IH]; simpl; [reflexivity|]. exact IH. Qed.

Ltac run_step :=
  rewrite ?bind_assoc;
  first [ rewrite bind_deref, ?nth_alloc
        | rewrite bind_alloc
        | rewrite bind_store, ?update_alloc
        | rewrite bind_ret
        | rewrite bind_emit ].

Ltac run_steps := repeat run_step; rewrite ?bind_assoc.

(** ** Player Statistics *)

Lemma player_statistics_run (h : heap) (u : ui) (deliveries : nat)
      (d : DataFrame) (player_list : list cell) :
  nth deliveries h (mkDataFrame [] []) = d ->
  has_column d "batsman" = true ->
  has_column d "batsman_runs" = true ->
  has_column d "player_dismissed" = true ->
  sorted (unique (map (Spec.field d "batsman") (rows d))) = Val player_list ->
  Spec.numeric_column d "batsman_runs" = true ->
  let player := selectbox player_list (choice u) in
  let runs := Spec.total_runs d player in
  player_statistics deliveries u h
  = (Done tt, h,
     [st_header "Player Statistics";
      st_markdown "**Total Runs:** {}" [VInt runs];
      st_markdown "**Balls Faced:** {}" [VInt (Spec.balls_faced d player)];
      st_markdown "**Average:** {}"
                  [VFixed2 (Spec.average runs
                                         (Spec.dismissals_on_strike d player))];
      st_markdown "**Strike Rate:** {}"
                  [VFixed2 (Spec.strike_rate runs (Spec.balls_faced d player))]]).
Proof.
  intros Hd Hb Hr Hp Hs Hn player runs.
  unfold player_statistics.
  rewrite bind_emit, bind_deref, Hd.
  rewrite (bind_eval_val _ _ _ _ (getitem_field d "batsman" Hb)).
  rewrite (bind_eval_val _ _ _ _ Hs).
  rewrite bind_deref, Hd.
  rewrite (bind_eval_val _ _ _ _ (getitem_field d "batsman" Hb)).
  rewrite map_map.
  fold player.
  set (mine := fun r => eq_selected player (Spec.field d "batsman" r)).
  rewrite (bind_eval_val _ _ _ _ (getitem_where d mine "batsman_runs" Hr)).
  assert (Hsum : sum (map (Spec.field d "batsman_runs") (filter mine (rows d)))
                 = Val runs).
  { apply sum_numeric. apply forallb_filter. exact Hn. }
  rewrite (bind_eval_val _ _ _ _ Hsum).
  rewrite (bind_eval_val _ _ _ _ (getitem_where d mine "player_dismissed" Hp)).
  rewrite !bind_emit, emit_run.
  rewrite shape0_where, map_map, count_true_map.
  unfold prepend; simpl.
  repeat f_equal.
  unfold Spec.strike_rate, Spec.balls_faced, Spec.rows_of. fold mine.
  destruct (Z.ltb_spec 0 (Spec.tally (filter mine (rows d))));
    destruct (Z.eqb_spec (Spec.tally (filter mine (rows d))) 0);
    try reflexivity; unfold Spec.tally in *; lia.
Qed.

Lemma nth_error_nth_default (h : heap) (r : nat) (d : DataFrame) :
  nth_error h r = Some d -> nth r h (mkDataFrame [] []) = d.
Proof. intros H. apply nth_error_nth. exact H. Qed.

(** Batsman A scores 7 and is out twice on a ball he faced and once on a
    ball B faced: the view shows 7/2, the count over the whole table
    gives 7/3. *)
Lemma run_out_at_the_other_end :
  ~ Spec.average_over_all_dismissals (Spec.clean_deliveries Sample.run_out)
      (Sample.first_option PlayerStatistics).
Proof.
  intros H.
  specialize (H Sample.matches [] _ _ _ [Str "A"; Str "B"] (7 # 2)
                eq_refl eq_refl eq_refl).
  vm_compute in H. discriminate.
Qed.

Lemma filter_within {A} (p q : A -> bool) (l : list A) :
  (forall x, In x l -> p x = true -> q x = true) ->
  filter p (filter q l) = filter p l.
Proof.
  induction l as [|x l IH]; intros H; simpl; [reflexivity|].
  assert (IH' : filter p (filter q l) = filter p l)
    by (apply IH; intros y Hy; apply H; right; exact Hy).
  destruct (q x) eqn:Eq; simpl.
  - rewrite IH'. reflexivity.
  - destruct (p x) eqn:Ep; [|exact IH'].
    rewrite (H x (or_introl eq_refl) Ep) in Eq. discriminate.
Qed.

Lemma filter_length_le {A} (p q : A -> bool) (l : list A) :
  (List.length (filter p (filter q l)) <= List.length (filter p l))%nat.
Proof.
  induction l as [|x l IH]; simpl; [apply Nat.le_refl|].
  destruct (q x) eqn:Eq; simpl; destruct (p x); simpl.
  - apply le_n_S. exact IH.
  - exact IH.
  - apply Nat.le_le_succ_r. exact IH.
  - exact IH.
Qed.

(** C1, as amended.  Player Statistics reports, as the average of the
    selected batsman, total runs divided by dismissals when the dismissals
    are more than zero, and total runs itself otherwise, where total runs
    is the sum of runs off the bat over that batsman's deliveries and the
    dismissals are counted among that batsman's deliveries only (the rows
    he faced whose dismissed-player field equals him).  That count never
    exceeds the count over the whole table, and is the same whenever every
    delivery that dismisses the batsman is one he faced. *)
Theorem player_average_policy (h : heap) (u : ui) (deliveries : nat)
        (d : DataFrame) (player_list : list cell) :
  nth_error h deliveries = Some d ->
  has_column d "batsman" = true ->
  has_column d "batsman_runs" = true ->
  has_column d "player_dismissed" = true ->
  sorted (unique (map (Spec.field d "batsman") (rows d))) = Val player_list ->
  Spec.numeric_column d "batsman_runs" = true ->
  let player := selectbox player_list (choice u) in
  let runs := Spec.total_runs d player in
  let outs := Spec.dismissals_on_strike d player in
  exists page,
    player_statistics deliveries u h = (Done tt, h, page) /\
    Spec.reported "**Average:** {}" page
    = Some [VFixed2 (if 0 <? outs then (inject_Z runs / inject_Z outs)%Q
                     else inject_Z runs)] /\
    outs <= Spec.dismissals d player /\
    ((forall r, In r (rows d) ->
                eq_selected player (Spec.field d "player_dismissed" r) = true ->
                eq_selected player (Spec.field d "batsman" r) = true) ->
     outs = Spec.dismissals d player).
Proof.
  intros Hd Hb Hr Hp Hs Hn player runs outs.
  eexists. split; [|split; [|split]].
  - apply player_statistics_run with (d := d) (player_list := player_list);
      auto using nth_error_nth_default.
  - reflexivity.
  - unfold outs, Spec.dismissals_on_strike, Spec.dismissals, Spec.rows_of,
      Spec.tally.
    apply inj_le, filter_length_le.
  - intros Hown.
    unfold outs, Spec.dismissals_on_strike, Spec.dismissals, Spec.rows_of.
    rewrite filter_within by exact Hown. reflexivity.
Qed.

Lemma player_average_policy_witness :
  exists page,
    player_statistics 0 (Sample.first_option PlayerStatistics)
                      [Spec.clean_deliveries Sample.run_out]
    = (Done tt, [Spec.clean_deliveries Sample.run_out], page) /\
    Spec.reported "**Average:** {}" page = Some [VFixed2 (7 # 2)] /\
    Spec.dismissals_on_strike (Spec.clean_deliveries Sample.run_out)
                              (Some (Str "A"))
    <= Spec.dismissals (Spec.clean_deliveries Sample.run_out) (Some (Str "A")) /\
    ((forall r, In r (rows (Spec.clean_deliveries Sample.run_out)) ->
                eq_selected (Some (Str "A"))
                  (Spec.field (Spec.clean_deliveries Sample.run_out)
                              "player_dismissed" r) = true ->
                eq_selected (Some (Str "A"))
                  (Spec.field (Spec.clean_deliveries Sample.run_out)
                              "batsman" r) = true) ->
     Spec.dismissals_on_strike (Spec.clean_deliveries Sample.run_out)
                               (Some (Str "A"))
     = Spec.dismissals (Spec.clean_deliveries Sample.run_out) (Some (Str "A"))).
Proof.
  exact (player_average_policy [Spec.clean_deliveries Sample.run_out]
           (Sample.first_option PlayerStatistics) 0
           (Spec.clean_deliveries Sample.run_out)
           [Str "A"; Str "B"]
           eq_refl eq_refl eq_refl eq_refl eq_refl eq_refl).
Defined.

(** C7.  Player Statistics reports, as the strike rate of the selected
    batsman, 0 when the count of that batsman's delivery rows is 0, and
    total runs divided by that count, times 100, otherwise. *)
Theorem player_strike_rate_policy (h : heap) (u : ui) (deliveries : nat)
        (d : DataFrame) (player_list : list cell) :
  nth_error h deliveries = Some d ->
  has_column d "batsman" = true ->
  has_column d "batsman_runs" = true ->
  has_column d "player_dismissed" = true ->
  sorted (unique (map (Spec.field d "batsman") (rows d))) = Val player_list ->
  Spec.numeric_column d "batsman_runs" = true ->
  let player := selectbox player_list (choice u) in
  let runs := Spec.total_runs d player in
  let balls := Spec.balls_faced d player in
  exists page,
    player_statistics deliveries u h = (Done tt, h, page) /\
    Spec.reported "**Strike Rate:** {}" page
    = Some [VFixed2 (if balls =? 0 then inject_Z 0
                     else (inject_Z runs / inject_Z balls * inject_Z 100)%Q)].
Proof.
  intros Hd Hb Hr Hp Hs Hn player runs balls.
  eexists. split.
  - apply player_statistics_run with (d := d) (player_list := player_list);
      auto using nth_error_nth_default.
  - reflexivity.
Qed.

Lemma player_strike_rate_policy_witness :
  exists page,
    player_statistics 1 (Sample.first_option PlayerStatistics) Sample.store
    = (Done tt, Sample.store, page) /\
    Spec.reported "**Strike Rate:** {}" page
    = Some [VFixed2 ((6 # 1) / (3 # 1) * (100 # 1))%Q].
Proof.
  exact (player_strike_rate_policy Sample.store
           (Sample.first_option PlayerStatistics) 1 Sample.deliveries
           [Str "A"; Str "B"; Str "C"]
           eq_refl eq_refl eq_refl eq_refl eq_refl eq_refl).
Defined.

(** ** Team Analysis *)

Lemma index_of_app_new (label : string) (cols : list string) :
  index_of label cols = None ->
  index_of label (cols ++ [label]) = Some (List.length cols).
Proof.
  induction cols as [|c cols IH]; simpl.
  - rewrite String.eqb_refl. reflexivity.
  - destruct (String.eqb label c); [discriminate|].
    destruct (index_of label cols); [discriminate|].
    intros _. rewrite IH; reflexivity.
Qed.

Lemma has_column_setitem (d : DataFrame) (label : string) (v : list cell) :
  has_column (setitem d label v) label = true.
Proof.
  unfold has_column, setitem.
  destruct (index_of label (columns d)) as [i|] eqn:E; simpl.
  - rewrite E. reflexivity.
  - rewrite index_of_app_new by exact E. reflexivity.
Qed.

Lemma traverse_total {A B} (f : A -> res B) (l : list A) :
  (forall x, In x l -> exists y, f x = Val y) ->
  exists ys, traverse f l = Val ys.
Proof.
  induction l as [|x l IH]; intros H; simpl.
  - eexists; reflexivity.
  - destruct (H x (or_introl eq_refl)) as [y Hy]. rewrite Hy; simpl.
    destruct IH as [ys Hys]; [intros; apply H; right; assumption|].
    rewrite Hys; simpl. eexists; reflexivity.
Qed.

Lemma apply_get_opponent_total (t : DataFrame) :
  has_column t "winner" = true ->
  has_column t "team1" = true ->
  has_column t "team2" = true ->
  exists opponent, apply_get_opponent t = Val opponent.
Proof.
  intros Hw H1 H2. apply traverse_total. intros r _.
  destruct (has_column_index _ _ Hw) as [iw Ew].
  destruct (has_column_index _ _ H1) as [i1 E1].
  destruct (has_column_index _ _ H2) as [i2 E2].
  unfold get_opponent, row_get. rewrite Ew, E1, E2; simpl.
  destruct (py_eq _ _); eexists; reflexivity.
Qed.

Lemma team_analysis_run (quicksort : list Z -> list nat) (h : heap) (u : ui)
      (df : nat) (m : DataFrame) (team_list : list cell) :
  nth df h (mkDataFrame [] []) = m ->
  has_column m "team1" = true ->
  has_column m "team2" = true ->
  has_column m "winner" = true ->
  sorted (unique (map (Spec.field m "team1") (rows m))) = Val team_list ->
  let team := selectbox team_list (choice u) in
  let played := Spec.matches_played m team in
  let won := Spec.wins m team in
  exists h' page,
    team_analysis quicksort df u h
    = (Done tt, h',
       [st_header "Team Analysis";
        st_markdown "**Total Matches Played:** {}" [VInt played];
        st_markdown "**Total Wins:** {}" [VInt won];
        st_markdown "**Win Percentage:** {}%"
                    [VFixed2 (Spec.win_percentage won played)]] ++ page).
Proof.
  intros Hm H1 H2 Hw Hs team played won.
  unfold team_analysis.
  rewrite bind_emit, bind_deref, Hm.
  rewrite (bind_eval_val _ _ _ _ (getitem_field m "team1" H1)).
  rewrite (bind_eval_val _ _ _ _ Hs).
  rewrite bind_deref, Hm.
  rewrite (bind_eval_val _ _ _ _ (getitem_field m "team1" H1)).
  rewrite (bind_eval_val _ _ _ _ (getitem_field m "team2" H2)).
  rewrite (bind_eval_val _ _ _ _ (getitem_field m "winner" Hw)).
  fold team.
  rewrite !map_map, zip_with_map, shape0_where, count_true_map.
  rewrite !bind_emit, bind_deref, Hm.
  rewrite (bind_eval_val _ _ _ _ (getitem_field m "winner" Hw)).
  set (mine := fun r => eq_selected team (Spec.field m "winner" r)).
  assert (Hpage : forall h1 p,
            exists h' page,
              prepend [st_header "Team Analysis"]
               (prepend [st_markdown "**Total Matches Played:** {}" [VInt played]]
                (prepend [st_markdown "**Total Wins:** {}" [VInt won]]
                 (prepend [st_markdown "**Win Percentage:** {}%"
                                       [VFixed2 (Spec.win_percentage won played)]]
                  (prepend [st_subheader "Head-to-Head Wins vs Other Teams"]
                           (Done tt, h1, p)))))
              = (Done tt, h',
                 [st_header "Team Analysis";
                  st_markdown "**Total Matches Played:** {}" [VInt played];
                  st_markdown "**Total Wins:** {}" [VInt won];
                  st_markdown "**Win Percentage:** {}%"
                              [VFixed2 (Spec.win_percentage won played)]] ++ page)).
  { intros h1 p. eexists. eexists. reflexivity. }
  assert (Hcols : forall name s,
             set_columns (reset_index name s) ["Opponent"; "Wins Against"]
             = Val (mkDataFrame ["Opponent"; "Wins Against"]
                                (rows (reset_index name s)))) by reflexivity.
  destruct (has_column m "loser") eqn:Hl.
  - assert (Hg : has_column (where_ m (map (eq_selected team)
                    (map (Spec.field m "winner") (rows m)))) "loser" = true)
      by exact Hl.
    rewrite (bind_eval_val _ _ _ _ (getitem_field _ "loser" Hg)).
    rewrite bind_deref, Hm, Hl.
    unfold assign_columns.
    run_steps.
    rewrite (bind_eval_val _ _ _ _ (Hcols _ _)).
    run_steps.
    rewrite emit_run. apply Hpage.
  - assert (Hg : has_column (where_ m (map (eq_selected team)
                    (map (Spec.field m "winner") (rows m)))) "team2" = true)
      by exact H2.
    rewrite (bind_eval_val _ _ _ _ (getitem_field _ "team2" Hg)).
    rewrite bind_deref, Hm, Hl.
    rewrite ?bind_assoc.
    rewrite (bind_eval_val _ _ _ _ (getitem_field m "winner" Hw)).
    unfold copy, mutate, assign_columns.
    run_steps.
    set (wonrows := where_ m _).
    destruct (apply_get_opponent_total wonrows Hw H1 H2) as [opponent Ho].
    rewrite (bind_eval_val _ _ _ _ Ho).
    run_steps.
    rewrite (bind_eval_val _ _ _ _
               (getitem_field _ "Opponent" (has_column_setitem _ _ _))).
    run_steps.
    rewrite (bind_eval_val _ _ _ _ (Hcols _ _)).
    run_steps.
    rewrite emit_run. apply Hpage.
Qed.

(** C6.  Team Analysis reports, for the selected team: as matches played
    the count of match rows naming the team as either side, as wins the
    count of match rows whose winner is the team, and as win percentage
    wins divided by matches played times 100 when matches played is more
    than zero, and 0 otherwise. *)
Theorem team_win_percentage_policy (quicksort : list Z -> list nat)
        (h : heap) (u : ui) (df : nat) (m : DataFrame)
        (team_list : list cell) :
  nth_error h df = Some m ->
  has_column m "team1" = true ->
  has_column m "team2" = true ->
  has_column m "winner" = true ->
  sorted (unique (map (Spec.field m "team1") (rows m))) = Val team_list ->
  let team := selectbox team_list (choice u) in
  let played := Spec.matches_played m team in
  let won := Spec.wins m team in
  exists h' page,
    team_analysis quicksort df u h = (Done tt, h', page) /\
    Spec.reported "**Total Matches Played:** {}" page = Some [VInt played] /\
    Spec.reported "**Total Wins:** {}" page = Some [VInt won] /\
    Spec.reported "**Win Percentage:** {}%" page
    = Some [VFixed2 (if 0 <? played
                     then (inject_Z won / inject_Z played * inject_Z 100)%Q
                     else inject_Z 0)].
Proof.
  intros Hm H1 H2 Hw Hs team played won.
  destruct (team_analysis_run quicksort h u df m team_list
              (nth_error_nth_default _ _ _ Hm) H1 H2 Hw Hs) as (h' & page & Hrun).
  exists h'. eexists. split; [exact Hrun|].
  repeat split; reflexivity.
Qed.

Lemma team_win_percentage_policy_witness :
  exists h' page,
    team_analysis stable_argsort 0 (Sample.first_option TeamAnalysis)
                  Sample.store = (Done tt, h', page) /\
    Spec.reported "**Total Matches Played:** {}" page = Some [VInt 2] /\
    Spec.reported "**Total Wins:** {}" page = Some [VInt 1] /\
    Spec.reported "**Win Percentage:** {}%" page
    = Some [VFixed2 ((1 # 1) / (2 # 1) * (100 # 1))%Q].
Proof.
  exact (team_win_percentage_policy stable_argsort Sample.store
           (Sample.first_option TeamAnalysis) 0 Sample.matches
           [Str "CSK"; Str "MI"; Str "RR"]
           eq_refl eq_refl eq_refl eq_refl eq_refl).
Defined.

(** ** Bowler Analysis *)

Lemma overs_sixths (balls : Z) :
  (Spec.overs balls == inject_Z balls / inject_Z 6)%Q.
Proof.
  unfold Spec.overs.
  rewrite (Z.div_mod balls 6) at 3 by lia.
  rewrite inject_Z_plus, inject_Z_mult. field.
Qed.

Lemma overs_nonneg (balls : Z) : 0 <= balls -> (inject_Z 0 <= Spec.overs balls)%Q.
Proof.
  intros H. rewrite overs_sixths.
  unfold Qle, Qdiv, Qmult, Qinv, inject_Z; simpl. lia.
Qed.

Lemma overs_guard (balls : Z) :
  0 <= balls ->
  Qltb (inject_Z 0) (Spec.overs balls)
  = negb (Qeq_bool (Spec.overs balls) (inject_Z 0)).
Proof.
  intros H. unfold Qltb. f_equal.
  apply eq_true_iff_eq. rewrite Qle_bool_iff, Qeq_bool_iff. split.
  - intros Hle. apply Qle_antisym; [exact Hle | apply overs_nonneg; exact H].
  - intros ->. apply Qle_refl.
Qed.

Lemma bowler_analysis_run (h : heap) (u : ui) (deliveries : nat)
      (d : DataFrame) (bowler_list : list cell) :
  nth deliveries h (mkDataFrame [] []) = d ->
  has_column d "bowler" = true ->
  has_column d "player_dismissed" = true ->
  has_column d "total_runs" = true ->
  sorted (unique (map (Spec.field d "bowler") (rows d))) = Val bowler_list ->
  Spec.numeric_column d "total_runs" = true ->
  let bowler := selectbox bowler_list (choice u) in
  let wickets :=
    Spec.tally (filter (fun r => notna (Spec.field d "player_dismissed" r))
                       (Spec.rows_of d "bowler" bowler)) in
  exists page,
    bowler_analysis deliveries u h
    = (Done tt, h,
       [st_header "Bowler Analysis";
        st_markdown "**Total Wickets:** {}" [VInt wickets];
        st_markdown "**Economy Rate:** {}"
                    [VFixed2 (Spec.economy (Spec.runs_conceded d bowler)
                                           (Spec.balls_bowled d bowler))]]
       ++ page).
Proof.
  intros Hd Hb Hp Hr Hs Hn bowler wickets.
  unfold bowler_analysis.
  rewrite bind_emit, bind_deref, Hd.
  rewrite (bind_eval_val _ _ _ _ (getitem_field d "bowler" Hb)).
  rewrite (bind_eval_val _ _ _ _ Hs).
  rewrite bind_deref, Hd.
  rewrite (bind_eval_val _ _ _ _ (getitem_field d "bowler" Hb)).
  rewrite map_map. fold bowler.
  set (mine := fun r => eq_selected bowler (Spec.field d "bowler" r)).
  rewrite (bind_eval_val _ _ _ _ (getitem_where d mine "player_dismissed" Hp)).
  rewrite (bind_eval_val _ _ _ _ (getitem_where d mine "total_runs" Hr)).
  assert (Hsum : sum (map (Spec.field d "total_runs") (filter mine (rows d)))
                 = Val (Spec.runs_conceded d bowler)).
  { apply sum_numeric. apply forallb_filter. exact Hn. }
  rewrite (bind_eval_val _ _ _ _ Hsum).
  rewrite !bind_emit.
  rewrite shape0_where, map_map, count_true_map.
  change (Spec.tally (filter mine (rows d))) with (Spec.balls_bowled d bowler).
  change (filter mine (rows d)) with (Spec.rows_of d "bowler" bowler).
  fold (Spec.overs (Spec.balls_bowled d bowler)).
  rewrite overs_guard by (unfold Spec.balls_bowled, Spec.tally; lia).
  assert (He : (if negb (Qeq_bool (Spec.overs (Spec.balls_bowled d bowler)) (inject_Z 0))
                then (inject_Z (Spec.runs_conceded d bowler)
                      / Spec.overs (Spec.balls_bowled d bowler))%Q
                else inject_Z 0)
               = Spec.economy (Spec.runs_conceded d bowler)
                              (Spec.balls_bowled d bowler)).
  { unfold Spec.economy. destruct (Qeq_bool _ _); reflexivity. }
  rewrite He.
  rewrite has_column_where.
  destruct (has_column d "match_id") eqn:Hm.
  - unfold groupby_count_notna.
    rewrite (getitem_where d mine "match_id" Hm).
    rewrite (getitem_where d mine "player_dismissed" Hp).
    simpl res_bind. simpl eval. rewrite bind_ret, emit_run.
    eexists. reflexivity.
  - eexists. reflexivity.
Qed.

(** C5.  Bowler Analysis reports, as the economy rate of the selected
    bowler, total runs conceded divided by overs bowled, where overs is
    (balls div 6) + (balls mod 6)/6 over the count of deliveries bowled by
    that bowler, and 0 when overs bowled is 0.  With 7 balls and 10 runs
    conceded, overs is 1 + 1/6 and the economy shows as 8.57. *)
Theorem bowler_economy_policy (h : heap) (u : ui) (deliveries : nat)
        (d : DataFrame) (bowler_list : list cell) :
  nth_error h deliveries = Some d ->
  has_column d "bowler" = true ->
  has_column d "player_dismissed" = true ->
  has_column d "total_runs" = true ->
  sorted (unique (map (Spec.field d "bowler") (rows d))) = Val bowler_list ->
  Spec.numeric_column d "total_runs" = true ->
  let bowler := selectbox bowler_list (choice u) in
  let balls := Spec.balls_bowled d bowler in
  let runs := Spec.runs_conceded d bowler in
  let overs := (inject_Z (balls / 6) + inject_Z (balls mod 6) / inject_Z 6)%Q in
  exists page economy,
    bowler_analysis deliveries u h = (Done tt, h, page) /\
    Spec.reported "**Economy Rate:** {}" page = Some [VFixed2 economy] /\
    economy = (if Qeq_bool overs (inject_Z 0) then inject_Z 0
               else (inject_Z runs / overs)%Q) /\
    (balls = 7 -> runs = 10 ->
     (overs == 1 + (1 # 6))%Q /\ Spec.hundredths economy = 857).
Proof.
  intros Hd Hb Hp Hr Hs Hn bowler balls runs overs.
  destruct (bowler_analysis_run h u deliveries d bowler_list
              (nth_error_nth_default _ _ _ Hd) Hb Hp Hr Hs Hn) as [page Hrun].
  eexists. exists (Spec.economy runs balls).
  split; [exact Hrun|]. split; [reflexivity|]. split; [reflexivity|].
  intros E7 E10. subst overs. rewrite E7, E10.
  split; vm_compute; reflexivity.
Qed.

Lemma bowler_economy_policy_witness :
  exists page economy,
    bowler_analysis 1 (Sample.first_option BowlerAnalysis) Sample.store
    = (Done tt, Sample.store, page) /\
    Spec.reported "**Economy Rate:** {}" page = Some [VFixed2 economy] /\
    economy = ((10 # 1) / ((1 # 1) + (1 # 1) / (6 # 1)))%Q /\
    Spec.hundredths economy = 857.
Proof.
  destruct (bowler_economy_policy Sample.store
              (Sample.first_option BowlerAnalysis) 1 Sample.deliveries
              [Str "x"; Str "y"]
              eq_refl eq_refl eq_refl eq_refl eq_refl eq_refl)
    as (page & economy & Hrun & Hrep & He & Hex).
  exists page, economy.
  split; [exact Hrun|]. split; [exact Hrep|]. split; [exact He|].
  exact (proj2 (Hex eq_refl eq_refl)).
Defined.

(** ** Loading, cleaning and the required-column gate *)

Lemma load_and_clean_run (match_file delivery_file : DataFrame) :
  let m := Spec.clean_matches match_file in
  let d := Spec.clean_deliveries delivery_file in
  load_and_clean match_file delivery_file []
  = match missing_columns d with
    | [] =>
        (Done (0%nat, 1%nat), [m; d],
         [st_write "Deliveries DataFrame columns:" [VLabels (columns d)]])
    | missing =>
        (Stopped, [m; d],
         [st_write "Deliveries DataFrame columns:" [VLabels (columns d)];
          st_error
            "Deliveries file is missing required columns: {}. Available columns: {}"
            [VLabels missing; VLabels (columns d)]])
    end.
Proof.
  intros m d. unfold load_and_clean, mutate.
  run_steps. simpl nth. simpl update.
  run_steps. simpl nth. simpl update.
  run_steps. simpl nth. simpl update.
  run_steps. simpl nth. simpl update.
  change (filter _ required_cols) with (missing_columns d).
  destruct (missing_columns d) as [|c missing]; reflexivity.
Qed.

Lemma missing_columns_spec (d : DataFrame) (c : string) :
  In c (missing_columns d) <-> In c required_cols /\ has_column d c = false.
Proof.
  unfold missing_columns. rewrite filter_In, negb_true_iff. reflexivity.
Qed.

Lemma index_of_In (label : string) (cols : list string) :
  (exists i, index_of label cols = Some i) <-> In label cols.
Proof.
  induction cols as [|c cols IH]; simpl.
  - split; [intros [i H]; discriminate | intros []].
  - destruct (String.eqb_spec label c) as [->|Hne].
    + split; [auto | intros _; eexists; reflexivity].
    + rewrite <- IH. split.
      * intros [i H]. destruct (index_of label cols) as [j|]; [|discriminate].
        right. eexists; reflexivity.
      * intros [H|[j H]]; [congruence|]. rewrite H. eexists; reflexivity.
Qed.

Lemma has_column_In (d : DataFrame) (label : string) :
  has_column d label = true <-> In label (columns d).
Proof.
  rewrite <- index_of_In. unfold has_column.
  destruct (index_of label (columns d)) as [i|].
  - split; [intros _; eexists; reflexivity | reflexivity].
  - split; [discriminate | intros [i H]; discriminate].
Qed.

Lemma script_run (quicksort : list Z -> list nat)
      (match_file delivery_file : DataFrame) (u : ui) :
  let m := Spec.clean_matches match_file in
  let d := Spec.clean_deliveries delivery_file in
  script quicksort (Some match_file) (Some delivery_file) u []
  = match missing_columns d with
    | [] =>
        prepend
          (page_top d ++
           [st_dataframe (mkDataFrame (columns m) (head 5 (rows m)));
            st_text (info m);
            st_sidebar_header "Navigation"])
          (view quicksort 0 1 u [m; d])
    | missing =>
        (Stopped, [m; d],
         page_top d ++
         [st_error
            "Deliveries file is missing required columns: {}. Available columns: {}"
            [VLabels missing; VLabels (columns d)]])
    end.
Proof.
  intros m d. unfold script. rewrite !bind_emit.
  unfold bind at 1.
  rewrite (load_and_clean_run match_file delivery_file).
  fold m d.
  destruct (missing_columns d) as [|c missing'].
  - cbv beta iota. simpl fst. simpl snd.
    run_steps. simpl nth.
    destruct (view quicksort 0 1 u [m; d]) as [[s h] o]. reflexivity.
  - reflexivity.
Qed.

(** C4.  When the cleaned deliveries table lacks 'batsman' or
    'batsman_runs', the script stops at a validation error that names
    exactly the missing required columns and lists the available columns,
    and nothing of any view is rendered; when both are present the script
    goes on to the previews and the selected view. *)
Theorem required_columns_gate (quicksort : list Z -> list nat)
        (match_file delivery_file : DataFrame) (u : ui) :
  let m := Spec.clean_matches match_file in
  let d := Spec.clean_deliveries delivery_file in
  let missing := missing_columns d in
  script quicksort (Some match_file) (Some delivery_file) u []
  = match missing with
    | [] =>
        prepend
          (page_top d ++
           [st_dataframe (mkDataFrame (columns m) (head 5 (rows m)));
            st_text (info m);
            st_sidebar_header "Navigation"])
          (view quicksort 0 1 u [m; d])
    | _ =>
        (Stopped, [m; d],
         page_top d ++
         [st_error
            "Deliveries file is missing required columns: {}. Available columns: {}"
            [VLabels missing; VLabels (columns d)]])
    end
  /\ (forall c, In c missing <-> In c required_cols /\ ~ In c (columns d))
  /\ (missing = [] <->
      In "batsman" (columns d) /\ In "batsman_runs" (columns d)).
Proof.
  intros m d missing. split; [|split].
  - pose proof (script_run quicksort match_file delivery_file u) as H.
    cbv zeta in H. fold m d in H. rewrite H. unfold missing.
    destruct (missing_columns d); reflexivity.
  - intros c. unfold missing. rewrite missing_columns_spec.
    rewrite <- has_column_In.
    destruct (has_column d c); intuition congruence.
  - rewrite <- !has_column_In. unfold missing, missing_columns, required_cols.
    simpl. destruct (has_column d "batsman"), (has_column d "batsman_runs");
      simpl; intuition congruence.
Qed.

(** ** The views leave the two tables alone *)

Lemma anything_intro {A} (a : A) : anything a.
Proof. exact I. Qed.

Lemma keeps_ret {A} (a : A) (post : A -> Prop) : post a -> keeps (ret a) post.
Proof.
  intros Hp m d h Hk. simpl. split; [exact Hk|].
  intros b Hb. inversion Hb. subst. exact Hp.
Qed.

Lemma keeps_bind {A B} (c : M A) (k : A -> M B) (P : A -> Prop)
      (Q : B -> Prop) :
  keeps c P -> (forall a, P a -> keeps (k a) Q) -> keeps (bind c k) Q.
Proof.
  intros Hc Hk m d h Hh. unfold bind.
  specialize (Hc m d h Hh).
  destruct (c h) as [[[a|e|] h1] o1].
  - destruct Hc as [H1 Ha].
    specialize (Hk a (Ha a eq_refl) m d h1 H1).
    destruct (k a h1) as [[s h2] o2]. exact Hk.
  - destruct Hc as [H1 _]. split; [exact H1 | discriminate].
  - destruct Hc as [H1 _]. split; [exact H1 | discriminate].
Qed.

Lemma keeps_emit (o : output) : keeps (emit o) anything.
Proof. intros m d h Hk. simpl. split; [exact Hk | intros; exact I]. Qed.

Lemma keeps_eval {A} (r : res A) : keeps (eval r) anything.
Proof.
  intros m d h Hk. destruct r; simpl; (split; [exact Hk | intros; exact I]).
Qed.

Lemma keeps_deref (r : nat) : keeps (deref r) anything.
Proof. intros m d h Hk. simpl. split; [exact Hk | intros; exact I]. Qed.

Lemma keeps_alloc (x : DataFrame) : keeps (alloc x) fresh.
Proof.
  intros m d h [rest ->]. simpl. split.
  - exists (rest ++ [x]). reflexivity.
  - intros a Ha. inversion Ha. unfold fresh. simpl. lia.
Qed.

Lemma keeps_store (r : nat) (x : DataFrame) :
  fresh r -> keeps (store r x) anything.
Proof.
  intros Hr m d h [rest ->]. unfold store. split; [|intros; exact I].
  destruct r as [|[|r]]; try (unfold fresh in Hr; lia).
  simpl. eexists. reflexivity.
Qed.

Lemma keeps_mutate (r : nat) (f : DataFrame -> DataFrame) :
  fresh r -> keeps (mutate r f) anything.
Proof.
  intros Hr. unfold mutate. eapply keeps_bind; [apply keeps_deref|].
  intros x _. apply keeps_store. exact Hr.
Qed.

Lemma keeps_copy (r : nat) : keeps (copy r) fresh.
Proof.
  unfold copy. eapply keeps_bind; [apply keeps_deref|].
  intros x _. apply keeps_alloc.
Qed.

Lemma keeps_assign_columns (r : nat) (labels : list string) :
  fresh r -> keeps (assign_columns r labels) anything.
Proof.
  intros Hr. unfold assign_columns.
  eapply keeps_bind; [apply keeps_deref|]. intros x _.
  eapply keeps_bind; [apply keeps_eval|]. intros y _.
  apply keeps_store. exact Hr.
Qed.

Ltac keeps_step :=
  cbv beta zeta;
  lazymatch goal with
  | |- keeps (bind ?c _) _ =>
      eapply keeps_bind; [ keeps_step | intros; keeps_step ]
  | |- keeps (if ?b then _ else _) _ => destruct b; keeps_step
  | |- keeps (match ?l with [] => _ | _ :: _ => _ end) _ =>
      destruct l; keeps_step
  | |- keeps (alloc _) _ => apply keeps_alloc
  | |- keeps (copy _) _ => apply keeps_copy
  | |- keeps (store _ _) _ => apply keeps_store; assumption
  | |- keeps (mutate _ _) _ => apply keeps_mutate; assumption
  | |- keeps (assign_columns _ _) _ => apply keeps_assign_columns; assumption
  | |- keeps (emit _) _ => apply keeps_emit
  | |- keeps (eval _) _ => apply keeps_eval
  | |- keeps (deref _) _ => apply keeps_deref
  | |- keeps (ret _) _ =>
      apply keeps_ret; first [assumption | exact I | apply anything_intro]
  end.

Section ViewsKeep.
Variable quicksort : list Z -> list nat.

Lemma dashboard_overview_keeps :
  keeps (dashboard_overview quicksort 0 1) anything.
Proof. unfold dashboard_overview. keeps_step. Qed.

Lemma player_statistics_keeps (u : ui) : keeps (player_statistics 1 u) anything.
Proof. unfold player_statistics. keeps_step. Qed.

Lemma team_analysis_keeps (u : ui) : keeps (team_analysis quicksort 0 u) anything.
Proof. unfold team_analysis. keeps_step. Qed.

Lemma season_wise_trends_keeps (u : ui) :
  keeps (season_wise_trends quicksort 0 1 u) anything.
Proof. unfold season_wise_trends. keeps_step. Qed.

Lemma bowler_analysis_keeps (u : ui) : keeps (bowler_analysis 1 u) anything.
Proof. unfold bowler_analysis. keeps_step. Qed.

Lemma match_outcome_insights_keeps : keeps (match_outcome_insights 0) anything.
Proof. unfold match_outcome_insights. keeps_step. Qed.

Lemma interactive_visualizations_keeps (u : ui) :
  keeps (interactive_visualizations 0 1 u) anything.
Proof. unfold interactive_visualizations. keeps_step. Qed.

Lemma downloadable_reports_keeps : keeps (downloadable_reports 0 1) anything.
Proof. unfold downloadable_reports. keeps_step. Qed.

Lemma advanced_analytics_keeps : keeps advanced_analytics anything.
Proof. unfold advanced_analytics. keeps_step. Qed.

End ViewsKeep.

Lemma view_keeps (quicksort : list Z -> list nat) (u : ui) :
  keeps (view quicksort 0 1 u) anything.
Proof.
  unfold view. destruct (radio u).
  - apply dashboard_overview_keeps.
  - apply player_statistics_keeps.
  - apply team_analysis_keeps.
  - apply season_wise_trends_keeps.
  - apply bowler_analysis_keeps.
  - apply match_outcome_insights_keeps.
  - apply interactive_visualizations_keeps.
  - apply downloadable_reports_keeps.
  - apply advanced_analytics_keeps.
Qed.

Lemma downloadable_reports_run (m d : DataFrame) (rest : heap) :
  downloadable_reports 0 1 (m :: d :: rest)
  = (Done tt, m :: d :: rest,
     [st_header "Downloadable Reports";
      st_markdown "Download the IPL matches or deliveries data as CSV:" [];
      st_download_button "Download Matches CSV" (to_csv m) "ipl_matches.csv";
      st_download_button "Download Deliveries CSV" (to_csv d)
                         "deliveries.csv"]).
Proof. reflexivity. Qed.

(** C9.  After the cleaning step the store holds the cleaned matches table
    and the cleaned deliveries table.  Whatever view is invoked, however
    it ends and whatever other objects the store holds, both tables are
    the same after it as before it; so they are at the end of the whole
    script.  The two download buttons carry the CSV text of exactly these
    two tables. *)
Theorem views_never_mutate_tables (quicksort : list Z -> list nat)
        (match_file delivery_file : DataFrame) (u : ui) :
  let m := Spec.clean_matches match_file in
  let d := Spec.clean_deliveries delivery_file in
  (exists s page,
      load_and_clean match_file delivery_file [] = (s, [m; d], page))
  /\ (forall rest, exists s rest' page,
        view quicksort 0 1 u (m :: d :: rest) = (s, m :: d :: rest', page))
  /\ (exists s rest page,
        script quicksort (Some match_file) (Some delivery_file) u []
        = (s, m :: d :: rest, page))
  /\ (forall rest,
        view quicksort 0 1 (mkUi DownloadableReports (choice u) (choice2 u))
             (m :: d :: rest)
        = (Done tt, m :: d :: rest,
           [st_header "Downloadable Reports";
            st_markdown "Download the IPL matches or deliveries data as CSV:" [];
            st_download_button "Download Matches CSV" (to_csv m)
                               "ipl_matches.csv";
            st_download_button "Download Deliveries CSV" (to_csv d)
                               "deliveries.csv"])).
Proof.
  intros m d.
  assert (Hview : forall rest, exists s rest' page,
             view quicksort 0 1 u (m :: d :: rest)
             = (s, m :: d :: rest', page)).
  { intros rest.
    pose proof (view_keeps quicksort u m d (m :: d :: rest)
                           (ex_intro _ rest eq_refl)) as H.
    destruct (view quicksort 0 1 u (m :: d :: rest)) as [[s h'] page].
    destruct H as [[rest' ->] _]. exists s, rest', page. reflexivity. }
  split; [|split; [|split]].
  - pose proof (load_and_clean_run match_file delivery_file) as H.
    cbv zeta in H. fold m d in H. rewrite H.
    destruct (missing_columns d); eexists; eexists; reflexivity.
  - exact Hview.
  - pose proof (script_run quicksort match_file delivery_file u) as H.
    cbv zeta in H. fold m d in H. rewrite H.
    destruct (missing_columns d).
    + destruct (Hview []) as (s & rest' & page & Hv). rewrite Hv.
      eexists; eexists; eexists; reflexivity.
    + eexists; eexists; eexists; reflexivity.
  - intros rest. apply downloadable_reports_run.
Qed.

(** ** Columns the views test for, and columns they do not *)




Ltac walk :=
  repeat (rewrite ?bind_assoc;
          first
            [ rewrite bind_emit
            | rewrite bind_deref; cbn [nth]
            | rewrite bind_ret
            | match goal with
              | |- context [bind (eval ?r) ?k ?h] =>
                  destruct r eqn:?;
                  [ rewrite (bind_eval_val _ _ k h eq_refl)
                  | rewrite (bind_eval_exc _ _ k h eq_refl) ]
              end
            | match goal with
              | |- context [if ?b then _ else _] => destruct b eqn:?
              end ]).




(** The test before the top-run-scorer computation looks for 'id' in the
    matches table and for 'batsman' in the deliveries table; a deliveries
    table without 'match_id' passes it and the next line raises. *)
Lemma season_without_match_id_raises :
  fst (fst (season_wise_trends stable_argsort 0 1
              (Sample.first_option SeasonWiseTrends)
              [Sample.matches; Sample.bare_deliveries]))
  = Raised (KeyError "match_id").
Proof. reflexivity. Qed.



(** ** Who can be selected in Player Statistics *)

Lemma index_of_lt (label : string) (cols : list string) (i : nat) :
  index_of label cols = Some i -> (i < List.length cols)%nat.
Proof.
  revert i. induction cols as [|c cols IH]; simpl; intros i H; [discriminate|].
  destruct (String.eqb label c).
  - inversion H. lia.
  - destruct (index_of label cols) as [j|]; [|discriminate].
    inversion H. specialize (IH j eq_refl). lia.
Qed.

Lemma nth_map_seq {A} (f : nat -> A) (w i : nat) (dflt : A) :
  (i < w)%nat -> nth i (map f (seq 0 w)) dflt = f i.
Proof.
  intros H. rewrite (nth_indep _ dflt (f O)) by (rewrite length_map, length_seq; exact H).
  rewrite map_nth. rewrite seq_nth by exact H. reflexivity.
Qed.


Lemma existsb_eqb_In (i : nat) (l : list nat) :
  In i l -> existsb (Nat.eqb i) l = true.
Proof.
  intros H. apply existsb_exists. exists i. split; [exact H | apply Nat.eqb_refl].
Qed.


Lemma in_keep_first {A} (eqb : A -> A -> bool) (seen l : list A) (x : A) :
  In x (keep_first eqb seen l) -> In x l.
Proof.
  revert seen. induction l as [|y l IH]; simpl; intros seen H; [exact H|].
  destruct (existsb (eqb y) seen).
  - right. eapply IH. exact H.
  - destruct H as [->|H]; [left; reflexivity | right; eapply IH; exact H].
Qed.

Lemma keep_first_nonempty {A} (eqb : A -> A -> bool) (l : list A) :
  l <> [] -> keep_first eqb [] l <> [].
Proof. destruct l as [|x l]; [congruence|]. simpl. discriminate. Qed.

Lemma in_insert_by {A} (leb : A -> A -> bool) (x y : A) (l : list A) :
  In y (insert_by leb x l) <-> y = x \/ In y l.
Proof.
  induction l as [|z l IH]; simpl; [intuition|].
  destruct (leb x z); simpl; [intuition|]. rewrite IH. intuition.
Qed.

Lemma in_sort_by {A} (leb : A -> A -> bool) (y : A) (l : list A) :
  In y (sort_by leb l) <-> In y l.
Proof.
  induction l as [|x l IH]; simpl; [reflexivity|].
  rewrite in_insert_by, IH. intuition.
Qed.

Lemma length_insert_by {A} (leb : A -> A -> bool) (x : A) (l : list A) :
  List.length (insert_by leb x l) = S (List.length l).
Proof.
  induction l as [|z l IH]; simpl; [reflexivity|].
  destruct (leb x z); simpl; [reflexivity | rewrite IH; reflexivity].
Qed.

Lemma sorted_spec (l l' : list cell) :
  sorted l = Val l' ->
  l' = sort_by cell_leb l /\ (forallb is_str l = true \/ existsb is_str l = false).
Proof.
  unfold sorted. destruct (forallb is_str l) eqn:Ha.
  - intros H; inversion H. auto.
  - destruct (existsb is_str l) eqn:He; [discriminate|].
    intros H; inversion H. auto.
Qed.

Lemma selectbox_In {A} (options : list A) (k : nat) :
  options <> [] -> exists x, selectbox options k = Some x /\ In x options.
Proof.
  destruct options as [|x l]; [congruence|]. intros _.
  unfold selectbox. eexists. split; [reflexivity|].
  destruct (Nat.lt_ge_cases k (List.length (x :: l))) as [Hlt|Hge].
  - apply nth_In. exact Hlt.
  - rewrite nth_overflow by exact Hge. left; reflexivity.
Qed.

Lemma py_eq_refl (c : cell) : c <> NaN -> py_eq c c = true.
Proof.
  destruct c; simpl; [congruence | intros _; apply Z.eqb_refl
                      | intros _; apply String.eqb_refl].
Qed.

Lemma length_sort_by {A} (leb : A -> A -> bool) (l : list A) :
  List.length (sort_by leb l) = List.length l.
Proof.
  induction l as [|x l IH]; simpl; [reflexivity|].
  rewrite length_insert_by, IH. reflexivity.
Qed.

Lemma cell_eqb_eq (a b : cell) : cell_eqb a b = true <-> a = b.
Proof.
  destruct a, b; simpl; try (split; [discriminate | congruence]).
  - split; reflexivity.
  - rewrite Z.eqb_eq. split; congruence.
  - rewrite String.eqb_eq. split; congruence.
Qed.

Lemma in_keep_first_complete {A} (eqb : A -> A -> bool) :
  (forall a b, eqb a b = true -> a = b) ->
  forall (l seen : list A) (x : A),
    In x l -> In x seen \/ In x (keep_first eqb seen l).
Proof.
  intros Heq. induction l as [|y l IH]; simpl; intros seen x H; [destruct H|].
  destruct (existsb (eqb y) seen) eqn:E.
  - destruct H as [<-|H]; [|apply IH; exact H].
    apply existsb_exists in E. destruct E as [z [Hz Hyz]].
    apply Heq in Hyz. subst z. left; exact Hz.
  - destruct H as [<-|H]; [right; left; reflexivity|].
    destruct (IH (y :: seen) x H) as [[<-|Hs]|Hk].
    + right; left; reflexivity.
    + left; exact Hs.
    + right; right; exact Hk.
Qed.

Lemma in_unique (x : cell) (l : list cell) : In x (unique l) <-> In x l.
Proof.
  split; [apply in_keep_first|].
  intros H.
  destruct (in_keep_first_complete cell_eqb
              (fun a b => proj1 (cell_eqb_eq a b)) l [] x H) as [[]|Hk].
  exact Hk.
Qed.





(** ** Grouping deliveries by batsman *)

(** One delivery of 4 runs names no batsman: the grouped totals add up
    to 1, the column to 5. *)
Lemma null_batsman_runs_are_dropped :
  ~ grouped_total_is_column_total (clean_deliveries Sample.unnamed_batsman).
Proof.
  intros H. specialize (H [(Str "A", 1)] 5 eq_refl eq_refl). discriminate.
Qed.

Lemma traverse_map {A B} (f : A -> res B) (g : A -> B) (l : list A) :
  (forall x, In x l -> f x = Val (g x)) -> traverse f l = Val (map g l).
Proof.
  induction l as [|x l IH]; intros H; simpl; [reflexivity|].
  rewrite (H x (or_introl eq_refl)); simpl.
  rewrite IH by (intros; apply H; right; assumption). reflexivity.
Qed.

Lemma keep_first_NoDup (l seen : list cell) :
  NoDup (keep_first cell_eqb seen l) /\
  forall x, In x (keep_first cell_eqb seen l) -> ~ In x seen.
Proof.
  revert seen. induction l as [|y l IH]; intros seen; simpl.
  - split; [constructor | intros x []].
  - destruct (existsb (cell_eqb y) seen) eqn:E; [apply IH|].
    destruct (IH (y :: seen)) as [Hnd Hout]. split.
    + constructor; [|exact Hnd]. intros Hy. apply (Hout y Hy). left; reflexivity.
    + intros x [<-|Hx].
      * intros Hs. assert (existsb (cell_eqb y) seen = true); [|congruence].
        apply existsb_exists. exists y. split; [exact Hs | apply cell_eqb_eq; reflexivity].
      * intros Hs. apply (Hout x Hx). right; exact Hs.
Qed.

Lemma unique_NoDup (l : list cell) : NoDup (unique l).
Proof. apply keep_first_NoDup. Qed.

Lemma series_total_insert (keys : list cell) (T : cell -> Z) (x : cell) :
  series_total (map (fun g => (g, T g)) (insert_by cell_leb x keys))
  = T x + series_total (map (fun g => (g, T g)) keys).
Proof.
  induction keys as [|y keys IH]; simpl; [reflexivity|].
  destruct (cell_leb x y); simpl; [reflexivity|].
  rewrite IH. lia.
Qed.

Lemma series_total_sort (keys : list cell) (T : cell -> Z) :
  series_total (map (fun g => (g, T g)) (sort_by cell_leb keys))
  = series_total (map (fun g => (g, T g)) keys).
Proof.
  induction keys as [|y keys IH]; simpl; [reflexivity|].
  rewrite series_total_insert, IH. reflexivity.
Qed.

Lemma indicator_total (keys : list cell) (x : cell) (n : Z) :
  NoDup keys ->
  series_total (map (fun g => (g, if cell_eqb g x then n else 0)) keys)
  = if existsb (cell_eqb x) keys then n else 0.
Proof.
  induction keys as [|y keys IH]; intros Hnd; simpl; [reflexivity|].
  inversion Hnd as [|? ? Hy Hnd']; subst.
  rewrite (IH Hnd').
  destruct (cell_eqb y x) eqn:E.
  - apply cell_eqb_eq in E. subst y.
    assert (Hx : cell_eqb x x = true) by (apply cell_eqb_eq; reflexivity).
    rewrite Hx. simpl.
    destruct (existsb (cell_eqb x) keys) eqn:Ex; [|lia].
    exfalso. apply Hy. apply existsb_exists in Ex. destruct Ex as [z [Hz Hxz]].
    apply cell_eqb_eq in Hxz. subst z. exact Hz.
  - assert (Hx : cell_eqb x y = false).
    { destruct (cell_eqb x y) eqn:E'; [|reflexivity].
      apply cell_eqb_eq in E'. subst y.
      rewrite (proj2 (cell_eqb_eq x x) eq_refl) in E. discriminate. }
    rewrite Hx. simpl. lia.
Qed.

Lemma series_total_plus (keys : list cell) (S T : cell -> Z) :
  series_total (map (fun g => (g, S g + T g)) keys)
  = series_total (map (fun g => (g, S g)) keys)
    + series_total (map (fun g => (g, T g)) keys).
Proof.
  induction keys as [|y keys IH]; simpl; [reflexivity|]. rewrite IH. lia.
Qed.

Lemma groups_partition (d : DataFrame) (key val : string) (keys : list cell)
      (rs : list (list cell)) :
  NoDup keys ->
  series_total
    (map (fun g => (g, total d val (filter (fun r => cell_eqb g (field d key r)) rs)))
         keys)
  = total d val (filter (fun r => existsb (cell_eqb (field d key r)) keys) rs).
Proof.
  intros Hnd. induction rs as [|r rs IH]; simpl.
  - induction keys as [|y keys IHk]; simpl; [reflexivity|].
    inversion Hnd; subst. rewrite IHk by assumption. reflexivity.
  - assert (E : forall g,
               total d val (filter (fun r0 => cell_eqb g (field d key r0)) (r :: rs))
               = (if cell_eqb g (field d key r) then number (field d val r) else 0)
                 + total d val (filter (fun r0 => cell_eqb g (field d key r0)) rs)).
    { intros g. simpl. destruct (cell_eqb g (field d key r)); reflexivity. }
    rewrite (map_ext _ _ (fun g => f_equal (pair g) (E g))).
    rewrite series_total_plus, IH.
    rewrite (indicator_total keys (field d key r) (number (field d val r)) Hnd).
    destruct (existsb (cell_eqb (field d key r)) keys); simpl; lia.
Qed.

Lemma existsb_cell_In (x : cell) (keys : list cell) :
  existsb (cell_eqb x) keys = true <-> In x keys.
Proof.
  rewrite existsb_exists. split.
  - intros [y [Hy E]]. apply cell_eqb_eq in E. subst y. exact Hy.
  - intros H. exists x. split; [exact H | apply cell_eqb_eq; reflexivity].
Qed.

Lemma group_rows (d : DataFrame) (key val : string) (g : cell) :
  group (map (field d key) (rows d)) (map (field d val) (rows d)) g
  = map (field d val) (filter (fun r => cell_eqb g (field d key r)) (rows d)).
Proof.
  unfold group. rewrite map_map, select_map, select_map_filter. reflexivity.
Qed.

Lemma groupby_sum_rows (d : DataFrame) (key val : string) :
  has_column d key = true ->
  has_column d val = true ->
  numeric_column d val = true ->
  groupby_sum d key val
  = Val (map (fun g => (g, total d val
                              (filter (fun r => cell_eqb g (field d key r))
                                      (rows d))))
             (group_keys (map (field d key) (rows d)))).
Proof.
  intros Hk Hv Hn. unfold groupby_sum.
  rewrite (getitem_field d key Hk), (getitem_field d val Hv). simpl res_bind.
  apply traverse_map. intros g _.
  rewrite group_rows, sum_numeric; [reflexivity|].
  apply forallb_filter. exact Hn.
Qed.

(** C3, as amended.  The per-batsman totals of the grouping add up to the
    sum of runs off the bat over the deliveries that name a batsman
    (groupby leaves out the rows whose key is null, and the cleaning fills
    numeric columns only); they add up to the sum of the whole column when
    no delivery lacks its batsman. *)
Theorem grouped_total_covers_named_rows (d : DataFrame) :
  has_column d "batsman" = true ->
  has_column d "batsman_runs" = true ->
  numeric_column d "batsman_runs" = true ->
  exists by_batsman,
    groupby_sum d "batsman" "batsman_runs" = Val by_batsman /\
    res_bind (getitem d "batsman_runs") sum
    = Val (total d "batsman_runs" (rows d)) /\
    series_total by_batsman = total d "batsman_runs" (named_rows d) /\
    (forallb (fun r => notna (field d "batsman" r)) (rows d) = true ->
     series_total by_batsman = total d "batsman_runs" (rows d)).
Proof.
  intros Hk Hv Hn.
  eexists. split; [apply groupby_sum_rows; assumption|].
  split.
  { rewrite (getitem_field d "batsman_runs" Hv). simpl res_bind.
    apply sum_numeric. exact Hn. }
  assert (Hnamed :
            series_total
              (map (fun g => (g, total d "batsman_runs"
                                   (filter (fun r => cell_eqb g (field d "batsman" r))
                                           (rows d))))
                   (group_keys (map (field d "batsman") (rows d))))
            = total d "batsman_runs" (named_rows d)).
  { unfold group_keys.
    rewrite (series_total_sort _
               (fun g => total d "batsman_runs"
                           (filter (fun r => cell_eqb g (field d "batsman" r))
                                   (rows d)))).
    rewrite groups_partition by apply unique_NoDup.
    unfold named_rows. f_equal. apply filter_ext_in. intros r Hr.
    apply eq_true_iff_eq.
    rewrite existsb_cell_In, in_unique, filter_In, in_map_iff.
    split; [intros [_ H]; exact H|].
    intros H. split; [|exact H]. exists r. split; [reflexivity | exact Hr]. }
  split; [exact Hnamed|].
  intros Hall. rewrite Hnamed. unfold named_rows. f_equal.
  rewrite forallb_forall in Hall.
  clear - Hall. induction (rows d) as [|r rs IH]; simpl; [reflexivity|].
  rewrite (Hall r (or_introl eq_refl)). f_equal.
  apply IH. intros x Hx. apply Hall. right; exact Hx.
Qed.

Lemma grouped_total_covers_named_rows_witness :
  exists by_batsman,
    groupby_sum Sample.deliveries "batsman" "batsman_runs" = Val by_batsman /\
    res_bind (getitem Sample.deliveries "batsman_runs") sum = Val 13 /\
    series_total by_batsman = 13 /\
    (true = true -> series_total by_batsman = 13).
Proof.
  exact (grouped_total_covers_named_rows Sample.deliveries
           eq_refl eq_refl eq_refl).
Defined.

(** ** The order of the top run scorers *)

Lemma string_leb_trans (s1 s2 s3 : string) :
  String.leb s1 s2 = true -> String.leb s2 s3 = true -> String.leb s1 s3 = true.
Proof.
  unfold String.leb. revert s2 s3.
  induction s1 as [|a s1 IH]; intros [|b s2] [|c s3]; simpl;
    try reflexivity; try discriminate.
  unfold Ascii.compare.
  destruct (N.compare_spec (N_of_ascii a) (N_of_ascii b)) as [Eab|Lab|Gab];
    destruct (N.compare_spec (N_of_ascii b) (N_of_ascii c)) as [Ebc|Lbc|Gbc];
    destruct (N.compare_spec (N_of_ascii a) (N_of_ascii c)) as [Eac|Lac|Gac];
    try lia; try reflexivity; try discriminate.
  apply IH.
Qed.

Lemma cell_leb_trans (a b c : cell) :
  cell_leb a b = true -> cell_leb b c = true -> cell_leb a c = true.
Proof.
  destruct a as [|x|s], b as [|y|t], c as [|z|w]; simpl;
    try reflexivity; try discriminate.
  - rewrite !Z.leb_le. lia.
  - apply string_leb_trans.
Qed.

Lemma cell_leb_antisym (a b : cell) :
  cell_leb a b = true -> cell_leb b a = true -> a = b.
Proof.
  destruct a as [|x|s], b as [|y|t]; simpl; try reflexivity; try discriminate.
  - rewrite !Z.leb_le. intros. f_equal. lia.
  - intros H1 H2. f_equal. apply String.leb_antisym; assumption.
Qed.

Lemma cell_leb_total (a b : cell) : cell_leb a b = true \/ cell_leb b a = true.
Proof.
  destruct a as [|x|s], b as [|y|t]; simpl; auto.
  - rewrite !Z.leb_le. lia.
  - apply String.leb_total.
Qed.

Lemma insert_by_comm (x y : cell) (l : list cell) :
  insert_by cell_leb x (insert_by cell_leb y l)
  = insert_by cell_leb y (insert_by cell_leb x l).
Proof.
  induction l as [|z l IH]; simpl.
  - destruct (cell_leb x y) eqn:Exy, (cell_leb y x) eqn:Eyx; try reflexivity.
    + rewrite (cell_leb_antisym x y Exy Eyx). reflexivity.
    + destruct (cell_leb_total x y); congruence.
  - destruct (cell_leb x z) eqn:Exz, (cell_leb y z) eqn:Eyz; simpl;
      rewrite ?Exz, ?Eyz.
    + destruct (cell_leb x y) eqn:Exy, (cell_leb y x) eqn:Eyx; try reflexivity.
      * rewrite (cell_leb_antisym x y Exy Eyx). reflexivity.
      * destruct (cell_leb_total x y); congruence.
    + destruct (cell_leb y x) eqn:Eyx; [|reflexivity].
      rewrite (cell_leb_trans y x z Eyx Exz) in Eyz. discriminate.
    + destruct (cell_leb x y) eqn:Exy; [|reflexivity].
      rewrite (cell_leb_trans x y z Exy Eyz) in Exz. discriminate.
    + rewrite IH. reflexivity.
Qed.

Lemma sort_by_permutation (l l' : list cell) :
  Permutation l l' -> sort_by cell_leb l = sort_by cell_leb l'.
Proof.
  unfold sort_by. induction 1; simpl.
  - reflexivity.
  - rewrite IHPermutation. reflexivity.
  - apply insert_by_comm.
  - congruence.
Qed.

Lemma filter_permutation {A} (f : A -> bool) (l l' : list A) :
  Permutation l l' -> Permutation (filter f l) (filter f l').
Proof.
  induction 1; simpl.
  - constructor.
  - destruct (f x); [constructor|]; assumption.
  - destruct (f x), (f y); try constructor; apply Permutation_refl.
  - eapply Permutation_trans; eassumption.
Qed.

Lemma sum_permutation (l l' : list cell) :
  Permutation l l' -> sum l = sum l'.
Proof.
  induction 1; simpl.
  - reflexivity.
  - destruct x; rewrite ?IHPermutation; reflexivity.
  - destruct x as [|a|s], y as [|b|t]; simpl; try reflexivity;
      destruct (sum l) as [t0|e]; simpl; try reflexivity.
    f_equal. lia.
  - congruence.
Qed.

Lemma group_keys_permutation (k k' : list cell) :
  Permutation k k' -> group_keys k = group_keys k'.
Proof.
  intros H. unfold group_keys. apply sort_by_permutation.
  apply NoDup_Permutation; try apply unique_NoDup.
  intros x. rewrite !in_unique, !filter_In.
  split; intros [Hin Hn]; (split; [|exact Hn]).
  - eapply Permutation_in; eassumption.
  - eapply Permutation_in; [apply Permutation_sym|]; eassumption.
Qed.

Lemma traverse_ext {A B} (f g : A -> res B) (l : list A) :
  (forall x, f x = g x) -> traverse f l = traverse g l.
Proof.
  intros H. induction l as [|x l IH]; simpl; [reflexivity|].
  rewrite H, IH. reflexivity.
Qed.

Lemma getitem_columns (d d' : DataFrame) (label : string) :
  columns d' = columns d ->
  getitem d' label
  = match index_of label (columns d) with
    | Some i => Val (map (at_ i) (rows d'))
    | None => Exc (KeyError label)
    end.
Proof. intros H. unfold getitem. rewrite H. reflexivity. Qed.

Lemma groupby_sum_permutation (d d' : DataFrame) (key val : string) :
  columns d' = columns d ->
  Permutation (rows d) (rows d') ->
  groupby_sum d' key val = groupby_sum d key val.
Proof.
  intros Hc Hp. unfold groupby_sum.
  rewrite !(getitem_columns d d' _ Hc). unfold getitem.
  destruct (index_of key (columns d)) as [i|]; [|reflexivity].
  destruct (index_of val (columns d)) as [j|]; [|reflexivity].
  simpl res_bind.
  rewrite (group_keys_permutation (map (at_ i) (rows d')) (map (at_ i) (rows d)))
    by (apply Permutation_map, Permutation_sym; exact Hp).
  apply traverse_ext. intros g. f_equal.
  unfold group. rewrite !map_map, !select_map, !select_map_filter.
  apply sum_permutation, Permutation_map, filter_permutation, Permutation_sym.
  exact Hp.
Qed.

Lemma ascending_sorted (l : list Z) :
  ascending l = true -> StronglySorted Z.le l.
Proof.
  intros H. apply Sorted_StronglySorted; [exact Z.le_trans|].
  induction l as [|x l IH]; [constructor|].
  destruct l as [|y l].
  - constructor; constructor.
  - simpl in H. apply andb_prop in H. destruct H as [Hxy Hl].
    constructor; [apply IH; exact Hl|].
    constructor. apply Z.leb_le. exact Hxy.
Qed.

Lemma descending_rev (l : list Z) :
  StronglySorted Z.le l -> descending (rev l).
Proof.
  unfold descending. induction 1 as [|x l Hl IH Hx]; simpl; [constructor|].
  assert (G : forall m, StronglySorted (fun a b => b <= a) m ->
                        Forall (fun b => x <= b) m ->
                        StronglySorted (fun a b => b <= a) (m ++ [x])).
  { induction m as [|z m IHm]; simpl; intros Hm Hall.
    - constructor; constructor.
    - inversion Hm; subst. inversion Hall; subst.
      constructor; [apply IHm; assumption|].
      apply Forall_app. split; [assumption|]. constructor; [assumption|constructor]. }
  apply G; [exact IH|].
  apply Forall_rev. exact Hx.
Qed.

Lemma descending_firstn (n : nat) (l : list Z) :
  descending l -> descending (firstn n l).
Proof.
  unfold descending. intros H. revert n.
  induction H as [|x l Hl IH Hx]; intros [|n]; simpl; try constructor.
  - apply IH.
  - rewrite Forall_forall in *. intros y Hy. apply Hx.
    eapply (In_nth_error) in Hy. destruct Hy as [k Hk].
    apply nth_error_In with (n := k).
    rewrite nth_error_firstn in Hk. destruct (Nat.ltb k n); [exact Hk | discriminate].
Qed.

Lemma argsort_ok_spec (kind : list Z -> list nat) (l : list Z) :
  argsort_ok kind l = true ->
  Permutation (seq 0 (List.length l)) (kind l) /\
  StronglySorted Z.le (map (fun i => nth i l 0) (kind l)).
Proof.
  unfold argsort_ok. intros H.
  apply andb_prop in H. destruct H as [H Hasc].
  apply andb_prop in H. destruct H as [Hlen Hin].
  apply Nat.eqb_eq in Hlen. rewrite forallb_forall in Hin.
  split; [|apply ascending_sorted; exact Hasc].
  apply NoDup_Permutation_bis.
  - apply seq_NoDup.
  - rewrite length_seq, Hlen. apply Nat.le_refl.
  - intros i Hi. specialize (Hin i Hi). apply existsb_exists in Hin.
    destruct Hin as [j [Hj E]]. apply Nat.eqb_eq in E. subst j. exact Hj.
Qed.

Lemma map_nth_seq {A} (l : list A) (dflt : A) :
  map (fun i => nth i l dflt) (seq 0 (List.length l)) = l.
Proof.
  apply nth_ext with (d := dflt) (d' := dflt).
  - rewrite length_map, length_seq. reflexivity.
  - intros n Hn. rewrite length_map, length_seq in Hn.
    rewrite nth_map_seq by exact Hn. reflexivity.
Qed.

Lemma take_in_range {A} (s : list A) (indexer : list nat) (dflt : A) :
  (forall j, In j indexer -> (j < List.length s)%nat) ->
  take s indexer = map (fun j => nth j s dflt) indexer.
Proof.
  unfold take. induction indexer as [|j indexer IH]; intros H; simpl; [reflexivity|].
  rewrite IH by (intros; apply H; right; assumption).
  destruct (nth_error s j) eqn:E.
  - rewrite (nth_error_nth _ _ dflt E). reflexivity.
  - apply nth_error_None in E. specialize (H j (or_introl eq_refl)). lia.
Qed.

Lemma nargsort_desc_spec (kind : list Z -> list nat) (items : list Z) :
  argsort_ok kind (rev items) = true ->
  Permutation (seq 0 (List.length items)) (nargsort_desc kind items) /\
  descending (map (fun j => nth j items 0) (nargsort_desc kind items)).
Proof.
  intros Hok. apply argsort_ok_spec in Hok. destruct Hok as [Hperm Hsorted].
  rewrite length_rev in Hperm.
  set (n := List.length items) in *.
  set (p := kind (rev items)) in *.
  assert (Hlt : forall i, In i p -> (i < n)%nat).
  { intros i Hi. apply (Permutation_in _ (Permutation_sym Hperm)) in Hi.
    apply in_seq in Hi. lia. }
  assert (Hflip : map (fun i => nth i (rev (seq 0 n)) O) p
                  = map (fun i => (n - S i)%nat) p).
  { apply map_ext_in. intros i Hi. specialize (Hlt i Hi).
    rewrite rev_nth by (rewrite length_seq; exact Hlt).
    rewrite length_seq, seq_nth by lia. reflexivity. }
  unfold nargsort_desc. fold n. fold p. rewrite Hflip. split.
  - eapply Permutation_trans; [|apply Permutation_rev].
    eapply Permutation_trans;
      [|apply Permutation_map; exact Hperm].
    eapply Permutation_trans; [apply Permutation_rev|].
    rewrite <- (map_nth_seq (rev (seq 0 n)) O) at 1.
    rewrite length_rev, length_seq.
    apply Permutation_refl'. apply map_ext_in. intros i Hi. apply in_seq in Hi.
    rewrite rev_nth by (rewrite length_seq; lia).
    rewrite length_seq, seq_nth by lia. reflexivity.
  - rewrite map_rev. apply descending_rev.
    rewrite map_map.
    erewrite map_ext_in; [exact Hsorted|].
    intros i Hi. specialize (Hlt i Hi). cbv beta.
    rewrite rev_nth by exact Hlt. reflexivity.
Qed.

Lemma sort_values_desc_spec (kind : list Z -> list nat) (s : Series) :
  argsort_ok kind (rev (map snd s)) = true ->
  Permutation (sort_values_desc kind s) s /\
  descending (map snd (sort_values_desc kind s)).
Proof.
  intros Hok. destruct (nargsort_desc_spec kind (map snd s) Hok) as [Hperm Hdesc].
  rewrite length_map in Hperm.
  unfold sort_values_desc.
  rewrite (take_in_range s _ (NaN, 0)).
  - split.
    + rewrite <- (map_nth_seq s (NaN, 0)) at 2.
      apply Permutation_map, Permutation_sym. exact Hperm.
    + rewrite map_map.
      erewrite map_ext; [exact Hdesc|].
      intros j. cbv beta. rewrite <- (map_nth snd s (NaN, 0) j). reflexivity.
  - intros j Hj. apply (Permutation_in _ (Permutation_sym Hperm)) in Hj.
    apply in_seq in Hj. lia.
Qed.

Lemma traverse_keys {A} (F : cell -> res A) (keys : list cell)
      (ys : list (cell * A)) :
  traverse (fun g => res_bind (F g) (fun t => Val (g, t))) keys = Val ys ->
  map fst ys = keys.
Proof.
  revert ys. induction keys as [|g keys IH]; simpl; intros ys H.
  - injection H as <-. reflexivity.
  - destruct (F g) as [t|]; [|discriminate]. simpl in H.
    destruct (traverse _ keys) as [zs|]; [|discriminate].
    simpl in H. injection H as <-. simpl. f_equal. apply IH. reflexivity.
Qed.

Lemma groupby_sum_keys (d : DataFrame) (key val : string) (s : Series) :
  groupby_sum d key val = Val s ->
  map fst s = group_keys (map (field d key) (rows d)).
Proof.
  unfold groupby_sum. intros H.
  destruct (getitem d key) as [k|] eqn:Ek; [|discriminate].
  rewrite (getitem_field d key (getitem_has_column _ _ _ Ek)) in Ek.
  injection Ek as <-.
  destruct (getitem d val) as [v|]; [|discriminate].
  simpl res_bind in H. apply traverse_keys in H. exact H.
Qed.

(** C2, as amended.  The top-10 list is the first ten entries of the
    per-batsman totals rearranged into descending order of total.  The
    totals reach the sort in ascending order of batsman key, whatever the
    order of the rows: a deliveries table with the same rows in another
    order yields the same list.  Which of two equal totals comes first is
    up to the sort kernel; it does not follow first appearance. *)
Theorem top_runs_descending_by_key_order (kind : list Z -> list nat)
        (d : DataFrame) (by_batsman : Series) :
  groupby_sum d "batsman" "batsman_runs" = Val by_batsman ->
  argsort_ok kind (rev (map snd by_batsman)) = true ->
  let ranked := sort_values_desc kind by_batsman in
  top_runs kind d = Val (firstn 10 ranked) /\
  Permutation ranked by_batsman /\
  descending (map snd (firstn 10 ranked)) /\
  (List.length (firstn 10 ranked) <= 10)%nat /\
  map fst by_batsman
  = sort_by cell_leb (unique (filter notna (map (field d "batsman") (rows d)))) /\
  (forall d',
      columns d' = columns d ->
      Permutation (rows d) (rows d') ->
      top_runs kind d' = top_runs kind d).
Proof.
  intros Hg Hok ranked.
  destruct (sort_values_desc_spec kind by_batsman Hok) as [Hperm Hdesc].
  split; [|split; [|split; [|split; [|split]]]].
  - unfold top_runs, top_scorers. rewrite Hg. reflexivity.
  - exact Hperm.
  - rewrite <- firstn_map. apply descending_firstn. exact Hdesc.
  - apply firstn_le_length.
  - apply (groupby_sum_keys d "batsman" "batsman_runs"). exact Hg.
  - intros d' Hc Hp. unfold top_runs, top_scorers.
    rewrite (groupby_sum_permutation d d' _ _ Hc Hp). reflexivity.
Qed.

Lemma top_runs_descending_by_key_order_witness :
  top_runs stable_argsort Sample.deliveries
  = Val [(Str "C", 7); (Str "A", 6); (Str "B", 0)]
  /\ top_runs stable_argsort Sample.tie_b_first = Val [(Str "A", 1); (Str "B", 1)].
Proof.
  split.
  - exact (proj1 (top_runs_descending_by_key_order stable_argsort
                    Sample.deliveries
                    [(Str "A", 6); (Str "B", 0); (Str "C", 7)]
                    eq_refl eq_refl)).
  - exact (proj1 (top_runs_descending_by_key_order stable_argsort
                    Sample.tie_b_first [(Str "A", 1); (Str "B", 1)]
                    eq_refl eq_refl)).
Defined.

Lemma valid_kind_on_tie (kind : list Z -> list nat) :
  argsort_ok kind [1; 1] = true ->
  kind [1; 1] = [0; 1]%nat \/ kind [1; 1] = [1; 0]%nat.
Proof.
  unfold argsort_ok. intros H.
  apply andb_prop in H. destruct H as [H _].
  apply andb_prop in H. destruct H as [Hlen Hin].
  apply Nat.eqb_eq in Hlen. simpl in Hin.
  destruct (kind [1; 1]) as [|a [|b [|c p]]]; try discriminate.
  simpl in Hin.
  destruct a as [|[|a]], b as [|[|b]]; simpl in Hin; try discriminate; auto.
Qed.

(** Two deliveries files hold the same two rows in opposite orders, and
    both batsmen score 1.  The grouping lists the batsmen by key in both,
    so whatever the kernel does with the tie, the list is the same for
    both files and one of them has its tie against first appearance. *)
Lemma ties_do_not_follow_first_appearance :
  ~ exists kind,
      (forall l, argsort_ok kind l = true) /\
      (forall delivery_file,
          top_list_order kind (clean_deliveries delivery_file)).
Proof.
  intros [kind [Hok Hclaim]].
  destruct (valid_kind_on_tie kind (Hok [1; 1])) as [E|E].
  - destruct (Hclaim Sample.tie_b_first [(Str "A", 1); (Str "B", 1)]
                     [Str "B"; Str "A"]) as [_ Hties].
    + unfold top_runs, top_scorers.
      change (groupby_sum (clean_deliveries Sample.tie_b_first) "batsman" "batsman_runs")
        with (Val [(Str "A", 1); (Str "B", 1)] : res Series).
      simpl res_bind. unfold sort_values_desc, nargsort_desc.
      change (rev (map snd [(Str "A", 1); (Str "B", 1)])) with [1; 1].
      rewrite E. reflexivity.
    + reflexivity.
    + specialize (Hties O 1%nat (Str "A", 1) (Str "B", 1)
                        (Nat.lt_0_succ 0) eq_refl eq_refl eq_refl).
      simpl in Hties. lia.
  - destruct (Hclaim Sample.tie_a_first [(Str "B", 1); (Str "A", 1)]
                     [Str "A"; Str "B"]) as [_ Hties].
    + unfold top_runs, top_scorers.
      change (groupby_sum (clean_deliveries Sample.tie_a_first) "batsman" "batsman_runs")
        with (Val [(Str "A", 1); (Str "B", 1)] : res Series).
      simpl res_bind. unfold sort_values_desc, nargsort_desc.
      change (rev (map snd [(Str "A", 1); (Str "B", 1)])) with [1; 1].
      rewrite E. reflexivity.
    + reflexivity.
    + specialize (Hties O 1%nat (Str "B", 1) (Str "A", 1)
                        (Nat.lt_0_succ 0) eq_refl eq_refl eq_refl).
      simpl in Hties. lia.
Qed.

(** * Further properties of the script *)

(** ** The cleaning statements *)
Lemma cell_eqb_refl (c : cell) : cell_eqb c c = true.
Proof. apply cell_eqb_eq. reflexivity. Qed.

Lemma row_eqb_refl (r : list cell) (w : nat) : row_eqb r r w = true.
Proof. unfold row_eqb. apply forallb_forall. intros i _. apply cell_eqb_refl. Qed.

Lemma cell_eqb_sym (a b : cell) : cell_eqb a b = cell_eqb b a.
Proof.
  destruct (cell_eqb a b) eqn:E.
  - apply cell_eqb_eq in E. rewrite E. symmetry. apply cell_eqb_refl.
  - destruct (cell_eqb b a) eqn:E'; [|reflexivity].
    apply cell_eqb_eq in E'. rewrite E', cell_eqb_refl in E. discriminate.
Qed.

Lemma row_eqb_sym (r s : list cell) (w : nat) : row_eqb r s w = row_eqb s r w.
Proof.
  unfold row_eqb. induction (seq 0 w) as [|i l IH]; simpl; [reflexivity|].
  rewrite IH, cell_eqb_sym. reflexivity.
Qed.

Lemma keep_first_covers {A} (eqb : A -> A -> bool) :
  (forall x, eqb x x = true) ->
  forall (l seen : list A) (x : A),
    In x l ->
    existsb (eqb x) seen = true \/
    exists y, In y (keep_first eqb seen l) /\ eqb x y = true.
Proof.
  intros Hrefl. induction l as [|z l IH]; simpl; intros seen x H; [destruct H|].
  destruct (existsb (eqb z) seen) eqn:E.
  - destruct H as [<-|H]; [left; exact E | apply IH; exact H].
  - destruct H as [<-|H].
    + right. exists z. split; [left; reflexivity | apply Hrefl].
    + destruct (IH (z :: seen) x H) as [Hs|[y [Hy Hxy]]].
      * simpl in Hs. apply orb_prop in Hs. destruct Hs as [Hz|Hs]; [|left; exact Hs].
        right. exists z. split; [left; reflexivity | exact Hz].
      * right. exists y. split; [right; exact Hy | exact Hxy].
Qed.

Lemma keep_first_apart {A} (eqb : A -> A -> bool) (l seen : list A) (x y : A) :
  In y seen -> In x (keep_first eqb seen l) -> eqb x y = false.
Proof.
  revert seen. induction l as [|z l IH]; simpl; intros seen Hy Hx; [destruct Hx|].
  destruct (existsb (eqb z) seen) eqn:E.
  - eapply IH; eassumption.
  - destruct Hx as [<-|Hx].
    + destruct (eqb z y) eqn:Ezy; [|reflexivity].
      assert (existsb (eqb z) seen = true); [|congruence].
      apply existsb_exists. exists y. split; assumption.
    + apply (IH (z :: seen)); [right; exact Hy | exact Hx].
Qed.

Lemma keep_first_distinct {A} (eqb : A -> A -> bool) (l seen : list A)
      (i j : nat) (x y : A) :
  (i < j)%nat ->
  nth_error (keep_first eqb seen l) i = Some x ->
  nth_error (keep_first eqb seen l) j = Some y ->
  eqb y x = false.
Proof.
  revert seen i j. induction l as [|z l IH]; simpl; intros seen i j Hij Hi Hj.
  - destruct i; discriminate.
  - destruct (existsb (eqb z) seen).
    + eapply IH; eassumption.
    + destruct j as [|j]; [lia|]. destruct i as [|i]; simpl in Hi, Hj.
      * injection Hi as <-.
        apply (keep_first_apart eqb l (z :: seen)); [left; reflexivity|].
        eapply nth_error_In. exact Hj.
      * apply (IH (z :: seen) i j); [lia | exact Hi | exact Hj].
Qed.

Lemma keep_first_sublist {A} (eqb : A -> A -> bool) (l seen : list A) (x : A) :
  In x (keep_first eqb seen l) -> In x l.
Proof. apply in_keep_first. Qed.

(** X1.  [drop_duplicates] keeps the header, keeps only rows of the table,
    keeps for every row of the table a row equal to it, and leaves no two
    equal rows. *)
Theorem drop_duplicates_keeps_one_of_each (d : DataFrame) :
  let d' := drop_duplicates d in
  let width := List.length (columns d) in
  columns d' = columns d /\
  (forall r, In r (rows d') -> In r (rows d)) /\
  (forall r, In r (rows d) ->
             exists r', In r' (rows d') /\ row_eqb r r' width = true) /\
  (forall i j r s,
      (i < j)%nat ->
      nth_error (rows d') i = Some r ->
      nth_error (rows d') j = Some s ->
      row_eqb r s width = false).
Proof.
  intros d' width. split; [reflexivity|]. split; [|split].
  - intros r. apply in_keep_first.
  - intros r Hr.
    destruct (keep_first_covers (fun r s => row_eqb r s width)
                (fun x => row_eqb_refl x width) (rows d) [] r Hr) as [H|H].
    + discriminate.
    + exact H.
  - intros i j r s Hij Hi Hj. rewrite row_eqb_sym.
    exact (keep_first_distinct (fun r s => row_eqb r s width) (rows d) []
             i j r s Hij Hi Hj).
Qed.

Lemma fill0_notna (c : cell) : fill0 c <> NaN.
Proof. destruct c; discriminate. Qed.

(** X2.  After [df.fillna(0)] no cell of the matches table is missing,
    under any column. *)
Theorem clean_matches_has_no_null (match_file : DataFrame) (label : string)
        (r : list cell) :
  let m := clean_matches match_file in
  has_column m label = true ->
  In r (rows m) ->
  field m label r <> NaN.
Proof.
  intros m Hc Hr.
  destruct (has_column_index m label Hc) as [i Hi].
  pose proof (index_of_lt _ _ _ Hi) as Hlt.
  unfold field. rewrite Hi.
  unfold m, clean_matches, fillna0 in Hr, Hlt. cbn [rows columns] in Hr, Hlt.
  apply in_map_iff in Hr. destruct Hr as [r0 [<- _]].
  unfold at_ at 1. rewrite nth_map_seq by exact Hlt.
  apply fill0_notna.
Qed.

Lemma clean_matches_has_no_null_witness :
  field (clean_matches Sample.bare_matches) "winner"
        [Num 1; Str "MI"; Str "CSK"; Str "MI"] <> NaN.
Proof.
  apply (clean_matches_has_no_null Sample.bare_matches "winner").
  - reflexivity.
  - simpl. left. reflexivity.
Defined.

Lemma existsb_filter_seq (P : nat -> bool) (w i : nat) :
  (i < w)%nat -> existsb (Nat.eqb i) (filter P (seq 0 w)) = P i.
Proof.
  intros Hlt. destruct (P i) eqn:E.
  - apply existsb_eqb_In. apply filter_In. split; [|exact E].
    apply in_seq. lia.
  - destruct (existsb _ _) eqn:Ex; [|reflexivity].
    apply existsb_exists in Ex. destruct Ex as [j [Hj Eij]].
    apply Nat.eqb_eq in Eij. subst j. apply filter_In in Hj.
    destruct Hj as [_ Hj]. congruence.
Qed.

Lemma clean_deliveries_rows (delivery_file : DataFrame) (r : list cell) :
  let d0 := drop_duplicates (normalize_columns delivery_file) in
  In r (rows (clean_deliveries delivery_file)) ->
  exists r0,
    In r0 (rows d0) /\
    forall label i,
      index_of label (columns d0) = Some i ->
      field (clean_deliveries delivery_file) label r
      = if numeric_column d0 label then fill0 (field d0 label r0)
        else field d0 label r0.
Proof.
  intros d0 Hr. unfold clean_deliveries in Hr. fold d0 in Hr.
  unfold fillna0_at in Hr. cbn [rows] in Hr.
  apply in_map_iff in Hr. destruct Hr as [r0 [<- Hr0]].
  exists r0. split; [exact Hr0|]. intros label i Hi.
  pose proof (index_of_lt _ _ _ Hi) as Hlt.
  unfold clean_deliveries. fold d0.
  unfold field. cbn [columns fillna0_at]. rewrite Hi.
  unfold at_ at 1. rewrite nth_map_seq by exact Hlt.
  unfold select_dtypes_number.
  rewrite existsb_filter_seq by exact Hlt.
  unfold numeric_at, numeric_column, field. rewrite Hi.
  destruct (rows d0) as [|x xs] eqn:E; [destruct Hr0|].
  rewrite <- E. reflexivity.
Qed.

(** X3.  The cleaning of the deliveries table replaces missing values in
    the columns that hold no text, and leaves every cell of a column that
    holds text as it was read, missing values included. *)
Theorem cleaning_fills_numeric_columns_only (delivery_file : DataFrame)
        (label : string) (r : list cell) :
  let d0 := drop_duplicates (normalize_columns delivery_file) in
  let d := clean_deliveries delivery_file in
  has_column d0 label = true ->
  In r (rows d) ->
  exists r0,
    In r0 (rows d0) /\
    field d label r
    = if numeric_column d0 label then fill0 (field d0 label r0)
      else field d0 label r0.
Proof.
  intros d0 d Hc Hr.
  destruct (has_column_index d0 label Hc) as [i Hi].
  destruct (clean_deliveries_rows delivery_file r Hr) as [r0 [Hr0 Hf]].
  exists r0. split; [exact Hr0 | exact (Hf label i Hi)].
Qed.

Lemma cleaning_fills_numeric_columns_only_witness :
  exists r0,
    In r0 (rows (drop_duplicates (normalize_columns Sample.unnamed_batsman))) /\
    field (clean_deliveries Sample.unnamed_batsman) "batsman" [NaN; Num 4]
    = field (drop_duplicates (normalize_columns Sample.unnamed_batsman))
            "batsman" r0.
Proof.
  apply (cleaning_fills_numeric_columns_only Sample.unnamed_batsman "batsman").
  - reflexivity.
  - simpl. left. reflexivity.
Defined.

Lemma in_all_ascii (a : ascii) : In a all_ascii.
Proof.
  unfold all_ascii. rewrite <- (ascii_nat_embedding a).
  apply in_map, in_seq. pose proof (nat_ascii_bounded a). lia.
Qed.

Lemma lower_caseless (a t : ascii) :
  plain_char t = true ->
  Ascii.eqb (lower_ascii a) t = caseless a t.
Proof.
  assert (H : forallb (fun a =>
                forallb (fun t => implb (plain_char t)
                                    (Bool.eqb (Ascii.eqb (lower_ascii a) t)
                                              (caseless a t)))
                        all_ascii) all_ascii = true) by (vm_compute; reflexivity).
  rewrite forallb_forall in H. specialize (H a (in_all_ascii a)).
  rewrite forallb_forall in H. specialize (H t (in_all_ascii t)).
  intros Hp. rewrite Hp in H. simpl in H. apply eqb_prop in H. exact H.
Qed.

Lemma caseless_word_char (a t : ascii) :
  plain_char t = true -> caseless a t = true -> word_char a = true.
Proof.
  assert (H : forallb (fun a =>
                forallb (fun t => implb (plain_char t && caseless a t)
                                        (word_char a))
                        all_ascii) all_ascii = true) by (vm_compute; reflexivity).
  rewrite forallb_forall in H. specialize (H a (in_all_ascii a)).
  rewrite forallb_forall in H. specialize (H t (in_all_ascii t)).
  intros Hp Hc. rewrite Hp, Hc in H. exact H.
Qed.

Lemma word_char_leads_no_space (a : ascii) :
  word_char a = true -> leads_space a = false.
Proof.
  assert (H : forallb (fun a => implb (word_char a) (negb (leads_space a)))
                      all_ascii = true) by (vm_compute; reflexivity).
  rewrite forallb_forall in H. specialize (H a (in_all_ascii a)).
  intros Hw. rewrite Hw in H. simpl in H. apply negb_true_iff in H. exact H.
Qed.

Lemma is_space_leads (a : ascii) (s : string) :
  is_space (String a s) = true -> leads_space a = true.
Proof.
  unfold is_space, leads_space.
  induction whitespace as [|w l IH]; simpl; [discriminate|].
  intros H. apply orb_true_iff in H as [H|H].
  - destruct w as [|w0 w']; [discriminate|]. simpl in H.
    destruct (Ascii.eqb a w0); [reflexivity | discriminate].
  - rewrite (IH H). apply orb_true_r.
Qed.

Lemma is_space_In (w : string) : is_space w = true <-> In w whitespace.
Proof.
  unfold is_space. rewrite existsb_exists. split.
  - intros [x [Hx E]]. apply String.eqb_eq in E. subst x. exact Hx.
  - intros H. exists w. split; [exact H | apply String.eqb_refl].
Qed.

Lemma lstrip_word (a : ascii) (s : string) :
  word_char a = true -> lstrip (String a s) = String a s.
Proof.
  intros Hw. apply word_char_leads_no_space in Hw.
  assert (Hno : forall t, is_space (String a t) = false).
  { intros t. destruct (is_space (String a t)) eqn:E; [|reflexivity].
    apply is_space_leads in E. congruence. }
  cbn [lstrip]. rewrite Hno.
  destruct s as [|b s2]; [reflexivity|]. rewrite Hno.
  destruct s2 as [|c s3]; [reflexivity|]. rewrite Hno. reflexivity.
Qed.

Lemma lstrip_space (w s : string) :
  In w whitespace -> lstrip (String.append w s) = lstrip s.
Proof.
  intros H. unfold whitespace in H.
  repeat (destruct H as [<-|H]; [reflexivity|]). destruct H.
Qed.

Lemma append_assoc (s t u : string) :
  String.append (String.append s t) u = String.append s (String.append t u).
Proof. induction s as [|a s IH]; simpl; [reflexivity|]. rewrite IH. reflexivity. Qed.

Lemma append_nil_r (s : string) : String.append s EmptyString = s.
Proof. induction s as [|a s IH]; simpl; [reflexivity|]. rewrite IH. reflexivity. Qed.

Lemma lstrip_padding (pre s : string) :
  padding pre -> lstrip (String.append pre s) = lstrip s.
Proof.
  induction 1 as [|w p Hw Hp IH]; [reflexivity|].
  rewrite append_assoc, (lstrip_space w _ Hw). exact IH.
Qed.

Lemma padding_blank (post : string) : padding post -> lstrip post = EmptyString.
Proof.
  intros H. rewrite <- (append_nil_r post).
  rewrite (lstrip_padding post EmptyString H). reflexivity.
Qed.

Lemma padding_app (p q : string) :
  padding p -> padding q -> padding (String.append p q).
Proof.
  induction 1 as [|w p Hw Hp IH]; intros Hq; [exact Hq|].
  rewrite append_assoc. constructor; [exact Hw | apply IH; exact Hq].
Qed.

Lemma lstrip_split_upto (n : nat) (s : string) :
  (String.length s <= n)%nat ->
  exists pre, padding pre /\ s = String.append pre (lstrip s).
Proof.
  revert s. induction n as [|n IH]; intros s Hn.
  - destruct s; [|simpl in Hn; lia]. exists EmptyString. split; [constructor|reflexivity].
  - destruct s as [|a s1]; [exists EmptyString; split; [constructor|reflexivity]|].
    simpl in Hn. cbn [lstrip].
    destruct (is_space (String a EmptyString)) eqn:E1.
    { destruct (IH s1 ltac:(lia)) as [pre [Hp Hs]].
      exists (String.append (String a EmptyString) pre). split.
      - constructor; [apply is_space_In; exact E1 | exact Hp].
      - simpl. f_equal. exact Hs. }
    destruct s1 as [|b s2];
      [exists EmptyString; split; [constructor|reflexivity]|].
    simpl in Hn.
    destruct (is_space (String a (String b EmptyString))) eqn:E2.
    { destruct (IH s2 ltac:(lia)) as [pre [Hp Hs]].
      exists (String.append (String a (String b EmptyString)) pre). split.
      - constructor; [apply is_space_In; exact E2 | exact Hp].
      - simpl. do 2 f_equal. exact Hs. }
    destruct s2 as [|c s3];
      [exists EmptyString; split; [constructor|reflexivity]|].
    simpl in Hn.
    destruct (is_space (String a (String b (String c EmptyString)))) eqn:E3.
    { destruct (IH s3 ltac:(lia)) as [pre [Hp Hs]].
      exists (String.append (String a (String b (String c EmptyString))) pre).
      split.
      - constructor; [apply is_space_In; exact E3 | exact Hp].
      - simpl. do 3 f_equal. exact Hs. }
    exists EmptyString. split; [constructor|reflexivity].
Qed.

Lemma lstrip_split (s : string) :
  exists pre, padding pre /\ s = String.append pre (lstrip s).
Proof. exact (lstrip_split_upto (String.length s) s (Nat.le_refl _)). Qed.

Lemma blank_padding (s : string) : blank s = true -> padding s.
Proof.
  unfold blank. intros H. destruct (lstrip_split s) as [pre [Hp Hs]].
  destruct (lstrip s); [|discriminate].
  rewrite append_nil_r in Hs. rewrite Hs. exact Hp.
Qed.

Lemma rstrip_split (s : string) :
  exists post, padding post /\ s = String.append (rstrip s) post.
Proof.
  induction s as [|c s IH].
  - exists EmptyString. split; [constructor|reflexivity].
  - cbn [rstrip]. destruct (blank (String c s)) eqn:E.
    + exists (String c s). split; [apply blank_padding; exact E | reflexivity].
    + destruct IH as [post [Hp Hs]]. exists post. split; [exact Hp|].
      simpl. f_equal. exact Hs.
Qed.

Lemma rstrip_padding (post : string) : padding post -> rstrip post = EmptyString.
Proof.
  intros H. destruct post as [|c s]; [reflexivity|].
  cbn [rstrip]. unfold blank. rewrite (padding_blank _ H). reflexivity.
Qed.

Lemma rstrip_word (body post : string) :
  word body = true -> padding post ->
  rstrip (String.append body post) = body.
Proof.
  intros Hw Hp. induction body as [|a body IH]; simpl.
  - apply rstrip_padding. exact Hp.
  - simpl in Hw. apply andb_true_iff in Hw as [Ha Hw].
    change (String a (String.append body post))
      with (String.append (String a body) post) at 1.
    cbn [String.append rstrip]. unfold blank.
    rewrite (lstrip_word a _ Ha). rewrite (IH Hw). reflexivity.
Qed.

Lemma spells_word (body target : string) :
  plain target = true -> spells body target = true -> word body = true.
Proof.
  revert target. induction body as [|a body IH]; intros [|t target] Hp Hs;
    simpl in *; try discriminate; [reflexivity|].
  apply andb_true_iff in Hp as [Ht Hp]. apply andb_true_iff in Hs as [Ha Hs].
  rewrite (caseless_word_char a t Ht Ha), (IH target Hp Hs). reflexivity.
Qed.

Lemma lower_spells (body target : string) :
  plain target = true ->
  lower body = target <-> spells body target = true.
Proof.
  revert target. induction body as [|a body IH]; intros [|t target] Hp; simpl.
  - tauto.
  - split; discriminate.
  - split; discriminate.
  - simpl in Hp. apply andb_true_iff in Hp as [Ht Hp].
    rewrite andb_true_iff, <- (IH target Hp), <- (lower_caseless a t Ht).
    rewrite Ascii.eqb_eq. split.
    + intros H. injection H as H1 H2. tauto.
    + intros [H1 H2]. rewrite H1, H2. reflexivity.
Qed.

Lemma strip_lower_reads_as (target label : string) :
  plain target = true -> target <> EmptyString ->
  lower (strip label) = target <-> reads_as target label.
Proof.
  intros Hp Hne. split.
  - intros H. apply (lower_spells _ _ Hp) in H.
    destruct (lstrip_split label) as [pre [Hpre Hl]].
    destruct (rstrip_split (lstrip label)) as [post [Hpost Hr]].
    exists pre, (strip label), post. unfold strip.
    rewrite <- Hr. tauto.
  - intros (pre & body & post & -> & Hpre & Hpost & Hs).
    pose proof (spells_word body target Hp Hs) as Hw.
    apply (lower_spells _ _ Hp).
    assert (E : strip (String.append pre (String.append body post)) = body).
    { unfold strip. rewrite (lstrip_padding pre _ Hpre).
      destruct body as [|a body].
      - destruct target; [contradiction | discriminate].
      - simpl in Hw. apply andb_true_iff in Hw as [Ha Hw].
        change (String.append (String a body) post)
          with (String a (String.append body post)).
        rewrite (lstrip_word a _ Ha).
        change (String a (String.append body post))
          with (String.append (String a body) post).
        apply rstrip_word; [|exact Hpost].
        simpl. rewrite Ha, Hw. reflexivity. }
    rewrite E. exact Hs.
Qed.

(** X4.  The required-column check finds nothing missing exactly when
    the uploaded header has a label that reads 'batsman' and a label that
    reads 'batsman_runs': the word in any mix of capital and small
    letters, with any run of whitespace characters before it and after
    it (the characters [str.strip] removes, the no-break space and the
    other Unicode spaces included) and nothing else. *)
Theorem validation_ignores_case_and_padding (delivery_file : DataFrame) :
  missing_columns (clean_deliveries delivery_file) = [] <->
  (exists c, In c (columns delivery_file) /\ reads_as "batsman" c) /\
  (exists c, In c (columns delivery_file) /\ reads_as "batsman_runs" c).
Proof.
  assert (Hcols : forall label,
             plain label = true -> label <> EmptyString ->
             (has_column (clean_deliveries delivery_file) label = true <->
              exists c, In c (columns delivery_file) /\ reads_as label c)).
  { intros label Hp Hne. rewrite has_column_In.
    change (columns (clean_deliveries delivery_file))
      with (map (fun c => lower (strip c)) (columns delivery_file)).
    rewrite in_map_iff.
    split; intros [c [H1 H2]]; exists c.
    - split; [exact H2 | apply (strip_lower_reads_as label c Hp Hne); exact H1].
    - split; [apply (strip_lower_reads_as label c Hp Hne); exact H2 | exact H1]. }
  rewrite <- (Hcols "batsman" eq_refl ltac:(discriminate)).
  rewrite <- (Hcols "batsman_runs" eq_refl ltac:(discriminate)).
  unfold missing_columns, required_cols. simpl.
  destruct (has_column _ "batsman"), (has_column _ "batsman_runs");
    simpl; intuition congruence.
Qed.

Lemma validation_ignores_case_and_padding_witness :
  (exists c, In c (columns Sample.padded_header) /\ reads_as "batsman" c) /\
  (exists c, In c (columns Sample.padded_header) /\
             reads_as "batsman_runs" c).
Proof.
  exact (proj1 (validation_ignores_case_and_padding Sample.padded_header)
               eq_refl).
Defined.

(** X5.  When no delivery of the file records a dismissal, the
    'player_dismissed' column holds no text, the cleaning fills it with 0,
    and Bowler Analysis then reports every ball the bowler bowled as a
    wicket. *)
Theorem empty_dismissal_column_counts_every_ball (h : heap) (u : ui)
        (deliveries : nat) (delivery_file : DataFrame)
        (bowler_list : list cell) :
  let d0 := drop_duplicates (normalize_columns delivery_file) in
  let d := clean_deliveries delivery_file in
  nth_error h deliveries = Some d ->
  has_column d "bowler" = true ->
  has_column d "player_dismissed" = true ->
  has_column d "total_runs" = true ->
  sorted (unique (map (field d "bowler") (rows d))) = Val bowler_list ->
  numeric_column d "total_runs" = true ->
  (forall r0, In r0 (rows d0) -> field d0 "player_dismissed" r0 = NaN) ->
  let bowler := selectbox bowler_list (choice u) in
  exists page,
    bowler_analysis deliveries u h = (Done tt, h, page) /\
    reported "**Total Wickets:** {}" page
    = Some [VInt (balls_bowled d bowler)].
Proof.
  intros d0 d Hd Hb Hp Hr Hs Hn Hnull bowler.
  destruct (bowler_analysis_run h u deliveries d bowler_list
              (nth_error_nth_default _ _ _ Hd) Hb Hp Hr Hs Hn) as [page Hrun].
  eexists. split; [exact Hrun|].
  simpl. do 3 f_equal.
  unfold balls_bowled. f_equal.
  fold bowler.
  assert (Hall : forall r, In r (rows_of d "bowler" bowler) ->
                           notna (field d "player_dismissed" r) = true).
  { intros r Hin. apply filter_In in Hin. destruct Hin as [Hin _].
    destruct (clean_deliveries_rows delivery_file r Hin) as [r0 [Hr0 Hf]].
    destruct (has_column_index d "player_dismissed" Hp) as [i Hi].
    change (columns d) with (columns d0) in Hi.
    unfold d. rewrite (Hf "player_dismissed" i Hi).
    fold d0. rewrite (Hnull r0 Hr0).
    destruct (numeric_column d0 "player_dismissed") eqn:En; [reflexivity|].
    exfalso. unfold numeric_column in En.
    assert (forallb (fun r1 => negb (is_str (field d0 "player_dismissed" r1)))
                    (rows d0) = true); [|congruence].
    apply forallb_forall. intros r1 H1. rewrite (Hnull r1 H1). reflexivity. }
  induction (rows_of d "bowler" bowler) as [|r rs IH]; simpl; [reflexivity|].
  rewrite (Hall r (or_introl eq_refl)). simpl. f_equal.
  apply IH. intros x Hx. apply Hall. right; exact Hx.
Qed.

Lemma empty_dismissal_column_counts_every_ball_witness :
  exists page,
    bowler_analysis 1 (Sample.first_option BowlerAnalysis)
                    [Sample.matches; clean_deliveries Sample.no_dismissals]
    = (Done tt, [Sample.matches; clean_deliveries Sample.no_dismissals], page) /\
    reported "**Total Wickets:** {}" page = Some [VInt 2].
Proof.
  refine (empty_dismissal_column_counts_every_ball
            [Sample.matches; clean_deliveries Sample.no_dismissals]
            (Sample.first_option BowlerAnalysis) 1 Sample.no_dismissals
            [Str "x"; Str "y"]
            eq_refl eq_refl eq_refl eq_refl eq_refl eq_refl _).
  intros r0 [<-|[<-|[<-|[]]]]; reflexivity.
Defined.

(** ** The leaders: top scorer and most successful team *)

(** X6.  The first entry of the ranked run scorers (the "Top Batsman" of
    the Dashboard, the "Top Run Scorer" of a season) is a batsman of the
    grouping and no batsman has more runs, provided the kernel sorts;
    the ranking is empty only when the grouping is. *)
Theorem top_scorer_has_most_runs (kind : list Z -> list nat) (n : nat)
        (d : DataFrame) (by_batsman : Series) :
  groupby_sum d "batsman" "batsman_runs" = Val by_batsman ->
  argsort_ok kind (rev (map snd by_batsman)) = true ->
  exists top,
    top_scorers kind (S n) d = Val top /\
    (by_batsman = [] -> top = []) /\
    (by_batsman <> [] ->
     exists p rest,
       top = p :: rest /\ In p by_batsman /\
       forall q, In q by_batsman -> snd q <= snd p).
Proof.
  intros Hg Hok.
  destruct (sort_values_desc_spec kind by_batsman Hok) as [Hperm Hdesc].
  exists (firstn (S n) (sort_values_desc kind by_batsman)).
  split; [unfold top_scorers; rewrite Hg; reflexivity|].
  split.
  - intros ->. apply Permutation_sym, Permutation_nil in Hperm.
    rewrite Hperm. reflexivity.
  - intros Hne.
    destruct (sort_values_desc kind by_batsman) as [|p ranked] eqn:E.
    + apply Permutation_nil in Hperm. contradiction.
    + exists p, (firstn n ranked). split; [reflexivity|]. split.
      * apply (Permutation_in _ Hperm). left; reflexivity.
      * intros q Hq. apply (Permutation_in _ (Permutation_sym Hperm)) in Hq.
        destruct Hq as [<-|Hq]; [lia|].
        simpl in Hdesc. unfold descending in Hdesc.
        apply StronglySorted_inv in Hdesc. destruct Hdesc as [_ Hall].
        rewrite Forall_forall in Hall. apply Hall. apply in_map. exact Hq.
Qed.

Lemma top_scorer_has_most_runs_witness :
  exists top,
    top_scorers stable_argsort 1 Sample.deliveries = Val top /\
    ([(Str "A", 6); (Str "B", 0); (Str "C", 7)] = [] -> top = []) /\
    ([(Str "A", 6); (Str "B", 0); (Str "C", 7)] <> [] ->
     exists p rest,
       top = p :: rest /\ In p [(Str "A", 6); (Str "B", 0); (Str "C", 7)] /\
       forall q, In q [(Str "A", 6); (Str "B", 0); (Str "C", 7)] ->
                 snd q <= snd p).
Proof.
  exact (top_scorer_has_most_runs stable_argsort 0 Sample.deliveries
           [(Str "A", 6); (Str "B", 0); (Str "C", 7)] eq_refl eq_refl).
Defined.

Lemma fold_max_spec (l : list Z) (z : Z) :
  In (fold_left Z.max l z) (z :: l) /\
  forall x, In x (z :: l) -> x <= fold_left Z.max l z.
Proof.
  revert z. induction l as [|y l IH]; intros z; simpl.
  - split; [left; reflexivity | intros x [<-|[]]; lia].
  - destruct (IH (Z.max z y)) as [Hin Hle]. split.
    + destruct Hin as [E|Hin]; [|right; right; exact Hin].
      rewrite <- E. destruct (Z.max_spec z y) as [[_ ->]|[_ ->]]; auto.
    + intros x [Ex|[Ex|Hx]].
      * specialize (Hle (Z.max z y) (or_introl eq_refl)). lia.
      * specialize (Hle (Z.max z y) (or_introl eq_refl)). lia.
      * apply Hle. right; exact Hx.
Qed.

Lemma max_spec (l : list Z) (top : Z) :
  max l = Some top -> In top l /\ forall x, In x l -> x <= top.
Proof.
  destruct l as [|z l]; simpl; [discriminate|].
  intros H. injection H as <-. apply fold_max_spec.
Qed.

Lemma max_none (l : list Z) : max l = None -> l = [].
Proof. destruct l; [reflexivity | discriminate]. Qed.

Lemma count_of_nonneg (v : cell) (s : list cell) : 0 <= count_of v s.
Proof. unfold count_of. lia. Qed.

Lemma count_of_absent (v : cell) (s : list cell) :
  ~ In v s -> count_of v s = 0.
Proof.
  intros H. unfold count_of.
  destruct (filter (cell_eqb v) s) as [|x l] eqn:E; [reflexivity|].
  exfalso. apply H.
  assert (Hx : In x (filter (cell_eqb v) s)) by (rewrite E; left; reflexivity).
  apply filter_In in Hx. destruct Hx as [Hx Ev].
  apply cell_eqb_eq in Ev. subst x. exact Hx.
Qed.

Lemma in_counts (s : list cell) (p : cell * Z) :
  In p (counts s) <->
  In (fst p) s /\ notna (fst p) = true /\ snd p = count_of (fst p) s.
Proof.
  unfold counts. rewrite in_map_iff. split.
  - intros [v [<- Hv]]. apply in_unique, filter_In in Hv. simpl. tauto.
  - intros (Hin & Hn & Hc). exists (fst p). split.
    + destruct p; simpl in *. congruence.
    + apply in_unique, filter_In. tauto.
Qed.

Lemma in_mode (s : list cell) (m : cell) :
  In m (mode s) ->
  In m s /\ notna m = true /\
  forall v, notna v = true -> count_of v s <= count_of m s.
Proof.
  unfold mode. destruct (max (map snd (counts s))) as [top|] eqn:Emax;
    [|intros []].
  apply max_spec in Emax. destruct Emax as [_ Htop].
  set (modes := map fst (filter (fun p => snd p =? top) (counts s))).
  intros Hm.
  assert (Hin : In m modes).
  { destruct (sorted modes) as [l|e] eqn:Es; [|exact Hm].
    apply sorted_spec in Es. destruct Es as [-> _].
    apply in_sort_by in Hm. exact Hm. }
  unfold modes in Hin. apply in_map_iff in Hin.
  destruct Hin as [p [<- Hp]]. apply filter_In in Hp. destruct Hp as [Hp Etop].
  apply Z.eqb_eq in Etop. apply in_counts in Hp. destruct Hp as (Hs & Hn & Hc).
  split; [exact Hs|]. split; [exact Hn|].
  intros v Hv. rewrite <- Hc, Etop.
  destruct (in_dec (fun a b => Bool.reflect_dec _ _ (Bool.iff_reflect _ _ (iff_sym (cell_eqb_eq a b)))) v s) as [Hvs|Hvs].
  - apply Htop. apply in_map_iff. exists (v, count_of v s). split; [reflexivity|].
    apply in_counts. simpl. tauto.
  - rewrite (count_of_absent v s Hvs). rewrite <- Etop, Hc. apply count_of_nonneg.
Qed.

Lemma mode_nonempty (s : list cell) : filter notna s <> [] -> mode s <> [].
Proof.
  intros Hne. unfold mode.
  assert (Hc : counts s <> []).
  { unfold counts. intros E. apply map_eq_nil in E.
    apply (keep_first_nonempty cell_eqb _ Hne). exact E. }
  destruct (max (map snd (counts s))) as [top|] eqn:Emax.
  - pose proof (max_spec _ _ Emax) as [Hin _].
    apply in_map_iff in Hin. destruct Hin as [p [Ep Hp]].
    set (modes := map fst (filter (fun p => snd p =? top) (counts s))).
    assert (Hm : In (fst p) modes).
    { unfold modes. apply in_map. apply filter_In. split; [exact Hp|].
      apply Z.eqb_eq. exact Ep. }
    destruct (sorted modes) as [l|e] eqn:Es.
    + apply sorted_spec in Es. destruct Es as [-> _].
      intros E. apply (in_sort_by cell_leb) in Hm. rewrite E in Hm. exact Hm.
    + intros E. rewrite E in Hm. exact Hm.
  - apply max_none, map_eq_nil in Emax. contradiction.
Qed.

(** X7.  [mode()[0]], the "Most Successful Team", is a non-null value of
    the column and no non-null value occurs more often; it raises
    [KeyError] exactly when the column has no non-null value. *)
Theorem most_successful_team_is_most_frequent (s : list cell) :
  (filter notna s = [] -> mode0 s = Exc (KeyError "0")) /\
  (filter notna s <> [] ->
   exists m, mode0 s = Val m /\ In m s /\ notna m = true /\
             forall v, notna v = true -> count_of v s <= count_of m s).
Proof.
  split.
  - intros E. unfold mode0, mode, counts. rewrite E. reflexivity.
  - intros Hne. pose proof (mode_nonempty s Hne) as Hm.
    unfold mode0. destruct (mode s) as [|m l] eqn:E; [contradiction|].
    exists m. split; [reflexivity|].
    apply in_mode. rewrite E. left; reflexivity.
Qed.

Lemma most_successful_team_is_most_frequent_witness :
  mode0 [NaN] = Exc (KeyError "0") /\
  exists m, mode0 [Str "MI"; Str "CSK"; Str "MI"] = Val m /\
            In m [Str "MI"; Str "CSK"; Str "MI"] /\ notna m = true /\
            forall v, notna v = true ->
                      count_of v [Str "MI"; Str "CSK"; Str "MI"]
                      <= count_of m [Str "MI"; Str "CSK"; Str "MI"].
Proof.
  split.
  - exact (proj1 (most_successful_team_is_most_frequent [NaN]) eq_refl).
  - apply (proj2 (most_successful_team_is_most_frequent
                    [Str "MI"; Str "CSK"; Str "MI"])).
    discriminate.
Defined.

(** ** Season-wise Trends and Match Outcome Insights *)

Lemma clean_matches_filled (match_file : DataFrame) (label : string)
      (r : list cell) :
  has_column (clean_matches match_file) label = true ->
  In r (rows (clean_matches match_file)) ->
  field (clean_matches match_file) label r <> NaN.
Proof.
  intros Hc Hr.
  destruct (has_column_index _ label Hc) as [i Hi].
  pose proof (index_of_lt _ _ _ Hi) as Hlt.
  unfold field. rewrite Hi.
  unfold clean_matches, fillna0 in Hr, Hlt. cbn [rows columns] in Hr, Hlt.
  apply in_map_iff in Hr. destruct Hr as [r0 [<- _]].
  unfold at_ at 1. rewrite nth_map_seq by exact Hlt.
  apply fill0_notna.
Qed.

Lemma getitem_exc (d : DataFrame) (label : string) (e : exn) :
  getitem d label = Exc e -> e = KeyError label.
Proof.
  unfold getitem. destruct (index_of label (columns d)); [discriminate|].
  intros H. injection H as <-. reflexivity.
Qed.

Lemma sorted_exc (l : list cell) (e : exn) : sorted l = Exc e -> e = TypeError.
Proof.
  unfold sorted. destruct (forallb is_str l); [discriminate|].
  destruct (existsb is_str l); [|discriminate].
  intros H. injection H as <-. reflexivity.
Qed.

Lemma sum_exc (s : list cell) (e : exn) : sum s = Exc e -> e = TypeError.
Proof.
  induction s as [|c s IH]; simpl; [discriminate|].
  destruct c as [|z|t].
  - exact IH.
  - destruct (sum s) as [t|e']; simpl; [discriminate|].
    intros H. injection H as <-. apply IH. reflexivity.
  - intros H. injection H as <-. reflexivity.
Qed.

Lemma traverse_exc {A B} (f : A -> res B) (l : list A) (e : exn) :
  traverse f l = Exc e -> exists x, In x l /\ f x = Exc e.
Proof.
  induction l as [|x l IH]; simpl; [discriminate|].
  destruct (f x) as [y|e'] eqn:Ef; simpl.
  - destruct (traverse f l) as [ys|e'']; simpl; [discriminate|].
    intros H. injection H as <-.
    destruct (IH eq_refl) as [z [Hz Ez]]. exists z. split; [right; exact Hz | exact Ez].
  - intros H. injection H as <-. exists x. split; [left; reflexivity | exact Ef].
Qed.

Lemma groupby_sum_exc (d : DataFrame) (key val : string) (e : exn) :
  groupby_sum d key val = Exc e ->
  e = KeyError key \/ e = KeyError val \/ e = TypeError.
Proof.
  unfold groupby_sum.
  destruct (getitem d key) as [k|e1] eqn:Ek; simpl.
  - destruct (getitem d val) as [v|e2] eqn:Ev; simpl.
    + intros H. apply traverse_exc in H. destruct H as [g [_ Hg]].
      destruct (sum (group k v g)) as [t|e3] eqn:Es; simpl in Hg; [discriminate|].
      injection Hg as <-. right; right. eapply sum_exc. exact Es.
    + intros H. injection H as <-. right; left. eapply getitem_exc. exact Ev.
  - intros H. injection H as <-. left. eapply getitem_exc. exact Ek.
Qed.

Lemma top_scorers_exc (kind : list Z -> list nat) (n : nat) (d : DataFrame)
      (e : exn) :
  top_scorers kind n d = Exc e ->
  e = KeyError "batsman" \/ e = KeyError "batsman_runs" \/ e = TypeError.
Proof.
  unfold top_scorers.
  destruct (groupby_sum d "batsman" "batsman_runs") as [g|e'] eqn:E; simpl;
    [discriminate|].
  intros H. injection H as <-. eapply groupby_sum_exc. exact E.
Qed.

Lemma selected_from_filled_column (d : DataFrame) (label : string) (k : nat)
      (options : list cell) :
  rows d <> [] ->
  (forall r, In r (rows d) -> field d label r <> NaN) ->
  sorted (unique (map (field d label) (rows d))) = Val options ->
  exists p,
    selectbox options k = Some p /\ rows_of d label (Some p) <> [].
Proof.
  intros Hrows Hfilled Hs.
  apply sorted_spec in Hs. destruct Hs as [-> _].
  set (b := map (field d label) (rows d)) in *.
  assert (Hne : sort_by cell_leb (unique b) <> []).
  { intros E. apply (f_equal (@List.length cell)) in E.
    rewrite length_sort_by in E.
    apply (keep_first_nonempty cell_eqb b).
    - unfold b. destruct (rows d); [congruence | discriminate].
    - apply length_zero_iff_nil. exact E. }
  destruct (selectbox_In _ k Hne) as [p [Hsel Hin]].
  rewrite in_sort_by, in_unique in Hin.
  exists p. split; [exact Hsel|].
  unfold b in Hin. apply in_map_iff in Hin. destruct Hin as [r [Er Hr]].
  assert (Hf : In r (rows_of d label (Some p))).
  { apply filter_In. split; [exact Hr|]. rewrite Er. simpl.
    apply py_eq_refl. rewrite <- Er. apply Hfilled. exact Hr. }
  intros E. rewrite E in Hf. exact Hf.
Qed.

Ltac exc_leaf :=
  let H := fresh "Hrun" in
  try match goal with
      | |- context [match ?l with [] => _ | _ :: _ => _ end _] => destruct l
      end;
  intros H; unfold prepend, emit, ret in H; cbn [app] in H;
  inversion H; subst;
  repeat match goal with
         | E : getitem _ _ = Exc _ |- _ => apply getitem_exc in E; subst
         | E : sorted _ = Exc _ |- _ => apply sorted_exc in E; subst
         | E : top_scorers _ _ _ = Exc _ |- _ =>
             apply top_scorers_exc in E; destruct E as [ -> | [ -> | -> ] ]
         end;
  discriminate.

(** X8.  Over a cleaned matches table with at least one row,
    Season-wise Trends never fails at [mode()[0]]: the selected season is
    a season of the table, so its matches are not empty.  Over a cleaned
    matches table without rows that has the 'season' and 'winner'
    columns, the selection is None and the view ends in [KeyError 0]
    after reporting 0 matches. *)
Theorem season_mode_lookup_fails_only_without_matches
        (quicksort : list Z -> list nat) (match_file d : DataFrame)
        (rest : heap) (u : ui) :
  let m := clean_matches match_file in
  (rows m <> [] ->
   forall s h page,
     season_wise_trends quicksort 0 1 u (m :: d :: rest) = (s, h, page) ->
     s <> Raised (KeyError "0"))
  /\ (rows m = [] ->
      has_column m "season" = true ->
      has_column m "winner" = true ->
      season_wise_trends quicksort 0 1 u (m :: d :: rest)
      = (Raised (KeyError "0"), m :: d :: rest,
         [st_header "Season-wise Trends";
          st_markdown "**Total Matches:** {}" [VInt 0]])).
Proof.
  intros m. split.
  - intros Hrows s h page. unfold season_wise_trends.
    rewrite bind_emit, bind_deref. cbn [nth].
    destruct (has_column m "season") eqn:Hseason; [|exc_leaf].
    rewrite (bind_eval_val _ _ _ _ (getitem_field m "season" Hseason)).
    destruct (sorted (unique (map (field m "season") (rows m))))
      as [season_list|e] eqn:Es;
      [rewrite (bind_eval_val _ _ _ _ eq_refl)
      |rewrite (bind_eval_exc _ _ _ _ eq_refl); exc_leaf].
    destruct (selected_from_filled_column m "season" (choice u) season_list
                Hrows
                (fun r Hr => clean_matches_filled match_file "season" r
                               Hseason Hr)
                Es) as [p [Hsel Hsome]].
    rewrite bind_deref. cbn [nth].
    rewrite (bind_eval_val _ _ _ _ (getitem_field m "season" Hseason)).
    rewrite Hsel, map_map, bind_emit.
    set (mine := fun r => eq_selected (Some p) (field m "season" r)) in *.
    rewrite !has_column_where.
    destruct (has_column m "winner") eqn:Hwinner.
    + rewrite ?bind_assoc.
      rewrite (bind_eval_val _ _ _ _ (getitem_where m mine "winner" Hwinner)).
      assert (Hmode : exists top_team,
                 mode0 (map (field m "winner") (filter mine (rows m)))
                 = Val top_team).
      { assert (Hne : filter notna (map (field m "winner") (filter mine (rows m)))
                      <> []).
        { change (filter mine (rows m)) with (rows_of m "season" (Some p)).
          destruct (rows_of m "season" (Some p)) as [|r rs] eqn:Er;
            [contradiction|].
          simpl.
          assert (Hr : In r (rows m)).
          { assert (In r (rows_of m "season" (Some p)))
              by (rewrite Er; left; reflexivity).
            apply filter_In in H. tauto. }
          pose proof (clean_matches_filled match_file "winner" r Hwinner Hr) as Hw.
          fold m in Hw.
          destruct (field m "winner" r); [congruence | discriminate | discriminate]. }
        unfold mode0. destruct (mode _) as [|t l] eqn:Em.
        - exfalso. apply (mode_nonempty _ Hne). exact Em.
        - eexists; reflexivity. }
      destruct Hmode as [top_team Hmode].
      rewrite ?bind_assoc, (bind_eval_val _ _ _ _ Hmode).
      walk; exc_leaf.
    + walk; exc_leaf.
  - intros Hrows Hseason Hwinner. unfold season_wise_trends.
    rewrite bind_emit, bind_deref. cbn [nth]. rewrite Hseason.
    rewrite (bind_eval_val _ _ _ _ (getitem_field m "season" Hseason)).
    rewrite Hrows. cbn [map].
    rewrite (bind_eval_val (sorted (unique [])) [] _ _ eq_refl).
    rewrite bind_deref. cbn [nth].
    rewrite (bind_eval_val _ _ _ _ (getitem_field m "season" Hseason)).
    rewrite Hrows. cbn [map]. rewrite bind_emit.
    rewrite has_column_where, Hwinner, ?bind_assoc.
    assert (Hg : getitem (where_ m []) "winner" = Val []).
    { rewrite (getitem_field _ "winner"); [|exact Hwinner].
      unfold where_. cbn [rows]. destruct (rows m); reflexivity. }
    rewrite (bind_eval_val _ _ _ _ Hg).
    rewrite ?bind_assoc, (bind_eval_exc _ (KeyError "0")) by reflexivity.
    unfold shape0, where_. cbn [rows]. destruct (rows m); reflexivity.
Qed.

Lemma season_mode_lookup_fails_only_without_matches_witness :
  Done tt <> Raised (KeyError "0") /\
  season_wise_trends stable_argsort 0 1 (Sample.first_option SeasonWiseTrends)
                     [clean_matches Sample.matches_header_only; Sample.deliveries]
  = (Raised (KeyError "0"),
     [clean_matches Sample.matches_header_only; Sample.deliveries],
     [st_header "Season-wise Trends";
      st_markdown "**Total Matches:** {}" [VInt 0]]).
Proof.
  split.
  - refine (proj1 (season_mode_lookup_fails_only_without_matches
                     stable_argsort Sample.matches Sample.deliveries []
                     (Sample.first_option SeasonWiseTrends))
                  _ (Done tt) _ _ eq_refl).
    discriminate.
  - exact (proj2 (season_mode_lookup_fails_only_without_matches
                    stable_argsort Sample.matches_header_only Sample.deliveries []
                    (Sample.first_option SeasonWiseTrends))
                 eq_refl eq_refl eq_refl).
Defined.

Lemma traverse_gt_zero (d : DataFrame) (label : string) (rs : list (list cell)) :
  traverse gt_zero (map (field d label) rs)
  = if forallb (fun r => negb (is_str (field d label r))) rs
    then Val (map (fun r => positive (field d label r)) rs)
    else Exc TypeError.
Proof.
  induction rs as [|r rs IH]; simpl; [reflexivity|].
  destruct (field d label r) as [|z|t]; simpl; try reflexivity;
    rewrite IH; destruct (forallb _ rs); reflexivity.
Qed.

Lemma count_positive_spec (m : DataFrame) (label : string) :
  count_positive m label
  = if has_column m label
    then if numeric_column m label then Val (won_by m label)
         else Exc TypeError
    else Val 0.
Proof.
  unfold count_positive, won_by. destruct (has_column m label) eqn:Hc;
    [|reflexivity].
  rewrite (getitem_field m label Hc). simpl res_bind.
  rewrite traverse_gt_zero. unfold numeric_column.
  destruct (forallb _ (rows m)); [|reflexivity].
  simpl res_bind. rewrite shape0_where. reflexivity.
Qed.

Lemma existsb_map {A B} (f : B -> bool) (g : A -> B) (l : list A) :
  existsb f (map g l) = existsb (fun x => f (g x)) l.
Proof. induction l as [|x l IH]; simpl; [reflexivity|]. rewrite IH; reflexivity. Qed.

Lemma count_result_spec (m : DataFrame) (word : string) :
  count_result m word
  = if has_column m "result"
    then if text_column m "result" then Val (results m word)
         else Exc AttributeError
    else Val 0.
Proof.
  unfold count_result, results. destruct (has_column m "result") eqn:Hc;
    [|reflexivity].
  rewrite (getitem_field m "result" Hc). simpl res_bind.
  unfold str_lower, text_column. rewrite existsb_map.
  assert (Hn : nonempty (map (field m "result") (rows m)) = nonempty (rows m))
    by (destruct (rows m); reflexivity).
  rewrite Hn.
  destruct (nonempty (rows m)); simpl andb; simpl orb;
    [destruct (existsb _ (rows m)); simpl negb; [|reflexivity]|].
  - simpl res_bind. rewrite !map_map, shape0_where. f_equal. f_equal.
    apply filter_ext. intros r. destruct (field m "result" r); reflexivity.
  - simpl res_bind. rewrite !map_map, shape0_where. f_equal. f_equal.
    apply filter_ext. intros r. destruct (field m "result" r); reflexivity.
Qed.

(** X10.  Match Outcome Insights reports the count of matches whose
    'win_by_runs' is positive, the count whose 'win_by_wickets' is
    positive, and the counts whose 'result', lowercased, is 'tie' and
    'no result'; a count whose column is absent is 0. *)
Theorem match_outcome_counts (m d : DataFrame) (rest : heap) :
  (has_column m "win_by_runs" = true -> numeric_column m "win_by_runs" = true) ->
  (has_column m "win_by_wickets" = true ->
   numeric_column m "win_by_wickets" = true) ->
  (has_column m "result" = true -> text_column m "result" = true) ->
  match_outcome_insights 0 (m :: d :: rest)
  = (Done tt, m :: d :: rest,
     [st_header "Match Outcome Insights";
      st_markdown "**Matches Won by Runs:** {}" [VInt (won_by m "win_by_runs")];
      st_markdown "**Matches Won by Wickets:** {}"
                  [VInt (won_by m "win_by_wickets")];
      st_markdown "**Tied Matches:** {}" [VInt (results m "tie")];
      st_markdown "**No Result Matches:** {}" [VInt (results m "no result")]]).
Proof.
  intros Hruns Hwickets Hresult.
  assert (E1 : count_positive m "win_by_runs" = Val (won_by m "win_by_runs")).
  { rewrite count_positive_spec. unfold won_by.
    destruct (has_column m "win_by_runs"); [rewrite Hruns|]; reflexivity. }
  assert (E2 : count_positive m "win_by_wickets"
               = Val (won_by m "win_by_wickets")).
  { rewrite count_positive_spec. unfold won_by.
    destruct (has_column m "win_by_wickets"); [rewrite Hwickets|]; reflexivity. }
  assert (E3 : forall word, count_result m word = Val (results m word)).
  { intros word. rewrite count_result_spec. unfold results.
    destruct (has_column m "result"); [rewrite Hresult|]; reflexivity. }
  unfold match_outcome_insights.
  rewrite bind_emit, bind_deref. cbn [nth].
  rewrite (bind_eval_val _ _ _ _ E1), bind_deref. cbn [nth].
  rewrite (bind_eval_val _ _ _ _ E2), bind_deref. cbn [nth].
  rewrite (bind_eval_val _ _ _ _ (E3 "tie")), bind_deref. cbn [nth].
  rewrite (bind_eval_val _ _ _ _ (E3 "no result")).
  reflexivity.
Qed.

Lemma match_outcome_counts_witness :
  match_outcome_insights 0 Sample.store
  = (Done tt, Sample.store,
     [st_header "Match Outcome Insights";
      st_markdown "**Matches Won by Runs:** {}" [VInt 1];
      st_markdown "**Matches Won by Wickets:** {}" [VInt 2];
      st_markdown "**Tied Matches:** {}" [VInt 0];
      st_markdown "**No Result Matches:** {}" [VInt 0]]).
Proof.
  exact (match_outcome_counts Sample.matches Sample.deliveries []
           (fun _ => eq_refl) (fun _ => eq_refl) (fun _ => eq_refl)).
Defined.

(** X11.  Match Outcome Insights ends in [TypeError] right after its
    header when 'win_by_runs' holds text, and in [AttributeError] when
    the 'result' column of a table with rows holds no text (the [.str]
    accessor needs an object column). *)
Theorem match_outcome_type_errors (m d : DataFrame) (rest : heap) :
  (has_column m "win_by_runs" = true ->
   numeric_column m "win_by_runs" = false ->
   match_outcome_insights 0 (m :: d :: rest)
   = (Raised TypeError, m :: d :: rest, [st_header "Match Outcome Insights"]))
  /\ ((has_column m "win_by_runs" = true ->
       numeric_column m "win_by_runs" = true) ->
      (has_column m "win_by_wickets" = true ->
       numeric_column m "win_by_wickets" = true) ->
      has_column m "result" = true ->
      text_column m "result" = false ->
      match_outcome_insights 0 (m :: d :: rest)
      = (Raised AttributeError, m :: d :: rest,
         [st_header "Match Outcome Insights"])).
Proof.
  split.
  - intros Hc Hn. unfold match_outcome_insights.
    rewrite bind_emit, bind_deref. cbn [nth].
    rewrite (bind_eval_exc _ TypeError); [reflexivity|].
    rewrite count_positive_spec, Hc, Hn. reflexivity.
  - intros Hruns Hwickets Hc Ht.
    assert (E1 : count_positive m "win_by_runs" = Val (won_by m "win_by_runs")).
    { rewrite count_positive_spec. unfold won_by.
      destruct (has_column m "win_by_runs"); [rewrite Hruns|]; reflexivity. }
    assert (E2 : count_positive m "win_by_wickets"
                 = Val (won_by m "win_by_wickets")).
    { rewrite count_positive_spec. unfold won_by.
      destruct (has_column m "win_by_wickets"); [rewrite Hwickets|]; reflexivity. }
    unfold match_outcome_insights.
    rewrite bind_emit, bind_deref. cbn [nth].
    rewrite (bind_eval_val _ _ _ _ E1), bind_deref. cbn [nth].
    rewrite (bind_eval_val _ _ _ _ E2), bind_deref. cbn [nth].
    rewrite (bind_eval_exc _ AttributeError); [reflexivity|].
    rewrite count_result_spec, Hc, Ht. reflexivity.
Qed.

Lemma match_outcome_type_errors_witness :
  match_outcome_insights 0 [clean_matches Sample.text_margin; Sample.deliveries]
  = (Raised TypeError, [clean_matches Sample.text_margin; Sample.deliveries],
     [st_header "Match Outcome Insights"])
  /\ match_outcome_insights 0 [clean_matches Sample.no_results; Sample.deliveries]
     = (Raised AttributeError, [clean_matches Sample.no_results; Sample.deliveries],
        [st_header "Match Outcome Insights"]).
Proof.
  split.
  - exact (proj1 (match_outcome_type_errors (clean_matches Sample.text_margin)
                    Sample.deliveries [])
                 eq_refl eq_refl).
  - refine (proj2 (match_outcome_type_errors (clean_matches Sample.no_results)
                     Sample.deliveries [])
                  _ _ eq_refl eq_refl); discriminate.
Defined.

(** ** Best bowling *)

Lemma group_map {A} (f g : A -> cell) (rs : list A) (x : cell) :
  group (map f rs) (map g rs) x
  = map g (filter (fun r => cell_eqb x (f r)) rs).
Proof.
  unfold group. rewrite map_map, select_map, select_map_filter. reflexivity.
Qed.

Lemma filter_map_tally {A B} (p : B -> bool) (g : A -> B) (l : list A) :
  Z.of_nat (List.length (filter p (map g l)))
  = tally (filter (fun x => p (g x)) l).
Proof.
  unfold tally. f_equal. induction l as [|x l IH]; simpl; [reflexivity|].
  destruct (p (g x)); simpl; rewrite IH; reflexivity.
Qed.

Lemma tally_filter_filter {A} (p q : A -> bool) (l : list A) :
  tally (filter p (filter q l)) <= tally (filter p l).
Proof.
  unfold tally. apply inj_le.
  induction l as [|x l IH]; simpl; [apply Nat.le_refl|].
  destruct (q x) eqn:Eq, (p x) eqn:Ep; simpl; rewrite ?Ep; simpl;
    auto using le_n_S, Nat.le_le_succ_r.
Qed.

Lemma bowler_analysis_best_run (h : heap) (u : ui) (deliveries : nat)
      (d : DataFrame) (bowler_list : list cell) :
  nth deliveries h (mkDataFrame [] []) = d ->
  has_column d "bowler" = true ->
  has_column d "player_dismissed" = true ->
  has_column d "total_runs" = true ->
  has_column d "match_id" = true ->
  sorted (unique (map (field d "bowler") (rows d))) = Val bowler_list ->
  numeric_column d "total_runs" = true ->
  let bowler := selectbox bowler_list (choice u) in
  bowler_analysis deliveries u h
  = (Done tt, h,
     [st_header "Bowler Analysis";
      st_markdown "**Total Wickets:** {}" [VInt (wickets d bowler)];
      st_markdown "**Economy Rate:** {}"
                  [VFixed2 (economy (runs_conceded d bowler)
                                    (balls_bowled d bowler))];
      st_markdown "**Best Bowling (Wickets in a Match):** {}"
                  [match max (map (wickets_in d bowler) (matches_bowled d bowler))
                   with
                   | Some z => VInt z
                   | None => VCell NaN
                   end]]).
Proof.
  intros Hd Hb Hp Hr Hm Hs Hn bowler.
  unfold bowler_analysis.
  rewrite bind_emit, bind_deref, Hd.
  rewrite (bind_eval_val _ _ _ _ (getitem_field d "bowler" Hb)).
  rewrite (bind_eval_val _ _ _ _ Hs).
  rewrite bind_deref, Hd.
  rewrite (bind_eval_val _ _ _ _ (getitem_field d "bowler" Hb)).
  rewrite map_map. fold bowler.
  set (mine := fun r => eq_selected bowler (field d "bowler" r)).
  rewrite (bind_eval_val _ _ _ _ (getitem_where d mine "player_dismissed" Hp)).
  rewrite (bind_eval_val _ _ _ _ (getitem_where d mine "total_runs" Hr)).
  assert (Hsum : sum (map (field d "total_runs") (filter mine (rows d)))
                 = Val (runs_conceded d bowler)).
  { apply sum_numeric. apply forallb_filter. exact Hn. }
  rewrite (bind_eval_val _ _ _ _ Hsum).
  rewrite !bind_emit.
  rewrite shape0_where, map_map, count_true_map.
  change (tally (filter mine (rows d))) with (balls_bowled d bowler).
  change (filter mine (rows d)) with (rows_of d "bowler" bowler).
  fold (overs (balls_bowled d bowler)).
  rewrite overs_guard by (unfold balls_bowled, tally; lia).
  assert (He : (if negb (Qeq_bool (overs (balls_bowled d bowler)) (inject_Z 0))
                then (inject_Z (runs_conceded d bowler)
                      / overs (balls_bowled d bowler))%Q
                else inject_Z 0)
               = economy (runs_conceded d bowler) (balls_bowled d bowler)).
  { unfold economy. destruct (Qeq_bool _ _); reflexivity. }
  rewrite He, has_column_where, Hm.
  unfold groupby_count_notna.
  rewrite (getitem_where d mine "match_id" Hm).
  rewrite (getitem_where d mine "player_dismissed" Hp).
  simpl res_bind. simpl eval. rewrite bind_ret, emit_run.
  change (filter mine (rows d)) with (rows_of d "bowler" bowler).
  rewrite map_map. cbn [snd].
  assert (Hper : map (fun g =>
                        Z.of_nat
                          (List.length
                             (filter notna
                                (group (map (field d "match_id")
                                            (rows_of d "bowler" bowler))
                                       (map (field d "player_dismissed")
                                            (rows_of d "bowler" bowler)) g))))
                     (group_keys (map (field d "match_id")
                                      (rows_of d "bowler" bowler)))
                 = map (wickets_in d bowler) (matches_bowled d bowler)).
  { apply map_ext. intros g. rewrite group_map, filter_map_tally. reflexivity. }
  rewrite Hper. reflexivity.
Qed.

(** X12.  When the deliveries table has a 'match_id' column, the "Best
    Bowling" of the selected bowler is the count of dismissals in one of
    the matches the bowler bowled in, no match has more, and it never
    exceeds the total wickets reported; it shows as NaN when none of the
    bowler's deliveries has a match id. *)
Theorem best_bowling_is_a_match_total (h : heap) (u : ui) (deliveries : nat)
        (d : DataFrame) (bowler_list : list cell) :
  nth_error h deliveries = Some d ->
  has_column d "bowler" = true ->
  has_column d "player_dismissed" = true ->
  has_column d "total_runs" = true ->
  has_column d "match_id" = true ->
  sorted (unique (map (field d "bowler") (rows d))) = Val bowler_list ->
  numeric_column d "total_runs" = true ->
  let bowler := selectbox bowler_list (choice u) in
  exists page,
    bowler_analysis deliveries u h = (Done tt, h, page) /\
    reported "**Total Wickets:** {}" page = Some [VInt (wickets d bowler)] /\
    (matches_bowled d bowler = [] ->
     reported "**Best Bowling (Wickets in a Match):** {}" page
     = Some [VCell NaN]) /\
    (matches_bowled d bowler <> [] ->
     exists best g,
       reported "**Best Bowling (Wickets in a Match):** {}" page
       = Some [VInt best] /\
       In g (matches_bowled d bowler) /\
       best = wickets_in d bowler g /\
       (forall g', In g' (matches_bowled d bowler) ->
                   wickets_in d bowler g' <= best) /\
       best <= wickets d bowler).
Proof.
  intros Hd Hb Hp Hr Hm Hs Hn bowler.
  eexists. split.
  { apply (bowler_analysis_best_run h u deliveries d bowler_list
             (nth_error_nth_default _ _ _ Hd) Hb Hp Hr Hm Hs Hn). }
  fold bowler. split; [reflexivity|]. split.
  - intros E. rewrite E. reflexivity.
  - intros Hne.
    destruct (max (map (wickets_in d bowler) (matches_bowled d bowler)))
      as [best|] eqn:Emax.
    + destruct (max_spec _ _ Emax) as [Hin Hle].
      apply in_map_iff in Hin. destruct Hin as [g [Eg Hg]].
      exists best, g. split; [reflexivity|].
      split; [exact Hg|]. split; [symmetry; exact Eg|]. split.
      * intros g' Hg'. apply Hle. apply in_map. exact Hg'.
      * rewrite <- Eg. apply tally_filter_filter.
    + apply max_none, map_eq_nil in Emax. contradiction.
Qed.

Lemma best_bowling_is_a_match_total_witness :
  exists page,
    bowler_analysis 1 (Sample.first_option BowlerAnalysis) Sample.store
    = (Done tt, Sample.store, page) /\
    reported "**Total Wickets:** {}" page = Some [VInt 2] /\
    reported "**Best Bowling (Wickets in a Match):** {}" page
    = Some [VInt 2].
Proof.
  destruct (best_bowling_is_a_match_total Sample.store
              (Sample.first_option BowlerAnalysis) 1 Sample.deliveries
              [Str "x"; Str "y"]
              eq_refl eq_refl eq_refl eq_refl eq_refl eq_refl eq_refl)
    as (page & Hrun & Hw & _ & Hbest).
  exists page. split; [exact Hrun|]. split; [exact Hw|].
  destruct Hbest as (best & g & Hrep & Hg & Hbest & _); [discriminate|].
  rewrite Hrep. destruct Hg as [<-|[]]. rewrite Hbest. reflexivity.
Defined.

(** ** Head-to-head wins *)

Lemma series_total_permutation (s s' : Series) :
  Permutation s s' -> series_total s = series_total s'.
Proof.
  induction 1; simpl; lia.
Qed.

Lemma counts_over (keys l : list cell) :
  NoDup keys ->
  series_total (map (fun v => (v, count_of v l)) keys)
  = tally (filter (fun x => existsb (cell_eqb x) keys) l).
Proof.
  intros Hnd. induction l as [|x l IH].
  - unfold count_of, tally. simpl.
    induction keys as [|k keys IHk]; simpl; [reflexivity|].
    inversion Hnd; subst. rewrite IHk by assumption. reflexivity.
  - assert (E : forall v, count_of v (x :: l)
                          = (if cell_eqb v x then 1 else 0) + count_of v l).
    { intros v. unfold count_of. cbn [filter]. destruct (cell_eqb v x); cbn [List.length]; lia. }
    rewrite (map_ext _ _ (fun v => f_equal (pair v) (E v))).
    rewrite series_total_plus, IH, (indicator_total keys x 1 Hnd).
    cbn [filter]. unfold tally.
    destruct (existsb (cell_eqb x) keys); cbn [List.length]; lia.
Qed.

Lemma counts_total (s : list cell) :
  series_total (counts s) = tally (filter notna s).
Proof.
  unfold counts. rewrite counts_over by apply unique_NoDup.
  f_equal. apply filter_ext_in. intros x Hx.
  apply eq_true_iff_eq. rewrite existsb_cell_In, in_unique, filter_In.
  tauto.
Qed.

Lemma value_counts_total (kind : list Z -> list nat) (s : list cell) :
  argsort_ok kind (rev (map snd (counts s))) = true ->
  Permutation (value_counts kind s) (counts s) /\
  series_total (value_counts kind s) = tally (filter notna s).
Proof.
  intros Hok. destruct (sort_values_desc_spec kind (counts s) Hok) as [Hperm _].
  split; [exact Hperm|].
  unfold value_counts. rewrite (series_total_permutation _ _ Hperm).
  apply counts_total.
Qed.

Lemma traverse_length {A B} (f : A -> res B) (l : list A) (ys : list B) :
  traverse f l = Val ys -> List.length ys = List.length l.
Proof.
  revert ys. induction l as [|x l IH]; simpl; intros ys H.
  - injection H as <-. reflexivity.
  - destruct (f x); [|discriminate]. simpl in H.
    destruct (traverse f l) as [zs|]; [|discriminate]. simpl in H.
    injection H as <-. simpl. f_equal. apply IH. reflexivity.
Qed.

Lemma getitem_setitem_new (d : DataFrame) (label : string) (v : list cell) :
  has_column d label = false ->
  List.length v = List.length (rows d) ->
  getitem (setitem d label v) label = Val v.
Proof.
  unfold has_column, setitem, getitem.
  destruct (index_of label (columns d)) eqn:E; [discriminate|]. intros _ Hlen.
  cbn [columns rows]. rewrite (index_of_app_new _ _ E). f_equal.
  revert v Hlen. induction (rows d) as [|r rs IH]; intros [|x v] Hlen;
    simpl in *; try discriminate; [reflexivity|].
  f_equal.
  - unfold at_. rewrite app_nth2 by (rewrite length_map, length_seq; lia).
    rewrite length_map, length_seq, Nat.sub_diag. reflexivity.
  - apply IH. lia.
Qed.

Lemma apply_get_opponent_rows (m : DataFrame) (rs : list (list cell)) :
  has_column m "winner" = true ->
  has_column m "team1" = true ->
  has_column m "team2" = true ->
  apply_get_opponent (mkDataFrame (columns m) rs) = Val (map (other_side m) rs).
Proof.
  intros Hw H1 H2. unfold apply_get_opponent. cbn [rows columns].
  apply traverse_map. intros r _.
  destruct (has_column_index _ _ Hw) as [iw Ew].
  destruct (has_column_index _ _ H1) as [i1 E1].
  destruct (has_column_index _ _ H2) as [i2 E2].
  unfold get_opponent, row_get, other_side, field. rewrite Ew, E1, E2. simpl.
  destruct (py_eq _ _); reflexivity.
Qed.

Lemma team_analysis_head_to_head_run (quicksort : list Z -> list nat)
      (h : heap) (u : ui) (df : nat) (m : DataFrame) (team_list : list cell) :
  nth df h (mkDataFrame [] []) = m ->
  has_column m "team1" = true ->
  has_column m "team2" = true ->
  has_column m "winner" = true ->
  has_column m "Opponent" = false ->
  sorted (unique (map (field m "team1") (rows m))) = Val team_list ->
  let team := selectbox team_list (choice u) in
  let played := matches_played m team in
  let won := wins m team in
  exists h',
    team_analysis quicksort df u h
    = (Done tt, h',
       [st_header "Team Analysis";
        st_markdown "**Total Matches Played:** {}" [VInt played];
        st_markdown "**Total Wins:** {}" [VInt won];
        st_markdown "**Win Percentage:** {}%"
                    [VFixed2 (win_percentage won played)];
        st_subheader "Head-to-Head Wins vs Other Teams";
        st_dataframe
          (mkDataFrame ["Opponent"; "Wins Against"]
             (map (fun p => [fst p; Num (snd p)])
                  (value_counts quicksort (opponents m team))))]).
Proof.
  intros Hm H1 H2 Hw Hopp Hs team played won.
  unfold team_analysis.
  rewrite bind_emit, bind_deref, Hm.
  rewrite (bind_eval_val _ _ _ _ (getitem_field m "team1" H1)).
  rewrite (bind_eval_val _ _ _ _ Hs).
  rewrite bind_deref, Hm.
  rewrite (bind_eval_val _ _ _ _ (getitem_field m "team1" H1)).
  rewrite (bind_eval_val _ _ _ _ (getitem_field m "team2" H2)).
  rewrite (bind_eval_val _ _ _ _ (getitem_field m "winner" Hw)).
  fold team.
  rewrite !map_map, zip_with_map, shape0_where, count_true_map.
  rewrite !bind_emit, bind_deref, Hm.
  rewrite (bind_eval_val _ _ _ _ (getitem_field m "winner" Hw)).
  rewrite !map_map.
  set (mine := fun r => eq_selected team (field m "winner" r)).
  assert (Hcols : forall name s,
             set_columns (reset_index name s) ["Opponent"; "Wins Against"]
             = Val (mkDataFrame ["Opponent"; "Wins Against"]
                                (rows (reset_index name s)))) by reflexivity.
  unfold opponents. fold (rows_of m "winner" team).
  change (rows_of m "winner" team) with (filter mine (rows m)).
  destruct (has_column m "loser") eqn:Hl.
  - rewrite (bind_eval_val _ _ _ _ (getitem_where m mine "loser" Hl)).
    rewrite bind_deref, Hm, Hl.
    unfold assign_columns.
    run_steps.
    rewrite (bind_eval_val _ _ _ _ (Hcols _ _)).
    run_steps.
    rewrite emit_run. eexists. reflexivity.
  - rewrite (bind_eval_val _ _ _ _ (getitem_where m mine "team2" H2)).
    rewrite bind_deref, Hm, Hl.
    rewrite ?bind_assoc.
    rewrite (bind_eval_val _ _ _ _ (getitem_field m "winner" Hw)).
    rewrite !map_map. fold mine.
    unfold copy, mutate, assign_columns.
    run_steps.
    assert (Ho : apply_get_opponent (where_ m (map mine (rows m)))
                 = Val (map (other_side m) (filter mine (rows m)))).
    { unfold where_. rewrite select_map_filter.
      apply apply_get_opponent_rows; assumption. }
    rewrite (bind_eval_val _ _ _ _ Ho).
    run_steps.
    assert (Hg : getitem (setitem (where_ m (map mine (rows m))) "Opponent"
                                  (map (other_side m) (filter mine (rows m))))
                         "Opponent"
                 = Val (map (other_side m) (filter mine (rows m)))).
    { apply getitem_setitem_new; [exact Hopp|].
      unfold where_. cbn [rows]. rewrite select_map_filter, length_map.
      reflexivity. }
    rewrite (bind_eval_val _ _ _ _ Hg).
    run_steps.
    rewrite (bind_eval_val _ _ _ _ (Hcols _ _)).
    run_steps.
    rewrite emit_run. eexists. reflexivity.
Qed.

Lemma wins_against_total (t : DataFrame) (s : Series) :
  columns t = ["Opponent"; "Wins Against"] ->
  total t "Wins Against" (map (fun p => [fst p; Num (snd p)]) s)
  = series_total s.
Proof.
  intros Hc. induction s as [|p s IH]; [reflexivity|].
  cbn [map]. unfold total, series_total in *. cbn [fold_right].
  rewrite IH. unfold field. rewrite Hc. reflexivity.
Qed.

(** X13.  Team Analysis ends with the head-to-head table.  Its columns are
    Opponent and Wins Against; it has one row for each distinct non-null
    opponent among the matches the selected team won (the loser column
    when the file has one, the side that is not the winner otherwise),
    holding the number of those matches against that opponent; the rows
    come in descending order of that number; the numbers add up to the
    won matches whose opponent is not null, hence to Total Wins when no
    opponent is null.  The table is assumed to have no column named
    Opponent beforehand, which holds after the lower-casing of the
    labels. *)
Theorem head_to_head_wins_add_up (quicksort : list Z -> list nat)
        (h : heap) (u : ui) (df : nat) (m : DataFrame)
        (team_list : list cell) :
  nth_error h df = Some m ->
  has_column m "team1" = true ->
  has_column m "team2" = true ->
  has_column m "winner" = true ->
  has_column m "Opponent" = false ->
  sorted (unique (map (field m "team1") (rows m))) = Val team_list ->
  let team := selectbox team_list (choice u) in
  let opponent := opponents m team in
  argsort_ok quicksort (rev (map snd (counts opponent))) = true ->
  exists h' page t,
    team_analysis quicksort df u h
    = (Done tt, h', page ++ [st_dataframe t]) /\
    columns t = ["Opponent"; "Wins Against"] /\
    Permutation (rows t)
                (map (fun o => [o; Num (count_of o opponent)])
                     (unique (filter notna opponent))) /\
    descending (map (fun r => number (field t "Wins Against" r)) (rows t)) /\
    total t "Wins Against" (rows t) = tally (filter notna opponent) /\
    (forallb notna opponent = true ->
     total t "Wins Against" (rows t) = wins m team).
Proof.
  intros Hm H1 H2 Hw Hopp Hs team opponent Hok.
  destruct (team_analysis_head_to_head_run quicksort h u df m team_list
              (nth_error_nth_default _ _ _ Hm) H1 H2 Hw Hopp Hs) as [h' Hrun].
  fold team in Hrun. fold opponent in Hrun.
  destruct (sort_values_desc_spec quicksort (counts opponent) Hok)
    as [Hperm Hdesc].
  destruct (value_counts_total quicksort opponent Hok) as [_ Htot].
  exists h'. eexists. eexists.
  split.
  { rewrite Hrun.
    change (?a :: ?b :: ?c :: ?d :: ?e :: [?f]) with ([a; b; c; d; e] ++ [f]).
    reflexivity. }
  assert (Ht : total (mkDataFrame ["Opponent"; "Wins Against"]
                 (map (fun p => [fst p; Num (snd p)])
                      (value_counts quicksort opponent)))
                 "Wins Against"
                 (map (fun p => [fst p; Num (snd p)])
                      (value_counts quicksort opponent))
               = tally (filter notna opponent)).
  { rewrite <- Htot. apply wins_against_total. reflexivity. }
  split; [reflexivity|]. cbn [rows]. split; [|split; [|split]].
  - unfold value_counts.
    apply (Permutation_map (fun p => [fst p; Num (snd p)])) in Hperm.
    unfold counts in Hperm at 2. rewrite map_map in Hperm. exact Hperm.
  - rewrite map_map. unfold value_counts.
    erewrite map_ext; [exact Hdesc|]. intros p. reflexivity.
  - exact Ht.
  - intros Hall. rewrite Ht.
    assert (E : filter notna opponent = opponent).
    { clear - Hall. induction opponent as [|c l IH]; [reflexivity|].
      simpl in *. apply andb_true_iff in Hall as [Hc Hl].
      rewrite Hc, (IH Hl). reflexivity. }
    rewrite E. unfold opponent, opponents, wins, tally.
    destruct (has_column m "loser"); rewrite length_map; reflexivity.
Qed.

Lemma head_to_head_wins_add_up_witness :
  exists h' page t,
    team_analysis stable_argsort 0 (mkUi TeamAnalysis 1 0) Sample.store
    = (Done tt, h', page ++ [st_dataframe t]) /\
    columns t = ["Opponent"; "Wins Against"] /\
    Permutation (rows t) [[Str "CSK"; Num 1]; [Str "RR"; Num 1]] /\
    descending (map (fun r => number (field t "Wins Against" r)) (rows t)) /\
    total t "Wins Against" (rows t) = 2 /\
    (forallb notna (opponents Sample.matches (Some (Str "MI"))) = true ->
     total t "Wins Against" (rows t)
     = wins Sample.matches (Some (Str "MI"))).
Proof.
  exact (head_to_head_wins_add_up stable_argsort Sample.store
           (mkUi TeamAnalysis 1 0) 0 Sample.matches
           [Str "CSK"; Str "MI"; Str "RR"]
           eq_refl eq_refl eq_refl eq_refl eq_refl eq_refl eq_refl).
Defined.

(** ** Interactive Visualizations *)

Lemma has_column_nonempty (d : DataFrame) (label : string) :
  has_column d label = true -> columns d <> [].
Proof.
  unfold has_column. destruct (columns d); [discriminate|]. intros _ E. discriminate.
Qed.

Lemma empty_where (d : DataFrame) (f : list cell -> bool) :
  columns d <> [] ->
  empty (where_ d (map f (rows d)))
  = match filter f (rows d) with [] => true | _ => false end.
Proof.
  intros Hc. unfold empty, where_. cbn [rows columns].
  rewrite select_map_filter.
  destruct (filter f (rows d)); [reflexivity|].
  destruct (columns d); [contradiction|reflexivity].
Qed.

Lemma groupby_sum_where (d : DataFrame) (f : list cell -> bool)
      (key val : string) :
  has_column d key = true ->
  has_column d val = true ->
  numeric_column d val = true ->
  groupby_sum (where_ d (map f (rows d))) key val
  = Val (map (fun g => (g, total d val
                              (filter (fun r => cell_eqb g (field d key r))
                                      (filter f (rows d)))))
             (group_keys (map (field d key) (filter f (rows d))))).
Proof.
  intros Hk Hv Hn.
  rewrite (groupby_sum_rows (where_ d (map f (rows d))) key val Hk Hv).
  - unfold where_. cbn [rows]. rewrite select_map_filter. reflexivity.
  - unfold numeric_column, where_. cbn [rows]. rewrite select_map_filter.
    apply (forallb_filter _ f _ Hn).
Qed.

Lemma chart_run (d : DataFrame) (f : list cell -> bool) (h : heap) :
  has_column d "match_id" = true ->
  has_column d "total_runs" = true ->
  numeric_column d "total_runs" = true ->
  (let team_deliveries := where_ d (map f (rows d)) in
   if negb (empty team_deliveries) then
     runs_by_match <- eval (groupby_sum team_deliveries "match_id"
                                        "total_runs") ;;
     emit (st_bar_chart runs_by_match)
   else
     emit (st_info "No data for selected filters."))%py h
  = (Done tt, h, [chart_of d (filter f (rows d))]).
Proof.
  intros Hk Hv Hn. cbv zeta.
  rewrite (empty_where d f (has_column_nonempty d _ Hk)).
  unfold chart_of.
  destruct (filter f (rows d)) as [|r rs] eqn:E; cbn [negb].
  - reflexivity.
  - rewrite (bind_eval_val _ _ _ _ (groupby_sum_where d f _ _ Hk Hv Hn)).
    rewrite E. reflexivity.
Qed.

Lemma seasons_nonempty (m : DataFrame) (season_list : list cell) :
  seasons m = Val season_list ->
  season_list <> [] ->
  has_column m "season" = true /\
  sorted (unique (map (field m "season") (rows m))) = Val season_list.
Proof.
  unfold seasons. destruct (has_column m "season").
  - intros H _. split; [reflexivity | exact H].
  - intros H Hne. injection H as <-. contradiction.
Qed.

Lemma truthy_selectbox (season_list : list cell) (k : nat) :
  truthy (selectbox season_list k) = true -> season_list <> [].
Proof. destruct season_list; [discriminate|]. intros _ E. discriminate. Qed.

Lemma selectbox_nonempty {A} (l : list A) (k : nat) :
  (if nonempty l then selectbox l k else None) = selectbox l k.
Proof. destruct l; reflexivity. Qed.

Lemma interactive_season_run (h : heap) (u : ui) (df deliveries : nat)
      (m d : DataFrame) (team_list season_list : list cell) :
  nth df h (mkDataFrame [] []) = m ->
  nth deliveries h (mkDataFrame [] []) = d ->
  has_column m "team1" = true ->
  has_column m "team2" = true ->
  has_column m "id" = true ->
  has_column d "match_id" = true ->
  has_column d "batting_team" = true ->
  has_column d "total_runs" = true ->
  numeric_column d "total_runs" = true ->
  sorted (unique (map (field m "team1") (rows m))) = Val team_list ->
  seasons m = Val season_list ->
  let team := selectbox team_list (choice u) in
  let season := selectbox season_list (choice2 u) in
  truthy season = true ->
  interactive_visualizations df deliveries u h
  = (Done tt, h,
     [st_header "Interactive Visualizations";
      st_markdown "Select a team and season to view their run distribution:" [];
      chart_of d
        (filter (fun r =>
                   existsb (cell_eqb (field d "match_id" r))
                           (unique (map (field m "id")
                                        (filter (in_season m season team)
                                                (rows m))))
                   && eq_selected team (field d "batting_team" r))
                (rows d))]).
Proof.
  intros Hm Hd H1 H2 Hid Hk Hb Hv Hn Hs Hss team season Ht.
  destruct (seasons_nonempty m season_list Hss (truthy_selectbox _ _ Ht))
    as [Hsc Hsl].
  unfold interactive_visualizations.
  rewrite !bind_emit, bind_deref, Hm.
  rewrite ?bind_assoc, (bind_eval_val _ _ _ _ (getitem_field m "team1" H1)).
  rewrite ?bind_assoc, (bind_eval_val _ _ _ _ Hs).
  rewrite bind_deref, Hm, Hsc. cbv iota.
  rewrite ?bind_assoc.
  rewrite ?bind_assoc, (bind_eval_val _ _ _ _ (getitem_field m "season" Hsc)).
  rewrite ?bind_assoc, (bind_eval_val _ _ _ _ Hsl).
  rewrite selectbox_nonempty. fold team. fold season. rewrite Ht. cbv iota.
  rewrite ?bind_assoc.
  rewrite bind_deref, Hm. rewrite ?bind_assoc.
  rewrite ?bind_assoc, (bind_eval_val _ _ _ _ (getitem_field m "season" Hsc)).
  rewrite ?bind_assoc, (bind_eval_val _ _ _ _ (getitem_field m "team1" H1)).
  rewrite ?bind_assoc, (bind_eval_val _ _ _ _ (getitem_field m "team2" H2)).
  rewrite !map_map, zip_with_map.
  rewrite (zip_with_map andb
             (fun r => eq_selected season (field m "season" r))
             (fun r => eq_selected team (field m "team1" r)
                       || eq_selected team (field m "team2" r))).
  fold (in_season m season team).
  rewrite ?bind_assoc, (bind_eval_val _ _ _ _ (getitem_where m _ "id" Hid)).
  rewrite ?bind_assoc, bind_deref, Hd.
  rewrite ?bind_assoc, (bind_eval_val _ _ _ _ (getitem_field d "match_id" Hk)).
  rewrite ?bind_assoc, (bind_eval_val _ _ _ _ (getitem_field d "batting_team" Hb)).
  rewrite ?bind_assoc, bind_ret.
  unfold isin. rewrite !map_map.
  rewrite (zip_with_map andb
             (fun r => existsb (cell_eqb (field d "match_id" r))
                         (unique (map (field m "id")
                                      (filter (in_season m season team) (rows m)))))
             (fun r => eq_selected team (field d "batting_team" r))).
  rewrite (chart_run d _ _ Hk Hv Hn).
  reflexivity.
Qed.

Lemma interactive_all_seasons_run (h : heap) (u : ui) (df deliveries : nat)
      (m d : DataFrame) (team_list season_list : list cell) :
  nth df h (mkDataFrame [] []) = m ->
  nth deliveries h (mkDataFrame [] []) = d ->
  has_column m "team1" = true ->
  has_column d "match_id" = true ->
  has_column d "batting_team" = true ->
  has_column d "total_runs" = true ->
  numeric_column d "total_runs" = true ->
  sorted (unique (map (field m "team1") (rows m))) = Val team_list ->
  seasons m = Val season_list ->
  let team := selectbox team_list (choice u) in
  let season := selectbox season_list (choice2 u) in
  truthy season = false ->
  interactive_visualizations df deliveries u h
  = (Done tt, h,
     [st_header "Interactive Visualizations";
      st_markdown "Select a team and season to view their run distribution:" [];
      chart_of d (rows_of d "batting_team" team)]).
Proof.
  intros Hm Hd H1 Hk Hb Hv Hn Hs Hss team season Ht.
  unfold interactive_visualizations.
  rewrite !bind_emit, bind_deref, Hm.
  rewrite ?bind_assoc, (bind_eval_val _ _ _ _ (getitem_field m "team1" H1)).
  rewrite ?bind_assoc, (bind_eval_val _ _ _ _ Hs).
  rewrite bind_deref, Hm.
  assert (Hlist : forall B (k : list cell -> M B) h0,
            bind (if has_column m "season"
                  then (season <- eval (getitem m "season") ;;
                        eval (sorted (unique season)))%py
                  else ret []) k h0 = k season_list h0).
  { intros B k h0. unfold seasons in Hss.
    destruct (has_column m "season") eqn:Hsc.
    - rewrite ?bind_assoc.
      rewrite ?bind_assoc, (bind_eval_val _ _ _ _ (getitem_field m "season" Hsc)).
      rewrite ?bind_assoc, (bind_eval_val _ _ _ _ Hss). reflexivity.
    - injection Hss as <-. rewrite bind_ret. reflexivity. }
  rewrite Hlist.
  rewrite selectbox_nonempty. fold team. fold season. rewrite Ht. cbv iota.
  rewrite ?bind_assoc.
  rewrite bind_deref, Hd. rewrite ?bind_assoc.
  rewrite ?bind_assoc, (bind_eval_val _ _ _ _ (getitem_field d "batting_team" Hb)).
  rewrite ?bind_assoc, bind_ret, !map_map.
  rewrite (chart_run d _ _ Hk Hv Hn).
  reflexivity.
Qed.

Lemma insert_by_perm {A} (leb : A -> A -> bool) (x : A) (l : list A) :
  Permutation (insert_by leb x l) (x :: l).
Proof.
  induction l as [|y l IH]; simpl; [reflexivity|].
  destruct (leb x y); [reflexivity|].
  rewrite IH. apply perm_swap.
Qed.

Lemma sort_by_perm {A} (leb : A -> A -> bool) (l : list A) :
  Permutation (sort_by leb l) l.
Proof.
  induction l as [|x l IH]; simpl; [reflexivity|].
  rewrite insert_by_perm. constructor. exact IH.
Qed.

Lemma group_keys_NoDup (k : list cell) : NoDup (group_keys k).
Proof.
  unfold group_keys.
  eapply Permutation_NoDup; [apply Permutation_sym, sort_by_perm|].
  apply unique_NoDup.
Qed.

Lemma in_group_keys (g : cell) (k : list cell) :
  In g (group_keys k) <-> g <> NaN /\ In g k.
Proof.
  unfold group_keys. rewrite in_sort_by, in_unique, filter_In.
  destruct g; simpl; intuition congruence.
Qed.

Lemma filter_nil_iff {A} (f : A -> bool) (l : list A) :
  filter f l = [] <-> forall x, In x l -> f x = false.
Proof.
  induction l as [|y l IH]; simpl.
  - split; [intros _ x [] | reflexivity].
  - destruct (f y) eqn:E.
    + split; [discriminate|]. intros H.
      rewrite (H y (or_introl eq_refl)) in E. discriminate.
    + rewrite IH. split.
      * intros H x [<-|Hx]; [exact E | apply H; exact Hx].
      * intros H x Hx. apply H. right. exact Hx.
Qed.

Lemma filter_filter {A} (p q : A -> bool) (l : list A) :
  filter p (filter q l) = filter (fun x => q x && p x) l.
Proof.
  induction l as [|x l IH]; simpl; [reflexivity|].
  destruct (q x); simpl; [destruct (p x)|]; rewrite IH; reflexivity.
Qed.

Lemma chart_of_cases (d : DataFrame) (f : list cell -> bool) :
  let last := chart_of d (filter f (rows d)) in
  ((forall r, In r (rows d) -> f r = false) /\
   last = st_info "No data for selected filters.")
  \/
  ((exists r, In r (rows d) /\ f r = true) /\
   exists s,
     last = st_bar_chart s /\
     NoDup (map fst s) /\
     (forall g, In g (map fst s)
                <-> g <> NaN /\
                    exists r, In r (rows d) /\ f r = true /\
                              field d "match_id" r = g) /\
     (forall g t, In (g, t) s ->
        t = total d "total_runs"
              (filter (fun r => f r && cell_eqb g (field d "match_id" r))
                      (rows d)))).
Proof.
  cbv zeta. unfold chart_of.
  destruct (filter f (rows d)) as [|r0 rs] eqn:E.
  - left. split; [apply filter_nil_iff; exact E | reflexivity].
  - right. split.
    { exists r0. apply filter_In. rewrite E. left. reflexivity. }
    rewrite <- E. eexists. split; [reflexivity|].
    rewrite map_map, map_id. split; [apply group_keys_NoDup|]. split.
    + intros g. rewrite in_group_keys, in_map_iff.
      split; intros [Hg [r Hr]]; (split; [exact Hg|]); exists r.
      * destruct Hr as [Hf Hin]. apply filter_In in Hin. tauto.
      * rewrite filter_In. tauto.
    + intros g t Hin. apply in_map_iff in Hin as [g' [Hp _]].
      injection Hp as -> <-. rewrite filter_filter. reflexivity.
Qed.

(** X14.  Interactive Visualizations with a selected season that counts
    as true leaves both tables alone and ends in one of two ways.  When no
    delivery with the selected team batting carries the id of a match of
    that season with the team on either side, it writes "No data for
    selected filters.".  When some delivery does, it draws a bar chart:
    no match id has two bars; a match id has a bar exactly when it is not
    null, is the id of a match of the season with the team on either
    side, and has a delivery with the team batting; the bar is the sum of
    total_runs over the deliveries of that match with the team batting. *)
Theorem season_chart_shows_the_selected_season (h : heap) (u : ui)
        (df deliveries : nat) (m d : DataFrame)
        (team_list season_list : list cell) :
  nth_error h df = Some m ->
  nth_error h deliveries = Some d ->
  has_column m "team1" = true ->
  has_column m "team2" = true ->
  has_column m "id" = true ->
  has_column d "match_id" = true ->
  has_column d "batting_team" = true ->
  has_column d "total_runs" = true ->
  numeric_column d "total_runs" = true ->
  sorted (unique (map (field m "team1") (rows m))) = Val team_list ->
  seasons m = Val season_list ->
  let team := selectbox team_list (choice u) in
  let season := selectbox season_list (choice2 u) in
  truthy season = true ->
  exists last,
    interactive_visualizations df deliveries u h
    = (Done tt, h,
       [st_header "Interactive Visualizations";
        st_markdown "Select a team and season to view their run distribution:"
                    [];
        last]) /\
    (((forall r mr,
         In r (rows d) -> In mr (rows m) ->
         in_season m season team mr = true ->
         eq_selected team (field d "batting_team" r) = true ->
         field m "id" mr <> field d "match_id" r) /\
      last = st_info "No data for selected filters.")
     \/
     ((exists r mr,
         In r (rows d) /\ In mr (rows m) /\
         in_season m season team mr = true /\
         eq_selected team (field d "batting_team" r) = true /\
         field m "id" mr = field d "match_id" r) /\
      exists s,
        last = st_bar_chart s /\
        NoDup (map fst s) /\
        (forall g, In g (map fst s)
                   <-> g <> NaN /\
                       (exists mr, In mr (rows m) /\
                                   in_season m season team mr = true /\
                                   field m "id" mr = g) /\
                       (exists r, In r (rows d) /\
                                  batted_in d team g r = true)) /\
        (forall g t, In (g, t) s ->
           t = total d "total_runs"
                 (filter (batted_in d team g) (rows d))))).
Proof.
  intros Hm Hd H1 H2 Hid Hk Hb Hv Hn Hs Hss team season Ht.
  eexists. split.
  { apply (interactive_season_run h u df deliveries m d team_list season_list
             (nth_error_nth_default _ _ _ Hm) (nth_error_nth_default _ _ _ Hd));
      assumption. }
  fold team. fold season.
  set (ids := unique (map (field m "id")
                          (filter (in_season m season team) (rows m)))).
  set (f := fun r => existsb (cell_eqb (field d "match_id" r)) ids
                     && eq_selected team (field d "batting_team" r)).
  assert (Hids : forall g, In g ids
                 <-> exists mr, In mr (rows m) /\
                                in_season m season team mr = true /\
                                field m "id" mr = g).
  { intros g. unfold ids. rewrite in_unique, in_map_iff.
    split; intros [mr Hmr]; exists mr; rewrite filter_In in *; tauto. }
  assert (Hf : forall r, f r = true
                 <-> In (field d "match_id" r) ids /\
                     eq_selected team (field d "batting_team" r) = true).
  { intros r. unfold f. rewrite andb_true_iff, existsb_cell_In. reflexivity. }
  destruct (chart_of_cases d f) as [[Hnone Hlast] | [[r0 [Hr0 Hfr0]] Hbars]].
  - left. split; [|exact Hlast].
    intros r mr Hr Hmr Hin Hbat Heq.
    assert (Hfr : f r = true).
    { apply Hf. split; [|exact Hbat]. apply Hids. exists mr. tauto. }
    rewrite (Hnone r Hr) in Hfr. discriminate.
  - right. split.
    { apply Hf in Hfr0 as [Hin Hbat].
      apply Hids in Hin as [mr [Hmr [Hin Heq]]].
      exists r0, mr. tauto. }
    destruct Hbars as [s [Hlast [Hnd [Hkeys Htot]]]].
    exists s. split; [exact Hlast|]. split; [exact Hnd|]. split.
    + intros g. rewrite Hkeys. split.
      * intros [Hg [r [Hr [Hfr Heq]]]]. apply Hf in Hfr as [Hin Hbat].
        rewrite Heq in Hin. split; [exact Hg|]. split; [apply Hids; exact Hin|].
        exists r. split; [exact Hr|]. unfold batted_in.
        rewrite Heq, Hbat, (proj2 (cell_eqb_eq g g) eq_refl). reflexivity.
      * intros [Hg [Hmr [r [Hr Hbat]]]]. split; [exact Hg|].
        unfold batted_in in Hbat. apply andb_true_iff in Hbat as [Heq Hbat].
        apply cell_eqb_eq in Heq. exists r. split; [exact Hr|].
        split; [|symmetry; exact Heq]. apply Hf. rewrite <- Heq.
        split; [apply Hids; exact Hmr | exact Hbat].
    + intros g t Hin. rewrite (Htot g t Hin).
      assert (Hg : In g ids).
      { assert (Hk' : In g (map fst s))
          by (apply in_map_iff; exists (g, t); tauto).
        apply Hkeys in Hk' as [_ [r [_ [Hfr Heq]]]].
        apply Hf in Hfr as [Hfr _]. rewrite Heq in Hfr. exact Hfr. }
      f_equal. apply filter_ext. intros r. unfold f, batted_in.
      destruct (cell_eqb g (field d "match_id" r)) eqn:Heq;
        [|rewrite andb_false_r; reflexivity].
      apply cell_eqb_eq in Heq. rewrite <- Heq.
      rewrite (proj2 (existsb_cell_In g ids) Hg), andb_true_r. reflexivity.
Qed.

(** X15.  Interactive Visualizations with a selected season that counts
    as false in [if season:] (no season column, no season to select, the
    season 0 or the empty text): the season and the matches table play no
    part.  When the selected team bats in no delivery the view writes "No
    data for selected filters."; when it bats in some, the view draws a
    bar chart with one bar for each non-null match id that has a delivery
    with the team batting, whatever season that match belongs to, the bar
    being the sum of total_runs over those deliveries. *)
Theorem falsy_season_charts_every_season (h : heap) (u : ui)
        (df deliveries : nat) (m d : DataFrame)
        (team_list season_list : list cell) :
  nth_error h df = Some m ->
  nth_error h deliveries = Some d ->
  has_column m "team1" = true ->
  has_column d "match_id" = true ->
  has_column d "batting_team" = true ->
  has_column d "total_runs" = true ->
  numeric_column d "total_runs" = true ->
  sorted (unique (map (field m "team1") (rows m))) = Val team_list ->
  seasons m = Val season_list ->
  let team := selectbox team_list (choice u) in
  let season := selectbox season_list (choice2 u) in
  truthy season = false ->
  exists last,
    interactive_visualizations df deliveries u h
    = (Done tt, h,
       [st_header "Interactive Visualizations";
        st_markdown "Select a team and season to view their run distribution:"
                    [];
        last]) /\
    (((forall r, In r (rows d) ->
                 eq_selected team (field d "batting_team" r) = false) /\
      last = st_info "No data for selected filters.")
     \/
     ((exists r, In r (rows d) /\
                 eq_selected team (field d "batting_team" r) = true) /\
      exists s,
        last = st_bar_chart s /\
        NoDup (map fst s) /\
        (forall g, In g (map fst s)
                   <-> g <> NaN /\
                       exists r, In r (rows d) /\
                                 batted_in d team g r = true) /\
        (forall g t, In (g, t) s ->
           t = total d "total_runs"
                 (filter (batted_in d team g) (rows d))))).
Proof.
  intros Hm Hd H1 Hk Hb Hv Hn Hs Hss team season Ht.
  eexists. split.
  { apply (interactive_all_seasons_run h u df deliveries m d team_list
             season_list
             (nth_error_nth_default _ _ _ Hm) (nth_error_nth_default _ _ _ Hd));
      assumption. }
  fold team. unfold rows_of.
  destruct (chart_of_cases d
              (fun r => eq_selected team (field d "batting_team" r)))
    as [Hnone | [Hsome [s [Hlast [Hnd [Hkeys Htot]]]]]]; [left; exact Hnone|].
  right. split; [exact Hsome|].
  exists s. split; [exact Hlast|]. split; [exact Hnd|]. split.
  - intros g. rewrite Hkeys. unfold batted_in.
    split; intros [Hg [r [Hr Hrest]]]; (split; [exact Hg|]); exists r;
      (split; [exact Hr|]).
    + destruct Hrest as [Hbat Heq].
      rewrite Heq, Hbat, (proj2 (cell_eqb_eq g g) eq_refl). reflexivity.
    + apply andb_true_iff in Hrest as [Heq Hbat]. apply cell_eqb_eq in Heq.
      split; [exact Hbat | symmetry; exact Heq].
  - intros g t Hin. rewrite (Htot g t Hin). f_equal. apply filter_ext.
    intros r. unfold batted_in. apply andb_comm.
Qed.

Lemma season_chart_shows_the_selected_season_witness :
  exists last,
    interactive_visualizations 0 1 (mkUi InteractiveVisualizations 1 0)
                               [Sample.matches; Sample.innings]
    = (Done tt, [Sample.matches; Sample.innings],
       [st_header "Interactive Visualizations";
        st_markdown "Select a team and season to view their run distribution:"
                    [];
        last]) /\
    (((forall r mr,
         In r (rows Sample.innings) -> In mr (rows Sample.matches) ->
         in_season Sample.matches (Some (Num 2008)) (Some (Str "MI")) mr
         = true ->
         eq_selected (Some (Str "MI")) (field Sample.innings "batting_team" r)
         = true ->
         field Sample.matches "id" mr <> field Sample.innings "match_id" r) /\
      last = st_info "No data for selected filters.")
     \/
     ((exists r mr,
         In r (rows Sample.innings) /\ In mr (rows Sample.matches) /\
         in_season Sample.matches (Some (Num 2008)) (Some (Str "MI")) mr
         = true /\
         eq_selected (Some (Str "MI")) (field Sample.innings "batting_team" r)
         = true /\
         field Sample.matches "id" mr = field Sample.innings "match_id" r) /\
      exists s,
        last = st_bar_chart s /\
        NoDup (map fst s) /\
        (forall g, In g (map fst s)
                   <-> g <> NaN /\
                       (exists mr, In mr (rows Sample.matches) /\
                                   in_season Sample.matches (Some (Num 2008))
                                             (Some (Str "MI")) mr = true /\
                                   field Sample.matches "id" mr = g) /\
                       (exists r, In r (rows Sample.innings) /\
                                  batted_in Sample.innings (Some (Str "MI"))
                                            g r = true)) /\
        (forall g t, In (g, t) s ->
           t = total Sample.innings "total_runs"
                 (filter (batted_in Sample.innings (Some (Str "MI")) g)
                         (rows Sample.innings))))).
Proof.
  exact (season_chart_shows_the_selected_season
           [Sample.matches; Sample.innings]
           (mkUi InteractiveVisualizations 1 0) 0 1
           Sample.matches Sample.innings
           [Str "CSK"; Str "MI"; Str "RR"] [Num 2008; Num 2009]
           eq_refl eq_refl eq_refl eq_refl eq_refl eq_refl eq_refl eq_refl
           eq_refl eq_refl eq_refl eq_refl).
Defined.

Lemma falsy_season_charts_every_season_witness :
  exists last,
    interactive_visualizations 0 1 (mkUi InteractiveVisualizations 0 0)
                               [Sample.season_zero; Sample.innings]
    = (Done tt, [Sample.season_zero; Sample.innings],
       [st_header "Interactive Visualizations";
        st_markdown "Select a team and season to view their run distribution:"
                    [];
        last]) /\
    (((forall r, In r (rows Sample.innings) ->
                 eq_selected (Some (Str "MI"))
                             (field Sample.innings "batting_team" r) = false) /\
      last = st_info "No data for selected filters.")
     \/
     ((exists r, In r (rows Sample.innings) /\
                 eq_selected (Some (Str "MI"))
                             (field Sample.innings "batting_team" r) = true) /\
      exists s,
        last = st_bar_chart s /\
        NoDup (map fst s) /\
        (forall g, In g (map fst s)
                   <-> g <> NaN /\
                       exists r, In r (rows Sample.innings) /\
                                 batted_in Sample.innings (Some (Str "MI"))
                                           g r = true) /\
        (forall g t, In (g, t) s ->
           t = total Sample.innings "total_runs"
                 (filter (batted_in Sample.innings (Some (Str "MI")) g)
                         (rows Sample.innings))))).
Proof.
  exact (falsy_season_charts_every_season
           [Sample.season_zero; Sample.innings]
           (mkUi InteractiveVisualizations 0 0) 0 1
           Sample.season_zero Sample.innings
           [Str "MI"; Str "RR"] [Num 0; Num 2009]
           eq_refl eq_refl eq_refl eq_refl eq_refl eq_refl eq_refl eq_refl
           eq_refl eq_refl).
Defined.

(** ** Top Winning Teams *)

Lemma py_eq_cell_eqb (c v : cell) : v <> NaN -> py_eq c v = cell_eqb v c.
Proof.
  destruct c, v; simpl; try reflexivity; try congruence; intros _.
  - apply Z.eqb_sym.
  - apply String.eqb_sym.
Qed.

Lemma count_of_wins (m : DataFrame) (v : cell) :
  v <> NaN ->
  count_of v (map (field m "winner") (rows m)) = wins m (Some v).
Proof.
  intros Hv. unfold count_of, wins, rows_of, tally. f_equal.
  induction (rows m) as [|r rs IH]; [reflexivity|].
  cbn [map filter eq_selected]. rewrite (py_eq_cell_eqb _ v Hv).
  destruct (cell_eqb v (field m "winner" r)); cbn [List.length]; rewrite IH;
    reflexivity.
Qed.

Lemma count_of_positive (v : cell) (s : list cell) :
  0 < count_of v s <-> In v s.
Proof.
  unfold count_of. split.
  - intros H. destruct (filter (cell_eqb v) s) as [|x l] eqn:E;
      [simpl in H; lia|].
    assert (Hx : In x (filter (cell_eqb v) s)) by (rewrite E; left; reflexivity).
    apply filter_In in Hx as [Hx Hv]. apply cell_eqb_eq in Hv. subst x. exact Hx.
  - intros H.
    assert (Hx : In v (filter (cell_eqb v) s)).
    { apply filter_In. split; [exact H | apply cell_eqb_eq; reflexivity]. }
    destruct (filter (cell_eqb v) s); [destruct Hx|]. cbn [List.length]. lia.
Qed.

Lemma in_value_counts (kind : list Z -> list nat) (s : list cell)
      (v : cell) (n : Z) :
  argsort_ok kind (rev (map snd (counts s))) = true ->
  In (v, n) (value_counts kind s)
  <-> v <> NaN /\ In v s /\ n = count_of v s.
Proof.
  intros Hok. destruct (sort_values_desc_spec kind (counts s) Hok) as [Hperm _].
  unfold value_counts. split.
  - intros H. apply (Permutation_in _ Hperm) in H.
    unfold counts in H. apply in_map_iff in H as [x [E Hx]].
    injection E as -> <-. apply in_unique, filter_In in Hx as [Hx Hn].
    split; [destruct v; [discriminate| |]; congruence|]. tauto.
  - intros [Hv [Hin ->]]. apply (Permutation_in _ (Permutation_sym Hperm)).
    unfold counts. apply in_map_iff. exists v. split; [reflexivity|].
    apply in_unique, filter_In. split; [exact Hin|].
    destruct v; [congruence| |]; reflexivity.
Qed.

Lemma value_counts_keys_NoDup (kind : list Z -> list nat) (s : list cell) :
  argsort_ok kind (rev (map snd (counts s))) = true ->
  NoDup (map fst (value_counts kind s)).
Proof.
  intros Hok. destruct (sort_values_desc_spec kind (counts s) Hok) as [Hperm _].
  eapply Permutation_NoDup;
    [apply Permutation_map, Permutation_sym, Hperm|].
  unfold counts. rewrite map_map, map_id. apply unique_NoDup.
Qed.

Lemma descending_app (a b : list Z) :
  descending (a ++ b) -> forall x y, In x a -> In y b -> y <= x.
Proof.
  unfold descending. induction a as [|z a IH]; simpl; intros H x y Hx Hy;
    [destruct Hx|].
  apply StronglySorted_inv in H as [Hs Hall].
  destruct Hx as [<-|Hx].
  - rewrite Forall_forall in Hall. apply Hall, in_or_app. right. exact Hy.
  - exact (IH Hs x y Hx Hy).
Qed.

Lemma NoDup_firstn {A} (n : nat) (l : list A) : NoDup l -> NoDup (firstn n l).
Proof.
  intros H. rewrite <- (firstn_skipn n l) in H.
  exact (NoDup_app_remove_r _ _ H).
Qed.

Lemma in_firstn {A} (n : nat) (l : list A) (x : A) :
  In x (firstn n l) -> In x l.
Proof.
  intros H. rewrite <- (firstn_skipn n l). apply in_or_app. left. exact H.
Qed.

Lemma head_short {A} (n : nat) (l : list A) :
  skipn n l <> [] -> List.length (head n l) = n.
Proof.
  intros H. unfold head. apply firstn_length_le.
  destruct (Nat.le_gt_cases n (List.length l)) as [Hle|Hgt]; [exact Hle|].
  rewrite skipn_all2 in H by lia. contradiction.
Qed.

Lemma top_teams_spec (kind : list Z -> list nat) (n : nat) (s : list cell) :
  argsort_ok kind (rev (map snd (counts s))) = true ->
  let top_teams := head n (value_counts kind s) in
  (List.length top_teams <= n)%nat /\
  descending (map snd top_teams) /\
  NoDup (map fst top_teams) /\
  (forall v c, In (v, c) top_teams ->
               v <> NaN /\ 0 < c /\ c = count_of v s) /\
  (forall v, v <> NaN -> 0 < count_of v s -> ~ In v (map fst top_teams) ->
             List.length top_teams = n /\
             forall p, In p top_teams -> count_of v s <= snd p).
Proof.
  intros Hok. cbv zeta.
  destruct (sort_values_desc_spec kind (counts s) Hok) as [Hperm Hdesc].
  fold (value_counts kind s) in Hperm, Hdesc.
  set (ranked := value_counts kind s) in *.
  split; [apply firstn_le_length|].
  split; [unfold head; rewrite <- firstn_map; apply descending_firstn, Hdesc|].
  split.
  { unfold head. rewrite <- firstn_map. apply NoDup_firstn.
    apply value_counts_keys_NoDup. exact Hok. }
  split.
  - intros v c Hin. apply in_firstn in Hin.
    apply (in_value_counts kind s v c Hok) in Hin as [Hv [Hin ->]].
    split; [exact Hv|]. split; [apply count_of_positive; exact Hin | reflexivity].
  - intros v Hv Hpos Hout.
    assert (Hin : In (v, count_of v s) ranked).
    { apply (in_value_counts kind s v _ Hok).
      split; [exact Hv|]. split; [apply count_of_positive; exact Hpos|reflexivity]. }
    rewrite <- (firstn_skipn n ranked) in Hin. apply in_app_or in Hin.
    destruct Hin as [Hin|Hin].
    { exfalso. apply Hout. apply in_map_iff. exists (v, count_of v s).
      split; [reflexivity | exact Hin]. }
    split.
    + apply head_short. intros E. rewrite E in Hin. destruct Hin.
    + intros p Hp.
      rewrite <- (firstn_skipn n ranked), map_app in Hdesc.
      apply (descending_app _ _ Hdesc (snd p) (count_of v s)).
      * apply in_map. exact Hp.
      * apply (in_map snd) in Hin. exact Hin.
Qed.

(** X16.  Once the run scorers are drawn, the Dashboard draws the Top
    Winning Teams: at most ten bars in descending order of height, no
    team twice; each bar stands for a non-null winner and its height is the
    number of matches that team won, the Total Wins that Team Analysis
    reports for it; a winner left out has no more wins than any team
    drawn, and is left out only when ten are drawn.  The kernel is
    assumed to sort. *)
Theorem top_winning_teams_chart (kind : list Z -> list nat) (h : heap)
        (df deliveries : nat) (m d : DataFrame) (runs : Series) :
  nth_error h df = Some m ->
  nth_error h deliveries = Some d ->
  top_runs kind d = Val runs ->
  runs <> [] ->
  has_column m "winner" = true ->
  argsort_ok kind
    (rev (map snd (counts (map (field m "winner") (rows m))))) = true ->
  exists top_teams s h' page,
    dashboard_overview kind df deliveries h
    = (s, h',
       [st_subheader "🏏 Top 10 Run Scorers";
        st_pyplot (BarPlot runs);
        st_subheader "🏆 Top Winning Teams";
        st_pyplot (BarPlot top_teams)] ++ page) /\
    (List.length top_teams <= 10)%nat /\
    descending (map snd top_teams) /\
    NoDup (map fst top_teams) /\
    (forall v c, In (v, c) top_teams ->
                 v <> NaN /\ 0 < c /\ c = wins m (Some v)) /\
    (forall v, v <> NaN -> 0 < wins m (Some v) ->
               ~ In v (map fst top_teams) ->
               List.length top_teams = 10%nat /\
               forall p, In p top_teams -> wins m (Some v) <= snd p).
Proof.
  intros Hm Hd Hruns Hne Hw Hok.
  set (winner := map (field m "winner") (rows m)) in *.
  exists (head 10 (value_counts kind winner)).
  assert (Hrun : exists s h' page,
             dashboard_overview kind df deliveries h
             = (s, h',
                [st_subheader "🏏 Top 10 Run Scorers";
                 st_pyplot (BarPlot runs);
                 st_subheader "🏆 Top Winning Teams";
                 st_pyplot (BarPlot (head 10 (value_counts kind winner)))]
                ++ page)).
  { unfold dashboard_overview.
    rewrite bind_deref, (nth_error_nth_default _ _ _ Hd).
    rewrite ?bind_assoc, (bind_eval_val _ _ _ _ Hruns).
    rewrite ?bind_assoc, bind_emit.
    assert (Hplot : plot_bar runs = Val (BarPlot runs))
      by (destruct runs; [contradiction | reflexivity]).
    rewrite ?bind_assoc, (bind_eval_val _ _ _ _ Hplot).
    rewrite ?bind_assoc, bind_emit.
    rewrite ?bind_assoc, bind_deref, (nth_error_nth_default _ _ _ Hm).
    rewrite ?bind_assoc, (bind_eval_val _ _ _ _ (getitem_field m "winner" Hw)).
    fold winner.
    rewrite ?bind_assoc, bind_emit.
    rewrite ?bind_assoc, bind_emit.
    match goal with
    | |- exists s h' page, prepend ?a (prepend ?b (prepend ?c (prepend ?e ?r)))
                           = _ =>
        destruct r as [[s h'] page]; exists s, h', page; reflexivity
    end. }
  destruct Hrun as (s & h' & page & Hrun).
  exists s, h', page. split; [exact Hrun|].
  destruct (top_teams_spec kind 10 winner Hok) as (Hlen & Hdesc & Hnd & Hin & Hout).
  split; [exact Hlen|]. split; [exact Hdesc|]. split; [exact Hnd|]. split.
  - intros v c Hvc. destruct (Hin v c Hvc) as (Hv & Hc & E).
    split; [exact Hv|]. split; [exact Hc|].
    rewrite E. apply count_of_wins. exact Hv.
  - intros v Hv Hpos Hnot. unfold winner in Hout.
    rewrite <- (count_of_wins m v Hv) in *.
    exact (Hout v Hv Hpos Hnot).
Qed.

Lemma top_winning_teams_chart_witness :
  exists top_teams s h' page,
    dashboard_overview stable_argsort 0 1 Sample.store
    = (s, h',
       [st_subheader "🏏 Top 10 Run Scorers";
        st_pyplot (BarPlot [(Str "C", 7); (Str "A", 6); (Str "B", 0)]);
        st_subheader "🏆 Top Winning Teams";
        st_pyplot (BarPlot top_teams)] ++ page) /\
    (List.length top_teams <= 10)%nat /\
    descending (map snd top_teams) /\
    NoDup (map fst top_teams) /\
    (forall v c, In (v, c) top_teams ->
                 v <> NaN /\ 0 < c /\ c = wins Sample.matches (Some v)) /\
    (forall v, v <> NaN -> 0 < wins Sample.matches (Some v) ->
               ~ In v (map fst top_teams) ->
               List.length top_teams = 10%nat /\
               forall p, In p top_teams ->
                         wins Sample.matches (Some v) <= snd p).
Proof.
  apply (top_winning_teams_chart stable_argsort Sample.store 0 1
           Sample.matches Sample.deliveries
           [(Str "C", 7); (Str "A", 6); (Str "B", 0)]);
    try reflexivity.
  discriminate.
Defined.
